(** * QPSS middleware: a shallow embedding of the reconciliation pipeline

    The development follows the layout of the Python sources:
    - [Py], [Exn], [PySet] -- the built-ins the sources rely on: string
                            methods, exceptions, the integer [set]
    - [Sage]             -- src/sage_client.py  (the enrichment source)
    - [XmlParser]        -- src/xml_parser.py   (records and the two parsers)
    - [OrderMapper]      -- src/order_mapper.py (the order translator)
    - [ShipStation]      -- src/shipstation_client.py (the retrying gateway)
    - [FileManager]      -- src/file_manager.py (the intake scanner)
    - [XmlGenerator]     -- src/xml_generator.py (the output file pair)
    - [Pending], [Config], [Flow1], [Flow2]
                         -- qpss_middleware.py  (ledger, accounts and the
                            two pipelines)
    followed by the concrete inputs of the examples ([Scenario]) and by the
    properties, one module of facts per component.

    Conventions.  Python [str] values are Rocq strings over ASCII code
    points.  Python [float] values read from the intake files are taken as
    exact rationals ([Q]); only sums, products and comparisons with zero are
    used on them.  A Python [dict] used as a map is a [gmap]; an exception is
    a value of an error type returned in a sum.  File-system and network
    calls are functions of a [World] record, one per pipeline. *)

From Stdlib Require Import Ascii String ZArith QArith Qround.
From stdpp Require Import gmap strings list sorting pretty.

Local Open Scope Z_scope.
Local Open Scope stdpp_scope.

(** ** Python string primitives used by the sources *)

Module Py.

(** [s[a:b]] for [0 <= a <= b]: slices are clamped to the string, they
    never raise. *)
Definition slice (a b : nat) (s : string) : string :=
  String.substring a (b - a) s.

(** [len(s)] *)
Definition len (s : string) : nat := String.length s.

(** Truthiness of a string: [if s:] holds for non-empty strings. *)
Definition truthy (s : string) : bool :=
  match s with EmptyString => false | String _ _ => true end.

Definition is_lower (c : ascii) : bool :=
  (97 <=? nat_of_ascii c)%nat && (nat_of_ascii c <=? 122)%nat.
Definition is_upper (c : ascii) : bool :=
  (65 <=? nat_of_ascii c)%nat && (nat_of_ascii c <=? 90)%nat.
Definition is_alpha (c : ascii) : bool := is_lower c || is_upper c.
Definition is_digit (c : ascii) : bool :=
  (48 <=? nat_of_ascii c)%nat && (nat_of_ascii c <=? 57)%nat.

Definition upper_char (c : ascii) : ascii :=
  if is_lower c then ascii_of_nat (nat_of_ascii c - 32) else c.
Definition lower_char (c : ascii) : ascii :=
  if is_upper c then ascii_of_nat (nat_of_ascii c + 32) else c.

(** [s.upper()] *)
Fixpoint upper (s : string) : string :=
  match s with
  | EmptyString => EmptyString
  | String c r => String (upper_char c) (upper r)
  end.

(** Characters removed by [s.strip()]: tab, line feed, vertical tab, form
    feed, carriage return, the four separators 28..31 and the space. *)
Definition is_space (c : ascii) : bool :=
  let n := nat_of_ascii c in
  ((9 <=? n)%nat && (n <=? 13)%nat) || ((28 <=? n)%nat && (n <=? 32)%nat).

Fixpoint lstrip (s : string) : string :=
  match s with
  | EmptyString => EmptyString
  | String c r => if is_space c then lstrip r else s
  end.

(** [s.strip()] *)
Definition strip (s : string) : string :=
  String.rev (lstrip (String.rev (lstrip s))).

(** [s.isdigit()] on ASCII: non-empty and decimal digits only. *)
Fixpoint all_digits (s : string) : bool :=
  match s with
  | EmptyString => true
  | String c r => is_digit c && all_digits r
  end.
Definition isdigit (s : string) : bool := truthy s && all_digits s.

(** [int(s)] for a string accepted by [isdigit]. *)
Fixpoint int_go (acc : Z) (s : string) : Z :=
  match s with
  | EmptyString => acc
  | String c r => int_go (10 * acc + Z.of_nat (nat_of_ascii c - 48)) r
  end.
Definition int_of_digits (s : string) : Z := int_go 0 s.

(** [c in s] for a one-character needle. *)
Fixpoint contains_char (c : ascii) (s : string) : bool :=
  match s with
  | EmptyString => false
  | String d r => if Ascii.eqb c d then true else contains_char c r
  end.

(** [s.split(c, 1)[1]] when [c] occurs in [s]: what follows the first
    occurrence. *)
Fixpoint after_first (c : ascii) (s : string) : option string :=
  match s with
  | EmptyString => None
  | String d r => if Ascii.eqb c d then Some r else after_first c r
  end.

End Py.

(** ** Exceptions raised and caught by the modelled code *)

Module Exn.

(** The two gateway exception classes are unrelated subclasses of
    [Exception]; the other constructors are the built-in and library
    exceptions that the modelled paths can raise. *)
Inductive exn :=
| ShipStationError (msg : string)
| ShipStationTransientError (msg : string)
| SageConnectionError (msg : string)
| SageQueryError (msg : string)
| ValueError (msg : string)
| TypeError (msg : string)
| KeyError (msg : string)
| ParseError (msg : string).

Definition is_permanent (e : exn) : bool :=
  match e with ShipStationError _ => true | _ => false end.

Definition is_transient (e : exn) : bool :=
  match e with ShipStationTransientError _ => true | _ => false end.

(** [str(e)] *)
Definition message (e : exn) : string :=
  match e with
  | ShipStationError m | ShipStationTransientError m
  | SageConnectionError m | SageQueryError m
  | ValueError m | TypeError m | KeyError m | ParseError m => m
  end.

(** [type(e).__name__] *)
Definition type_name (e : exn) : string :=
  match e with
  | ShipStationError _ => "ShipStationError"
  | ShipStationTransientError _ => "ShipStationTransientError"
  | SageConnectionError _ => "SageConnectionError"
  | SageQueryError _ => "SageQueryError"
  | ValueError _ => "ValueError"
  | TypeError _ => "TypeError"
  | KeyError _ => "KeyError"
  | ParseError _ => "ParseError"
  end.

(** A computation that returns a value or raises. *)
Definition result (A : Type) : Type := exn + A.

End Exn.

(** ** src/sage_client.py: the enrichment source *)

Module Sage.
Import Exn.

(** [OrderItem]: one line of an order. *)
Record OrderItem := mkItem {
  line_number : Z;
  item_number : string;
  description : string;
  qty_ordered : Q;
  qty_shipped : Q;
  unit_price : Q
}.

(** [SageClient.get_order_items]: the lines of an order number, in line
    order; the empty list when the order is unknown.  A failed connection
    raises [SageConnectionError], a failed query [SageQueryError]. *)
Definition SageClient : Type := string -> result (list OrderItem).

End Sage.

(** ** src/xml_parser.py: the decoded work unit *)

Module XmlParser.

(** [PackageDetail]: one package of a DetailIn file; [pkg_shipment_id] is
    its [shipment_id] attribute. *)
Record PackageDetail := mkPackage {
  pkg_shipment_id : string;
  cod_amount : Q;
  comment : string;
  declared_value : Q;
  height : Q;
  length : Q;
  package_id : string;
  package_no : Z;
  units : string;
  weight : Q;
  width : Q
}.

(** [ShipmentHeader]: a dataclass of string attributes.  The parser
    fills it with [setattr] by attribute name, so the instance is kept as
    its attribute dict; the attributes read below have accessors. *)
Record ShipmentHeader := mkHeader { attrs : gmap string string }.

Definition getattr (h : ShipmentHeader) (field : string) : string :=
  default "" (attrs h !! field).

Definition setattr (h : ShipmentHeader) (field value : string)
  : ShipmentHeader :=
  mkHeader (<[field := value]> (attrs h)).

(** [ShipmentHeader()]: the dataclass defaults. *)
Definition header_defaults : list (string * string) :=
  [ ("shipment_id", ""); ("bol_no", ""); ("carrier_code", "");
    ("carrier_service", ""); ("coll_type", ""); ("is_cod", "0");
    ("location", ""); ("is_residential", "0"); ("order_no", "");
    ("order_date", ""); ("po_number", ""); ("ship_addr1", "");
    ("ship_addr2", ""); ("ship_addr3", ""); ("ship_city", "");
    ("ship_contact", ""); ("ship_country", ""); ("ship_date", "");
    ("ship_email", ""); ("ship_name", ""); ("ship_phone", "");
    ("ship_state", ""); ("ship_via_code", ""); ("ship_zip", "");
    ("void", "N"); ("pk_number", ""); ("customer_code", "");
    ("optional_text_001", ""); ("optional_text_009", "");
    ("optional_text_010", ""); ("org_id", ""); ("tracking_number", "");
    ("rate_only", "N") ].

Definition default_header : ShipmentHeader :=
  mkHeader (list_to_map header_defaults).

Definition shipment_id (h : ShipmentHeader) := getattr h "shipment_id".
Definition customer_code (h : ShipmentHeader) := getattr h "customer_code".
Definition order_no (h : ShipmentHeader) := getattr h "order_no".
Definition order_date (h : ShipmentHeader) := getattr h "order_date".
Definition ship_date (h : ShipmentHeader) := getattr h "ship_date".
Definition ship_country (h : ShipmentHeader) := getattr h "ship_country".
Definition ship_via_code (h : ShipmentHeader) := getattr h "ship_via_code".
Definition is_residential (h : ShipmentHeader) := getattr h "is_residential".
Definition is_cod (h : ShipmentHeader) := getattr h "is_cod".
Definition coll_type (h : ShipmentHeader) := getattr h "coll_type".
Definition void (h : ShipmentHeader) := getattr h "void".
Definition rate_only (h : ShipmentHeader) := getattr h "rate_only".

(** [ShipmentDetail]: the package list of a DetailIn file. *)
Record ShipmentDetail := mkDetail { packages : list PackageDetail }.

Definition package_count (d : ShipmentDetail) : nat :=
  List.length (packages d).

Definition package_count_label (d : ShipmentDetail) : string :=
  if (package_count d <=? 1)%nat then "Single Package" else "Multi Package".

(** [_HEADER_FIELD_MAP]: XML element name to attribute name. *)
Definition _HEADER_FIELD_MAP : gmap string string :=
  list_to_map
  [ ("ShipmentID", "shipment_id"); ("BOLNo", "bol_no");
    ("carriercode", "carrier_code"); ("carrierservice", "carrier_service");
    ("colltype", "coll_type"); ("iscod", "is_cod");
    ("location", "location"); ("isresidential", "is_residential");
    ("orderno", "order_no"); ("order_date", "order_date");
    ("ponumber", "po_number"); ("shipaddr1", "ship_addr1");
    ("shipaddr2", "ship_addr2"); ("shipaddr3", "ship_addr3");
    ("shipcity", "ship_city"); ("shipcontact", "ship_contact");
    ("shipcountry", "ship_country"); ("shipdate", "ship_date");
    ("shipemail", "ship_email"); ("shipname", "ship_name");
    ("shipphone", "ship_phone"); ("shipstate", "ship_state");
    ("shipviacode", "ship_via_code"); ("shipzip", "ship_zip");
    ("void", "void"); ("pknumber", "pk_number");
    ("customercode", "customer_code");
    ("optionaltext001", "optional_text_001");
    ("optionaltext009", "optional_text_009");
    ("optionaltext010", "optional_text_010"); ("OrgID", "org_id");
    ("trackingNumber", "tracking_number"); ("RateOnly", "rate_only") ].

(** An XML element as [ElementTree] exposes it: tag, text (absent for an
    empty element) and child elements in document order. *)
#[warnings="-register-all"]
Inductive element :=
| Element (tag : string) (text : option string) (children : list element).

Definition tag_of (e : element) : string :=
  match e with Element t _ _ => t end.
Definition text_of (e : element) : option string :=
  match e with Element _ x _ => x end.
Definition children_of (e : element) : list element :=
  match e with Element _ _ c => c end.

(** [parent.find(tag)]: the first child with that tag. *)
Definition find (parent : element) (tag : string) : option element :=
  List.find (fun c => String.eqb (tag_of c) tag) (children_of parent).

(** [parent.findall(tag)]: the children with that tag. *)
Definition findall (parent : element) (tag : string) : list element :=
  List.filter (fun c => String.eqb (tag_of c) tag) (children_of parent).

(** [parse_header], from the root element of the parsed file. *)
Definition parse_header (root : element) : ShipmentHeader :=
  fold_left
    (fun header el =>
       let text := Py.strip (default "" (text_of el)) in
       match _HEADER_FIELD_MAP !! tag_of el with
       | Some field_name => setattr header field_name text
       | None => header
       end)
    (children_of root) default_header.

(** [_get_text]: empty when the child or its text is missing. *)
Definition _get_text (parent : element) (tag : string) : string :=
  match find parent tag with
  | Some (Element _ (Some t) _) => Py.strip t
  | _ => ""
  end.

(** [int(x)] on a number: truncation towards zero. *)
Definition truncate (q : Q) : Z :=
  if Qle_bool 0 q then Qfloor q else Qceiling q.

Section Detail.
(** The built-in [float(text)]; [None] is its [ValueError]. *)
Variable float_of_string : string -> option Q.

(** [_get_float]: zero when missing, empty or not a number. *)
Definition _get_float (parent : element) (tag : string) : Q :=
  let text := _get_text parent tag in
  if negb (Py.truthy text) then 0%Q
  else default 0%Q (float_of_string text).

(** [x or y] on numbers and on strings. *)
Definition num_or (x y : Q) : Q := if Qeq_bool x 0 then y else x.
Definition str_or (x y : string) : string := if Py.truthy x then x else y.

Definition parse_package (queue_detail : element) : PackageDetail :=
  {| pkg_shipment_id := _get_text queue_detail "ShipmentID";
     cod_amount := _get_float queue_detail "codAmount";
     comment := _get_text queue_detail "comment";
     declared_value := _get_float queue_detail "declaredValue";
     height := _get_float queue_detail "height";
     length := _get_float queue_detail "length";
     package_id := _get_text queue_detail "packageID";
     package_no := truncate (num_or (_get_float queue_detail "packageno") 1);
     units := str_or (_get_text queue_detail "units") "LB";
     weight := _get_float queue_detail "weight";
     width := _get_float queue_detail "width" |}.

(** [parse_detail], from the root element of the parsed file. *)
Definition parse_detail (root : element) : ShipmentDetail :=
  mkDetail (map parse_package (findall root "InQueueDetail")).
End Detail.

End XmlParser.

(** ** src/order_mapper.py: the order translator *)

Module OrderMapper.
Import XmlParser Sage.

(** [build_order_number]: [customercode_ShipmentID]. *)
Definition build_order_number (h : ShipmentHeader) : string :=
  customer_code h +:+ "_" +:+ shipment_id h.

(** [_format_datetime]: the guard looks at emptiness and length only; the
    body is three slices, which cannot raise, so the handler for
    [IndexError] and [ValueError] around it is never entered. *)
Definition _format_datetime (date_str : string) : string :=
  if negb (Py.truthy date_str) || negb (Py.len date_str =? 8)%nat then ""
  else Py.slice 0 4 date_str +:+ "-" +:+ Py.slice 4 6 date_str +:+ "-"
       +:+ Py.slice 6 8 date_str +:+ "T00:00:00".

Record Weight := mkWeight { weight_value : Q; weight_units : string }.

Record Dimensions := mkDimensions {
  dim_length : Q; dim_width : Q; dim_height : Q; dim_units : string
}.

(** One entry of the [items] array. *)
Record OrderLine := mkLine {
  lineItemKey : string;
  sku : string;
  line_name : string;
  quantity : Z;
  unitPrice : option Q
}.

(** The order sent to the gateway.  A key that the translator may leave
    out of the dict is an [option] field.  The [shipTo], [billTo] and
    [internalNotes] keys and the custom fields of [advancedOptions] are
    built from the header independently of the keys below and are not
    tracked. *)
Record Order := mkOrder {
  orderNumber : string;
  orderKey : string;
  orderStatus : string;
  packageCode : string;
  requestedShippingService : string;
  storeId : option Z;
  orderDate : option string;
  shipDate : option string;
  order_weight : option Weight;
  order_dimensions : option Dimensions;
  order_items : option (list OrderLine)
}.

(** [if s: d[key] = s] *)
Definition if_truthy (s : string) : option string :=
  if Py.truthy s then Some s else None.

(** [sum(p.weight for p in detail.packages)]: a left fold from 0. *)
Definition total_weight (ps : list PackageDetail) : Q :=
  fold_left (fun acc p => acc + weight p)%Q ps 0%Q.

(** The key of the [max] call. *)
Definition volume (p : PackageDetail) : Q :=
  (length p * width p * height p)%Q.

(** [a > b] *)
Definition Qgtb (a b : Q) : bool := negb (Qle_bool a b).

(** [max(iterable, key=...)] on a non-empty iterable [first :: rest]: the
    running maximum is replaced only by an item whose key is strictly
    greater, so the first of several maximal items is returned. *)
Definition py_max_by {A} (key : A -> Q) (first : A) (rest : list A) : A :=
  fold_left (fun best x => if Qgtb (key x) (key best) then x else best)
            rest first.

Definition weight_entry (ps : list PackageDetail) : option Weight :=
  let total := total_weight ps in
  if Qgtb total 0 then Some (mkWeight total "pounds") else None.

Definition dimensions_entry (largest : PackageDetail) : option Dimensions :=
  if Qgtb (length largest) 0 && Qgtb (width largest) 0
     && Qgtb (height largest) 0
  then Some (mkDimensions (length largest) (width largest) (height largest)
                          "inches")
  else None.

(** [round(x, 2)]: to the nearest hundredth, ties to the even one. *)
Definition round2 (q : Q) : Q :=
  let scaled := (q * 100)%Q in
  let lo := Qfloor scaled in
  let twice_frac := ((scaled - inject_Z lo) * 2)%Q in
  let n := if Qgtb twice_frac 1 then lo + 1
           else if Qgtb 1 twice_frac then lo
           else if Z.even lo then lo else lo + 1 in
  (inject_Z n / 100)%Q.

(** [_build_items] *)
Definition _build_items (items : list OrderItem) : list OrderLine :=
  map (fun item =>
         {| lineItemKey := pretty (line_number item);
            sku := item_number item;
            line_name := description item;
            quantity := truncate (qty_ordered item);
            unitPrice := if Qgtb (unit_price item) 0
                         then Some (round2 (unit_price item)) else None |})
      items.

(** [map_to_shipstation], restricted to the tracked keys. *)
Definition map_to_shipstation (h : ShipmentHeader) (d : ShipmentDetail)
           (store_id : option Z) (items : list OrderItem) : Order :=
  let order_number := build_order_number h in
  let wd :=
    match packages d with
    | [] => (None, None)
    | first :: rest =>
        (weight_entry (first :: rest),
         dimensions_entry (py_max_by volume first rest))
    end in
  {| orderNumber := order_number;
     orderKey := order_number;
     orderStatus := "awaiting_shipment";
     packageCode := "package";
     requestedShippingService := ship_via_code h;
     storeId := store_id;
     orderDate := if_truthy (_format_datetime (order_date h));
     shipDate := if_truthy (_format_datetime (ship_date h));
     order_weight := fst wd;
     order_dimensions := snd wd;
     order_items := match items with
                    | [] => None
                    | _ => Some (_build_items items)
                    end |}.

End OrderMapper.

(** ** src/shipstation_client.py: the retrying gateway *)

Module ShipStation.
Import Exn.

(** [int(s)] on a header value: surrounding whitespace, an optional sign,
    then decimal digits in groups separated by single underscores.
    [None] stands for the [ValueError] of a string that is not an
    integer literal. *)
Fixpoint digit_groups (prev_digit : bool) (acc : Z) (s : string) : option Z :=
  match s with
  | EmptyString => if prev_digit then Some acc else None
  | String c r =>
      if Py.is_digit c
      then digit_groups true (10 * acc + Z.of_nat (nat_of_ascii c - 48)) r
      else if Ascii.eqb c "_"%char && prev_digit
           then match r with
                | String d _ =>
                    if Py.is_digit d then digit_groups false acc r else None
                | EmptyString => None
                end
           else None
  end.

Definition py_int (s : string) : option Z :=
  match Py.strip s with
  | String "+"%char r => digit_groups false 0 r
  | String "-"%char r => Z.opp <$> digit_groups false 0 r
  | t => digit_groups false 0 t
  end.

(** What one HTTP attempt yields: [requests] raises a
    [RequestException], or a response arrives with a status code, its
    [Retry-After] header when there is one, its text and its decoded
    JSON body. *)
Inductive attempt (J : Type) :=
| NetworkError (msg : string)
| Response (status_code : Z) (retry_after : option string)
           (text : string) (json : J).
Arguments NetworkError {J} msg.
Arguments Response {J} status_code retry_after text json.

(** Observable actions of the retry loop, in program order. *)
Inductive event :=
| Sent (attempt_no : nat)
| Slept (seconds : Z).

(** [time.sleep(secs)] rejects a negative length. *)
Definition sleep (secs : Z) : option exn :=
  if (secs <? 0)%Z then Some (ValueError "sleep length must be non-negative")
  else None.

Record Client := mkClient {
  base_url : string;
  retry_attempts : Z;
  retry_delay : Z
}.

Section Retry.
Context {J : Type}.
Variable self : Client.
(** [env k] is what the [k]-th attempt (counted from 1) of this request
    meets on the wire. *)
Variable env : nat -> attempt J.

(** The iterations [attempt, attempt + 1, ...] of the [for] loop, of
    which [remaining] are left; [last_error] and the trace are threaded
    through. *)
Fixpoint retry_loop (remaining : nat) (attempt_no : nat)
         (last_error : option exn) (trace : list event)
  : result J * list event :=
  match remaining with
  | O =>
      (* All retries exhausted: [raise last_error] *)
      match last_error with
      | Some e => (inl e, trace)
      | None =>
          (inl (TypeError "exceptions must derive from BaseException"),
           trace)
      end
  | S remaining' =>
      let trace := trace ++ [Sent attempt_no] in
      match env attempt_no with
      | NetworkError msg =>
          match sleep (retry_delay self) with
          | Some e => (inl e, trace)
          | None =>
              retry_loop remaining' (S attempt_no)
                (Some (ShipStationTransientError
                         ("Network error: " +:+ msg)))
                (trace ++ [Slept (retry_delay self)])
          end
      | Response status hdr text json =>
          if (status =? 429)%Z then
            match (match hdr with
                   | Some raw => py_int raw
                   | None => Some (retry_delay self)
                   end) with
            | None =>
                (inl (ValueError "invalid literal for int() with base 10"),
                 trace)
            | Some retry_after =>
                match sleep retry_after with
                | Some e => (inl e, trace)
                | None =>
                    retry_loop remaining' (S attempt_no)
                      (Some (ShipStationTransientError
                               ("Rate limited after "
                                +:+ pretty (retry_attempts self)
                                +:+ " attempts")))
                      (trace ++ [Slept retry_after])
                end
            end
          else if (500 <=? status)%Z then
            match sleep (retry_delay self) with
            | Some e => (inl e, trace)
            | None =>
                retry_loop remaining' (S attempt_no)
                  (Some (ShipStationTransientError
                           ("Server error " +:+ pretty status +:+ ": "
                            +:+ Py.slice 0 200 text)))
                  (trace ++ [Slept (retry_delay self)])
            end
          else if (400 <=? status)%Z then
            (inl (ShipStationError
                    ("HTTP " +:+ pretty status +:+ ": "
                     +:+ Py.slice 0 500 text)),
             trace)
          else (inr json, trace)
      end
  end.

(** [_request_with_retry]: [range(1, retry_attempts + 1)] has
    [retry_attempts] iterations, none when that is not positive. *)
Definition _request_with_retry : result J * list event :=
  retry_loop (Z.to_nat (retry_attempts self)) 1 None [].

End Retry.

(** The number of requests put on the wire, and the waits between them. *)
Fixpoint sent_count (tr : list event) : nat :=
  match tr with
  | [] => O
  | Sent _ :: r => S (sent_count r)
  | Slept _ :: r => sent_count r
  end.

Fixpoint sleeps (tr : list event) : list Z :=
  match tr with
  | [] => []
  | Slept n :: r => n :: sleeps r
  | Sent _ :: r => sleeps r
  end.

(** An attempt that the loop answers by waiting and trying again. *)
Definition retryable {J} (a : attempt J) : bool :=
  match a with
  | NetworkError _ => true
  | Response status _ _ _ => (status =? 429)%Z || (500 <=? status)%Z
  end.

(** A 4xx response other than 429. *)
Definition client_error {J} (a : attempt J) : bool :=
  match a with
  | NetworkError _ => false
  | Response status _ _ _ =>
      (400 <=? status)%Z && (status <? 500)%Z && negb (status =? 429)%Z
  end.

(** The wait that follows a retryable attempt: the server's hint for a
    429 that carries an integer [Retry-After], the fixed delay
    otherwise. *)
Definition wait_after {J} (self : Client) (a : attempt J) : option Z :=
match a with
| Response status (Some raw) _ _ =>
    if status =? 429 then py_int raw else Some (retry_delay self)
| _ => Some (retry_delay self)
end.

(** An attempt after which the loop waits a well-defined, non-negative
  time. *)
Definition waits {J} (self : Client) (a : attempt J) : Prop :=
exists secs, wait_after self a = Some secs /\ 0 <= secs.

End ShipStation.

(** ** src/file_manager.py: the intake scanner *)

Module FileManager.

(** *** The two filename patterns

    [^HeaderIn_([A-Za-z]+\d+)_.*\.xml$] and the same with [DetailIn_],
    both compiled with [re.IGNORECASE].  Letters, digits and the
    underscore are disjoint classes, so the greedy runs of [[A-Za-z]+] and
    [\d+] are the maximal ones and no backtracking changes the captured
    group. *)

(** A literal matched without regard to case. *)
Fixpoint strip_prefix_ci (lit s : string) : option string :=
  match lit, s with
  | EmptyString, _ => Some s
  | String a lit', String b s' =>
      if Ascii.eqb (Py.lower_char a) (Py.lower_char b)
      then strip_prefix_ci lit' s' else None
  | String _ _, EmptyString => None
  end.

(** The maximal run of characters of a class at the head of a string, and
    what follows it. *)
Fixpoint span (p : ascii -> bool) (s : string) : string * string :=
  match s with
  | EmptyString => (EmptyString, EmptyString)
  | String c r =>
      if p c then let '(run, rest) := span p r in (String c run, rest)
      else (EmptyString, s)
  end.

Definition newline : ascii := ascii_of_nat 10.

(** The end of the subject for [$]: one final line feed is not counted. *)
Definition chomp (s : string) : string :=
  match String.rev s with
  | String c r => if Ascii.eqb c newline then String.rev r else s
  | EmptyString => s
  end.

(** [.*\.xml$]: no line feed before the extension, which ends the
    subject. *)
Definition tail_matches (tail : string) : bool :=
  let t := chomp tail in
  negb (Py.contains_char newline t)
  && match strip_prefix_ci "lmx." (String.rev t) with
     | Some _ => true
     | None => false
     end.

(** [pattern.match(filename)] followed by [.group(1)]. *)
Definition match_pattern (prefix filename : string) : option string :=
  rest ← strip_prefix_ci prefix filename;
  let '(letters, r1) := span Py.is_alpha rest in
  let '(digits, r2) := span Py.is_digit r1 in
  if Py.truthy letters && Py.truthy digits then
    match r2 with
    | String "_"%char tail =>
        if tail_matches tail then Some (letters +:+ digits) else None
    | _ => None
    end
  else None.

Definition _HEADER_PATTERN : string -> option string :=
  match_pattern "HeaderIn_".
Definition _DETAIL_PATTERN : string -> option string :=
  match_pattern "DetailIn_".

(** *** Pairs *)

Record FilePair := mkPair {
  shipment_id : string;
  header_path : string;
  detail_path : string
}.

(** One name returned by [os.listdir], with what [os.path.isfile] says
    about it. *)
Record DirEntry := mkEntry { name : string; is_file : bool }.

(** [os.path.join(folder, name)] for a relative [name]. *)
Definition path_join (folder name : string) : string :=
  match String.rev folder with
  | EmptyString => name
  | String c _ =>
      if Ascii.eqb c "/"%char then folder +:+ name
      else folder +:+ "/" +:+ name
  end.

Inductive role := Header | Detail.

(** The role and identifier of a directory entry: the header pattern is
    tried first, the detail pattern only when it fails. *)
Definition classify (e : DirEntry) : option (role * string) :=
  if negb (is_file e) then None
  else match _HEADER_PATTERN (name e) with
       | Some sid => Some (Header, sid)
       | None =>
           match _DETAIL_PATTERN (name e) with
           | Some sid => Some (Detail, sid)
           | None => None
           end
       end.

(** The two dicts of the scan: identifier to file path, per role. *)
Record Tables := mkTables {
  headers : gmap string string;
  details : gmap string string
}.

(** One iteration of the listing loop: a later file of the same role and
    identifier overwrites the entry of an earlier one. *)
Definition scan_entry (folder : string) (t : Tables) (e : DirEntry) : Tables :=
  match classify e with
  | Some (Header, sid) =>
      mkTables (<[sid := path_join folder (name e)]> (headers t)) (details t)
  | Some (Detail, sid) =>
      mkTables (headers t) (<[sid := path_join folder (name e)]> (details t))
  | None => t
  end.

Definition scan_listing (folder : string) (listing : list DirEntry) : Tables :=
  fold_left (scan_entry folder) listing (mkTables ∅ ∅).

(** Lines logged at error level. *)
Inductive log_line :=
| FolderMissing (folder : string)
| OrphanHeader (sid : string)
| OrphanDetail (sid : string).

(** [sorted(all_ids)] *)
Definition sorted_ids (t : Tables) : list string :=
  merge_sort String.le (elements (dom (headers t) ∪ dom (details t))).

(** One iteration of the matching loop. *)
Definition match_id (t : Tables) (acc : list FilePair * list log_line)
           (sid : string) : list FilePair * list log_line :=
  let '(pairs, log) := acc in
  match headers t !! sid, details t !! sid with
  | Some h, Some d => (pairs ++ [mkPair sid h d], log)
  | Some _, None => (pairs, log ++ [OrphanHeader sid])
  | None, Some _ => (pairs, log ++ [OrphanDetail sid])
  | None, None => acc
  end.

Definition match_pairs (t : Tables) : list FilePair * list log_line :=
  fold_left (match_id t) (sorted_ids t) ([], []).

(** [scan_for_pairs]: [listing] is [None] when the folder is not a
    directory, and otherwise what [os.listdir] returns, in its order. *)
Definition scan_for_pairs (folder : string) (listing : option (list DirEntry))
  : list FilePair * list log_line :=
  match listing with
  | None => ([], [FolderMissing folder])
  | Some l => match_pairs (scan_listing folder l)
  end.

(** The dict of a role, and the path a pair holds for a role. *)
Definition table_of (r : role) (t : Tables) : gmap string string :=
match r with Header => headers t | Detail => details t end.

Definition role_path (r : role) (p : FilePair) : string :=
match r with Header => header_path p | Detail => detail_path p end.

Definition other (r : role) : role :=
match r with Header => Detail | Detail => Header end.

(** The files a relocation would touch. *)
Definition paths_of (pairs : list FilePair) : list string :=
  flat_map (fun p => [header_path p; detail_path p]) pairs.

End FileManager.

(** ** qpss_middleware.py: the pending ledger *)

Module Pending.
Import XmlParser Sage.

(** The [ship_to] snapshot of a pending record. *)
Record ShipTo := mkShipTo {
  st_name : string; st_company : string;
  st_street1 : string; st_street2 : string; st_street3 : string;
  st_city : string; st_state : string; st_country : string;
  st_postalCode : string; st_phone : string; st_email : string;
  st_residential : bool
}.

(** One entry of the [packages] snapshot. *)
Record Package := mkPackage {
  p_package_id : string; p_package_no : Z;
  p_weight : Q; p_length : Q; p_width : Q; p_height : Q;
  p_declared_value : Q; p_cod_amount : Q;
  p_units : string; p_comment : string
}.

(** One entry of the [items] snapshot. *)
Record Item := mkItem {
  i_line_number : Z; i_item_number : string; i_description : string;
  i_qty_ordered : Q; i_unit_price : Q
}.

(** The pending record of one shipment, as written to and read back from
    its JSON file. *)
Record PendingEntry := mkPending {
  pe_shipment_id : string;
  pe_order_number : string;
  pe_customer_code : string;
  pe_ship_to : ShipTo;
  pe_ship_via : string;
  pe_is_cod : string;
  pe_coll_type : string;
  pe_packages : list Package;
  pe_items : list Item;
  pe_account : string;
  pe_created_at : string
}.

(** The pending folder: one record per shipment identifier, the file
    being named after it. *)
Abbreviation Ledger := (gmap string PendingEntry).

Definition snapshot_ship_to (header : ShipmentHeader) : ShipTo :=
  {| st_name := getattr header "ship_name";
     st_company := "";
     st_street1 := getattr header "ship_addr1";
     st_street2 := getattr header "ship_addr2";
     st_street3 := getattr header "ship_addr3";
     st_city := getattr header "ship_city";
     st_state := getattr header "ship_state";
     st_country := getattr header "ship_country";
     st_postalCode := getattr header "ship_zip";
     st_phone := getattr header "optional_text_001";
     st_email := getattr header "ship_email";
     st_residential := String.eqb (is_residential header) "1" |}.

Definition snapshot_package (pkg : PackageDetail) : Package :=
  {| p_package_id := package_id pkg; p_package_no := package_no pkg;
     p_weight := weight pkg; p_length := length pkg;
     p_width := width pkg; p_height := height pkg;
     p_declared_value := declared_value pkg;
     p_cod_amount := cod_amount pkg;
     p_units := units pkg; p_comment := comment pkg |}.

Definition snapshot_item (item : OrderItem) : Item :=
  {| i_line_number := line_number item;
     i_item_number := item_number item;
     i_description := description item;
     i_qty_ordered := qty_ordered item;
     i_unit_price := unit_price item |}.

(** The document built by [_save_pending_shipment]. *)
Definition pending_data (header : ShipmentHeader) (detail : ShipmentDetail)
           (order_number account : string) (items : list OrderItem)
           (now : string) : PendingEntry :=
  {| pe_shipment_id := shipment_id header;
     pe_order_number := order_number;
     pe_customer_code := customer_code header;
     pe_ship_to := snapshot_ship_to header;
     pe_ship_via := ship_via_code header;
     pe_is_cod := is_cod header;
     pe_coll_type := coll_type header;
     pe_packages := map snapshot_package (packages detail);
     pe_items := map snapshot_item items;
     pe_account := account;
     pe_created_at := now |}.

(** [_save_pending_shipment]: the file of that identifier is replaced. *)
Definition _save_pending_shipment (ledger : Ledger) (entry : PendingEntry)
  : Ledger :=
  <[pe_shipment_id entry := entry]> ledger.

(** [_load_pending_shipment]: [None] when there is no such file. *)
Definition _load_pending_shipment (ledger : Ledger) (shipment_id : string)
  : option PendingEntry :=
  ledger !! shipment_id.

(** [_delete_pending_shipment]: removing a missing file is a no-op. *)
Definition _delete_pending_shipment (ledger : Ledger) (shipment_id : string)
  : Ledger :=
  delete shipment_id ledger.

End Pending.

(** ** qpss_middleware.py: configuration of the remote accounts *)

Module Config.

(** The keys of [config.ini] read by the two pipelines: the API key of
    the optional [[shipstation_ca]] section ([None] without the section)
    and the [store_id] of each section (empty when unset). *)
Record t := mkConfig {
  ca_api_key : option string;
  us_store_id : string;
  ca_store_id : string
}.

Definition ca_configured (c : t) : bool :=
  match ca_api_key c with
  | Some k => Py.truthy k
  | None => false
  end.

(** [_get_all_accounts]: section and label of each configured account. *)
Definition _get_all_accounts (c : t) : list (string * string) :=
  ("shipstation", "US")
    :: (if ca_configured c then [("shipstation_ca", "CA")] else []).

(** [int(store_id_str) if store_id_str.isdigit() else None] *)
Definition store_id_of (c : t) (section : string) : option Z :=
  let raw := if String.eqb section "shipstation_ca"
             then ca_store_id c else us_store_id c in
  if Py.isdigit raw then Some (Py.int_of_digits raw) else None.

(** [_get_account_for_country] *)
Definition _get_account_for_country (c : t) (country : string)
  : string * string * option Z :=
  let '(section, label) :=
    if String.eqb (Py.upper country) "CA" && ca_configured c
    then ("shipstation_ca", "CA") else ("shipstation", "US") in
  (section, label, store_id_of c section).

End Config.

(** ** qpss_middleware.py: the outbound pipeline (Flow 1) *)

Module Flow1.
Import Exn XmlParser Sage OrderMapper FileManager Pending Config.

(** What the run meets outside the process.  Each field is the value
    returned, or the exception raised, by the call it stands for. *)
Record World := mkWorld {
  (** [ET.parse(path).getroot()]; [None] when the file cannot be read or
      is not well-formed, which raises out of the parser. *)
  read_xml : string -> option element;
  (** The built-in [float]. *)
  float_of_string : string -> option Q;
  (** [client.find_order_by_number] of the account's client: whether an
      order of that number exists.  The method absorbs the two gateway
      exceptions itself and answers [None] then. *)
  find_order_by_number : string -> string -> result bool;
  (** [client.create_or_update_order] of the account's client. *)
  create_or_update_order : string -> Order -> result unit;
  (** [datetime.now().isoformat()] *)
  now : string
}.

(** Actions of the run on the enrichment source, the gateway, the ledger
    and the exchange folder, in program order. *)
Inductive effect :=
| SageLookup (order_no : string)
| GatewayFind (account order_number : string)
| GatewayCreate (account : string) (order : Order)
| PendingSaved (entry : PendingEntry)
| MovedToProcessed (pair : FilePair)
| MovedToError (pair : FilePair) (reason : string).

Definition is_remote_call (e : effect) : bool :=
  match e with
  | GatewayFind _ _ | GatewayCreate _ _ => true
  | _ => false
  end.

Definition is_pending_write (e : effect) : bool :=
  match e with PendingSaved _ => true | _ => false end.


(** An entry of [held_orders]. *)
Record HeldOrder := mkHeld {
  held_pair : FilePair;
  held_header : ShipmentHeader;
  held_detail : ShipmentDetail;
  held_account : string;
  held_store_id : option Z;
  held_reason : string
}.

(** The four counters of the summary line. *)
Record Counters := mkCounters {
  processed : nat;
  skipped : nat;
  errors : nat;
  transient_failures : nat
}.

Record RunState := mkState {
  counters : Counters;
  held_orders : list HeldOrder;
  effects : list effect;
  ledger : Ledger
}.

Definition initial (l : Ledger) : RunState :=
  mkState (mkCounters 0 0 0 0) [] [] l.

(** How the [try] block of one unit ends. *)
Inductive ending :=
| Skipped
| Held (h : HeldOrder)
| Processed
| Raised (e : exn).

(** The accumulator of a [try] block: the effects it has performed so
    far and the ledger. *)
Record Progress := mkProgress {
  done_effects : list effect;
  cur_ledger : Ledger
}.

Definition perform (p : Progress) (e : effect) : Progress :=
  mkProgress (done_effects p ++ [e]) (cur_ledger p).

(** The validation of the identifier: only the first package is
    compared, and an identifier missing from it reads as the empty
    string. *)
Definition id_mismatch (header : ShipmentHeader) (detail : ShipmentDetail)
  : bool :=
  match packages detail with
  | [] => false
  | first :: _ =>
      negb (String.eqb (pkg_shipment_id first) (XmlParser.shipment_id header))
  end.

Definition mismatch_message (header : ShipmentHeader)
           (detail : ShipmentDetail) : string :=
  "ShipmentID mismatch: header=" +:+ XmlParser.shipment_id header
  +:+ ", detail="
  +:+ match packages detail with
      | first :: _ => pkg_shipment_id first
      | [] => ""
      end.

(** The item lookup: the lines found and the problem noted, or an
    exception other than the two caught ones. *)
Definition lookup_items (sage : option SageClient) (order_no : string)
           (p : Progress)
  : Progress * result (list OrderItem * option string) :=
  match sage with
  | Some get_order_items =>
      if Py.truthy order_no then
        let p := perform p (SageLookup order_no) in
        match get_order_items order_no with
        | inr [] =>
            (p, inr ([], Some ("Order " +:+ order_no
                               +:+ " not found in Sage 300")))
        | inr items => (p, inr (items, None))
        | inl (SageConnectionError m) | inl (SageQueryError m) =>
            (p, inr ([], Some ("Query error: " +:+ m)))
        | inl e => (p, inl e)
        end
      else (p, inr ([], None))
  | None => (p, inr ([], None))
  end.

(** [sage and header.order_no and not items] *)
Definition must_hold (sage : option SageClient) (order_no : string)
           (items : list OrderItem) : bool :=
  match sage with
  | Some _ => Py.truthy order_no && match items with [] => true | _ => false end
  | None => false
  end.

(** The submission shared by the main loop and by the push of the held
    orders: probe, create or update, write the pending record, relocate
    the pair. *)
Definition submit (w : World) (pair : FilePair) (header : ShipmentHeader)
           (detail : ShipmentDetail) (account : string)
           (store_id : option Z) (items : list OrderItem) (p : Progress)
  : Progress * ending :=
  let order_number := build_order_number header in
  let order_data := map_to_shipstation header detail store_id items in
  let p := perform p (GatewayFind account order_number) in
  match find_order_by_number w account order_number with
  | inl e => (p, Raised e)
  | inr _ =>
      let p := perform p (GatewayCreate account order_data) in
      match create_or_update_order w account order_data with
      | inl e => (p, Raised e)
      | inr _ =>
          let entry := pending_data header detail order_number account
                                    items (now w) in
          let p := mkProgress (done_effects p ++ [PendingSaved entry])
                              (_save_pending_shipment (cur_ledger p) entry) in
          (perform p (MovedToProcessed pair), Processed)
      end
  end.



Section Run.
Variable w : World.
Variable config : Config.t.
Variable sage : option SageClient.
Variable dry_run : bool.

(** The body of the [try] block for one pair. *)
Definition try_unit (pair : FilePair) (p : Progress) : Progress * ending :=
  match read_xml w (header_path pair) with
  | None => (p, Raised (ParseError (header_path pair)))
  | Some header_root =>
  let header := parse_header header_root in
  match read_xml w (detail_path pair) with
  | None => (p, Raised (ParseError (detail_path pair)))
  | Some detail_root =>
  let detail := parse_detail (float_of_string w) detail_root in
  if id_mismatch header detail then
    (p, Raised (ValueError (mismatch_message header detail)))
  else if String.eqb (Py.upper (void header)) "Y" then
    ((if dry_run then p else perform p (MovedToProcessed pair)), Skipped)
  else if String.eqb (Py.upper (rate_only header)) "Y" then
    ((if dry_run then p else perform p (MovedToProcessed pair)), Skipped)
  else
    let '(account_section, _, store_id) :=
      _get_account_for_country config (ship_country header) in
    match lookup_items sage (order_no header) p with
    | (p, inl e) => (p, Raised e)
    | (p, inr (items, sage_problem)) =>
        if must_hold sage (order_no header) items then
          (p, Held (mkHeld pair header detail account_section store_id
                           (default "No items returned" sage_problem)))
        else if dry_run then (p, Processed)
        else submit w pair header detail account_section store_id items p
    end
  end
  end.

Definition bump_processed (c : Counters) : Counters :=
  mkCounters (S (processed c)) (skipped c) (errors c) (transient_failures c).
Definition bump_skipped (c : Counters) : Counters :=
  mkCounters (processed c) (S (skipped c)) (errors c) (transient_failures c).
Definition bump_errors (c : Counters) : Counters :=
  mkCounters (processed c) (skipped c) (S (errors c)) (transient_failures c).
Definition bump_transient (c : Counters) : Counters :=
  mkCounters (processed c) (skipped c) (errors c) (S (transient_failures c)).

(** The three [except] clauses.  [relocate] tells whether the clause
    moves the pair: the main loop does so only on a real run, the push
    of the held orders always. *)
Definition handle (relocate : bool) (pair : FilePair) (e : exn)
           (st : RunState) : RunState :=
  match e with
  | ShipStationError _ | ValueError _ =>
      mkState (bump_errors (counters st)) (held_orders st)
              (effects st ++ (if relocate
                              then [MovedToError pair (message e)] else []))
              (ledger st)
  | ShipStationTransientError _ =>
      mkState (bump_transient (counters st)) (held_orders st)
              (effects st) (ledger st)
  | _ =>
      mkState (bump_errors (counters st)) (held_orders st)
              (effects st ++ (if relocate
                              then [MovedToError pair
                                      (type_name e +:+ ": " +:+ message e)]
                              else []))
              (ledger st)
  end.

(** Folding the end of a [try] block into the run state. *)
Definition conclude (relocate : bool) (pair : FilePair)
           (r : Progress * ending) (st : RunState) : RunState :=
  let '(p, e) := r in
  let st := mkState (counters st) (held_orders st) (done_effects p)
                    (cur_ledger p) in
  match e with
  | Skipped =>
      mkState (bump_skipped (counters st)) (held_orders st)
              (effects st) (ledger st)
  | Held h =>
      mkState (counters st) (held_orders st ++ [h]) (effects st) (ledger st)
  | Processed =>
      mkState (bump_processed (counters st)) (held_orders st)
              (effects st) (ledger st)
  | Raised x => handle relocate pair x st
  end.

(** One iteration of the main loop. *)
Definition process_pair (st : RunState) (pair : FilePair) : RunState :=
  conclude (negb dry_run) pair
           (try_unit pair (mkProgress (effects st) (ledger st))) st.

(** The operator's answer to the prompt about the held cohort. *)
Inductive choice := PushAll | SkipAll.

Definition skip_held (st : RunState) (_ : HeldOrder) : RunState :=
  mkState (bump_skipped (counters st)) (held_orders st) (effects st)
          (ledger st).

Definition push_held (st : RunState) (h : HeldOrder) : RunState :=
  conclude true (held_pair h)
           (submit w (held_pair h) (held_header h) (held_detail h)
                   (held_account h) (held_store_id h) []
                   (mkProgress (effects st) (ledger st)))
           st.

(** Step 3: one decision for all held units; a dry run skips the
    prompt and counts them as skipped. *)
Definition decide_held (answer : choice) (st : RunState) : RunState :=
  if dry_run then fold_left skip_held (held_orders st) st
  else match answer with
       | SkipAll => fold_left skip_held (held_orders st) st
       | PushAll => fold_left push_held (held_orders st) st
       end.

(** [run_flow1] from the scan onwards. *)
Definition run_flow1 (pairs : list FilePair) (answer : choice)
           (l : Ledger) : RunState :=
  decide_held answer (fold_left process_pair pairs (initial l)).

End Run.

(** The effects that one iteration adds, and how it changes the
    counters. *)
Definition unit_effects (w : World) (config : Config.t)
           (sage : option SageClient) (dry_run : bool) (pair : FilePair)
           (l : Ledger) : list effect :=
  effects (process_pair w config sage dry_run (initial l) pair).

Definition unit_counters (w : World) (config : Config.t)
           (sage : option SageClient) (dry_run : bool) (pair : FilePair)
           (l : Ledger) : Counters :=
  counters (process_pair w config sage dry_run (initial l) pair).

End Flow1.


(** ** The built-in [set] of integers, as CPython lays it out

    [run_flow2] turns the persisted identifier list into a [set], adds to
    it, and turns it back into a list.  The order of that list is the order
    of the slots of the set's hash table, so the table is modelled: open
    addressing, ten linear probes then a perturbed jump, growth when the
    table is three fifths full.  An integer hashes to itself reduced modulo
    [2^61 - 1]. *)

Module PySet.

Definition LINEAR_PROBES : Z := 9.
Definition PERTURB_SHIFT : Z := 5.
Definition PySet_MINSIZE : Z := 8.

(** The table (a free slot is [None]) and the number of used slots. *)
Record t := mkSet { table : list (option Z); used : Z }.

Definition mask_of (tbl : list (option Z)) : Z := Z.of_nat (length tbl) - 1.

(** [hash(k)] for an [int]. *)
Definition hash (k : Z) : Z :=
  let h := Z.sgn k * (Z.abs k mod (2 ^ 61 - 1)) in
  if h =? -1 then -2 else h.

(** The first slot among [i, i+1, ..., i+n-1] that is free or holds [key];
    the flag tells which. *)
Fixpoint scan_run (tbl : list (option Z)) (key : Z) (i : nat) (n : nat)
  : option (nat * bool) :=
  match n with
  | O => None
  | S n' =>
      match tbl !! i with
      | Some None => Some (i, false)
      | Some (Some k) =>
          if k =? key then Some (i, true) else scan_run tbl key (S i) n'
      | None => None
      end
  end.

(** The probe sequence of [set_add_entry] and [set_insert_clean]. *)
Fixpoint probe (fuel : nat) (tbl : list (option Z)) (key : Z) (i perturb : Z)
  : option (nat * bool) :=
  match fuel with
  | O => None
  | S fuel' =>
      let mask := mask_of tbl in
      let probes := if i + LINEAR_PROBES <=? mask then LINEAR_PROBES else 0 in
      match scan_run tbl key (Z.to_nat i) (Z.to_nat (probes + 1)) with
      | Some r => Some r
      | None =>
          let perturb := Z.shiftr perturb PERTURB_SHIFT in
          probe fuel' tbl key (Z.land (i * 5 + 1 + perturb) mask) perturb
      end
  end.

(** The slot for [key]: a free slot is always met while the table has
    one, which the load factor guarantees; the fuel covers the jumps until
    then. *)
Definition slot_for (tbl : list (option Z)) (key : Z) : option (nat * bool) :=
  let h := hash key in
  probe (length tbl + 16) tbl key (Z.land h (mask_of tbl)) (h mod 2 ^ 64).

(** [set_insert_clean]: insertion of a key known to be absent. *)
Definition insert_clean (tbl : list (option Z)) (key : Z) : list (option Z) :=
  match slot_for tbl key with
  | Some (i, _) => <[i := Some key]> tbl
  | None => tbl
  end.

(** The size chosen by [set_table_resize]: the first power of two from
    [PySet_MINSIZE] that exceeds [minused]. *)
Fixpoint grow_size (fuel : nat) (newsize minused : Z) : Z :=
  match fuel with
  | O => newsize
  | S fuel' =>
      if newsize <=? minused then grow_size fuel' (newsize * 2) minused
      else newsize
  end.

(** [set_table_resize]: the active entries are re-inserted in slot
    order. *)
Definition resize (tbl : list (option Z)) (minused : Z) : list (option Z) :=
  let newsize := grow_size 64 PySet_MINSIZE minused in
  fold_left (fun acc e => match e with
                          | Some k => insert_clean acc k
                          | None => acc
                          end)
            tbl (replicate (Z.to_nat newsize) None).

(** [set()] *)
Definition empty : t := mkSet (replicate (Z.to_nat PySet_MINSIZE) None) 0.

(** [s.add(key)] *)
Definition add (s : t) (key : Z) : t :=
  match slot_for (table s) key with
  | Some (_, true) => s
  | Some (i, false) =>
      let tbl := <[i := Some key]> (table s) in
      let n := used s + 1 in
      if n * 5 <? mask_of tbl * 3 then mkSet tbl n
      else mkSet (resize tbl (if 50000 <? n then n * 2 else n * 4)) n
  | None => s
  end.

(** [set(iterable)] *)
Definition of_list (l : list Z) : t := fold_left add l empty.

(** [key in s] *)
Definition contains (s : t) (key : Z) : bool :=
  existsb (fun e => match e with Some k => k =? key | None => false end)
          (table s).

(** [list(s)]: the active entries in slot order. *)
Definition to_list (s : t) : list Z := omap id (table s).

End PySet.


(** ** src/xml_generator.py: the output file pair *)

Module XmlGenerator.
Import Exn XmlParser Pending.

(** A shipment of [GET /shipments]; a key that may be missing from the
    dict is an [option]. *)
Record Shipment := mkShipment {
  shipmentId : Z;
  orderNumber : string;
  trackingNumber : option string;
  carrierCode : option string;
  serviceCode : option string;
  shipDate : option string;
  weight_value : option Q;
  weight_units : option string;
  dim_length : option Q;
  dim_width : option Q;
  dim_height : option Q
}.

(** [_add]: an empty text is written as a line feed and eight spaces. *)
Definition _add (tag text : string) : element :=
  Element tag
          (Some (if Py.truthy text then text
                 else String FileManager.newline "        "))
          [].

(** [s.replace("-", "")] *)
Fixpoint remove_dashes (s : string) : string :=
  match s with
  | EmptyString => EmptyString
  | String c r =>
      if Ascii.eqb c "-"%char then remove_dashes r
      else String c (remove_dashes r)
  end.

(** [_to_yyyymmdd] *)
Definition _to_yyyymmdd (iso_date : string) : string :=
  if negb (Py.truthy iso_date) then ""
  else remove_dashes (Py.slice 0 10 iso_date).

Section Generator.
(** [_fmt_decimal]: a number printed with a fixed number of decimals. *)
Variable _fmt_decimal : Q -> nat -> string.

(** [d.get(key, "")] on the ship-from dict. *)
Definition get_or_empty (d : gmap string string) (key : string) : string :=
  default "" (d !! key).

(** [_build_header_out]: the children of [OutQueueHeader], in order. *)
Definition _build_header_out (shipment_id order_number : string)
           (pending : PendingEntry) (shipment : Shipment)
           (ship_from : gmap string string) : element :=
  let ship_to := pe_ship_to pending in
  Element "SmartlincOutHeader" None
   [ Element "OutQueueHeader" None
     [ _add "ShipmentID" shipment_id;
       _add "P_ShipmentID" order_number;
       _add "void" "N";
       _add "errormessage" "";
       _add "carriercode" (default "" (carrierCode shipment));
       _add "carrierservice" (default "" (serviceCode shipment));
       _add "shipvia" (pe_ship_via pending);
       _add "trackingNumber" (default "" (trackingNumber shipment));
       _add "shipDate" (_to_yyyymmdd (default "" (shipDate shipment)));
       _add "shiptoID" (st_company ship_to);
       _add "shipName" (st_name ship_to);
       _add "shipAddr1" (st_street1 ship_to);
       _add "shipAddr2" (st_street2 ship_to);
       _add "shipAddr3" (st_street3 ship_to);
       _add "shipCity" (st_city ship_to);
       _add "shipState" (st_state ship_to);
       _add "shipCountry" (st_country ship_to);
       _add "shipzip" (st_postalCode ship_to);
       _add "shipContact" "";
       _add "shipPhone" (st_phone ship_to);
       _add "shipEmail" (st_email ship_to);
       _add "isCOD" (pe_is_cod pending);
       _add "isResidential" (if st_residential ship_to then "1" else "0");
       _add "reference" "";
       _add "colltype" (pe_coll_type pending);
       _add "shipperCost" "0.0000";
       _add "actualCost" "";
       _add "customerCharge" "";
       _add "tpAccountno" ""; _add "tpName" ""; _add "tpAddr1" "";
       _add "tpAddr2" ""; _add "tpAddr3" ""; _add "tpCity" "";
       _add "tpState" ""; _add "tpZip" ""; _add "tpCountry" "";
       _add "tpContact" ""; _add "tpPhone" "";
       _add "SFACCOUNTNO" (get_or_empty ship_from "account_no");
       _add "sfName" (get_or_empty ship_from "name");
       _add "sfAddr1" (get_or_empty ship_from "addr1");
       _add "sfAddr2" (get_or_empty ship_from "addr2");
       _add "sfAddr3" (get_or_empty ship_from "addr3");
       _add "sfAddr4" (get_or_empty ship_from "addr4");
       _add "sfCity" (get_or_empty ship_from "city");
       _add "sfState" (get_or_empty ship_from "state");
       _add "sfZip" (get_or_empty ship_from "zip");
       _add "sfCountry" (get_or_empty ship_from "country");
       _add "sfContact" (get_or_empty ship_from "contact");
       _add "sfPhone" (get_or_empty ship_from "phone") ] ].

(** One [DetailLine] per package of the snapshot. *)
Definition detail_line (shipment_id order_number tracking : string)
           (pkg : Package) : element :=
  Element "DetailLine" None
   [ _add "ShipmentID" shipment_id;
     _add "P_ShipmentID" order_number;
     _add "packageID" (p_package_id pkg);
     _add "packageno" (pretty (p_package_no pkg));
     _add "weight" (_fmt_decimal (p_weight pkg) 6);
     _add "length" (_fmt_decimal (p_length pkg) 6);
     _add "width" (_fmt_decimal (p_width pkg) 6);
     _add "height" (_fmt_decimal (p_height pkg) 6);
     _add "declaredValue" (_fmt_decimal (p_declared_value pkg) 4);
     _add "codAmount" (_fmt_decimal (p_cod_amount pkg) 4);
     _add "units" (p_units pkg);
     _add "packageCost" "0.0";
     _add "trackingNumber" tracking;
     _add "comment" (p_comment pkg) ].

(** The single line written when the snapshot has no package. *)
Definition fallback_line (shipment_id order_number tracking : string)
           (shipment : Shipment) : element :=
  let weight_val := default 0%Q (weight_value shipment) in
  let weight_val :=
    if String.eqb (default "ounces" (weight_units shipment)) "ounces"
       && negb (Qeq_bool weight_val 0)
    then (weight_val / 16)%Q else weight_val in
  Element "DetailLine" None
   [ _add "ShipmentID" shipment_id;
     _add "P_ShipmentID" order_number;
     _add "packageID" "";
     _add "packageno" "1";
     _add "weight" (_fmt_decimal weight_val 6);
     _add "length" (_fmt_decimal (default 0%Q (dim_length shipment)) 6);
     _add "width" (_fmt_decimal (default 0%Q (dim_width shipment)) 6);
     _add "height" (_fmt_decimal (default 0%Q (dim_height shipment)) 6);
     _add "declaredValue" "0.0000";
     _add "codAmount" "0.0000";
     _add "units" "LB";
     _add "packageCost" "0.0";
     _add "trackingNumber" tracking;
     _add "comment" "" ].

(** [_build_detail_out] *)
Definition _build_detail_out (shipment_id order_number : string)
           (shipment : Shipment) (packages : list Package) : element :=
  let tracking := default "" (trackingNumber shipment) in
  Element "SmartlincOutDetail" None
    match packages with
    | [] => [fallback_line shipment_id order_number tracking shipment]
    | _ => map (detail_line shipment_id order_number tracking) packages
    end.

(** The arguments of a call of [generate_out_files].  The function
    declares four parameters, [pending], [shipment], [out_folder] and
    [ship_from], none with a default; an argument that a call does not pass
    is [None] here. *)
Record Call := mkCall {
  arg_pending : option PendingEntry;
  arg_shipment : option Shipment;
  arg_out_folder : option string;
  arg_ship_from : option (gmap string string)
}.

(** What a successful call writes and returns. *)
Record Written := mkWritten {
  header_path : string;
  header_xml : element;
  detail_path : string;
  detail_xml : element
}.

(** [generate_out_files]: binding the arguments fails with a [TypeError]
    when a parameter has no argument; [timestamp] is the formatted clock
    used in the two file names. *)
Definition generate_out_files (timestamp : string) (c : Call)
  : result Written :=
  match arg_pending c, arg_shipment c, arg_out_folder c, arg_ship_from c with
  | Some pending, Some shipment, Some out_folder, Some ship_from =>
      let shipment_id := pe_shipment_id pending in
      let order_number := pe_order_number pending in
      inr {| header_path :=
               FileManager.path_join out_folder
                 ("HEADEROUT_" +:+ shipment_id +:+ "_" +:+ timestamp
                  +:+ ".XML");
             header_xml :=
               _build_header_out shipment_id order_number pending shipment
                                 ship_from;
             detail_path :=
               FileManager.path_join out_folder
                 ("DETAILOUT_" +:+ shipment_id +:+ "_" +:+ timestamp
                  +:+ ".XML");
             detail_xml :=
               _build_detail_out shipment_id order_number shipment
                                 (pe_packages pending) |}
  | _, _, _, _ =>
      inl (TypeError
             "generate_out_files() missing 1 required positional argument")
  end.

End Generator.

End XmlGenerator.


(** ** qpss_middleware.py: the inbound reconciliation pipeline (Flow 2) *)

Module Flow2.
Import Exn Pending XmlGenerator.

(** The run-state document. *)
Record State := mkState {
  last_poll_date : option string;
  processed_shipment_ids : list Z
}.

(** [_load_flow2_state]: the document, or the initial one when the file
    does not exist. *)
Definition _load_flow2_state (file : option State) : State :=
  default (mkState None []) file.

(** [re.match(r"^[A-Za-z]+\d+$", s)]: letters, digits, then the end of the
    subject, before which one final line feed is allowed. *)
Definition id_pattern (s : string) : bool :=
  let '(letters, r1) := FileManager.span Py.is_alpha s in
  let '(digits, r2) := FileManager.span Py.is_digit r1 in
  Py.truthy letters && Py.truthy digits
  && (String.eqb r2 "" || String.eqb r2 (String FileManager.newline "")).

(** [_is_our_order] *)
Definition _is_our_order (order_number : string) : bool :=
  match Py.after_first "_"%char order_number with
  | Some suffix => id_pattern suffix
  | None => false
  end.

(** [order_num.split("_", 1)[1] if "_" in order_num else order_num] *)
Definition shipment_id_of (order_num : string) : string :=
  default order_num (Py.after_first "_"%char order_num).

(** One page of [client.list_shipments]; [pages] is the total the server
    announces. *)
Record Page := mkPage { shipments : list Shipment; pages : Z }.

(** What the run meets outside the process. *)
Record World := mkWorld {
  (** [client.list_shipments] of the account's client, for a store, a
      window start and a page number. *)
  list_shipments : string -> option Z -> string -> Z -> result Page;
  (** [datetime.now().strftime("%Y-%m-%d")] *)
  today : string;
  (** The same for the date seven days back. *)
  week_ago : string;
  (** The formatted clock used in output file names. *)
  timestamp : string;
  (** [_fmt_decimal] of the generator. *)
  fmt_decimal : Q -> nat -> string;
  (** [config.get("paths", "quikpak_out")] *)
  out_folder : string
}.

(** The durable state the run reads and writes. *)
Record Disk := mkDisk {
  state_file : option State;
  ledger : Ledger;
  out_files : list Written
}.

Record Counters := mkCounters {
  processed : nat;
  skipped : nat;
  errors : nat
}.

(** How a possibly unbounded computation ends. *)
Inductive outcome (A : Type) :=
| Done (a : A)
| Raised (e : exn)
| OutOfFuel.
Arguments Done {A} a.
Arguments Raised {A} e.
Arguments OutOfFuel {A}.

(** One of the two exception classes of the gateway. *)
Definition gateway_error (e : exn) : bool := is_permanent e || is_transient e.

Definition MAX_PROCESSED_IDS : nat := 500.

(** [l[-n:]] for a positive [n]. *)
Definition last_n {A} (n : nat) (l : list A) : list A :=
  drop (length l - n) l.

Section Run.
Variable w : World.
Variable config : Config.t.
Variable dry_run : bool.

(** The pagination loop of one account.  The two gateway exceptions end
    it and keep what was fetched; any other exception leaves the run. *)
Fixpoint fetch_pages (fuel : nat) (section : string) (store_id : option Z)
         (start_date : string) (page : Z) (all_shipments : list Shipment)
  : outcome (list Shipment) :=
  match fuel with
  | O => OutOfFuel
  | S fuel' =>
      match list_shipments w section store_id start_date page with
      | inl (ShipStationError _) | inl (ShipStationTransientError _) =>
          Done all_shipments
      | inl e => Raised e
      | inr result =>
          let all_shipments := all_shipments ++ shipments result in
          if pages result <=? page then Done all_shipments
          else fetch_pages fuel' section store_id start_date (page + 1)
                           all_shipments
      end
  end.

(** The pagination of an account ends at [page]: the fetch fails there,
    or that page is the last one the server announces. *)
Definition ends_at (section : string) (store_id : option Z)
           (start_date : string) (page : Z) : Prop :=
  match list_shipments w section store_id start_date page with
  | inl _ => True
  | inr result => pages result <= page
  end.

(** The loop over the configured accounts. *)
Fixpoint fetch_accounts (fuel : nat) (accounts : list (string * string))
         (start_date : string) (all_shipments : list Shipment)
  : outcome (list Shipment) :=
  match accounts with
  | [] => Done all_shipments
  | (section, _) :: rest =>
      match fetch_pages fuel section (Config.store_id_of config section)
                        start_date 1 all_shipments with
      | Done all_shipments => fetch_accounts fuel rest start_date all_shipments
      | Raised e => Raised e
      | OutOfFuel => OutOfFuel
      end
  end.

(** The filter: our orders that are not in the dedup set. *)
Definition is_new (processed_ids : PySet.t) (s : Shipment) : bool :=
  _is_our_order (orderNumber s)
  && negb (PySet.contains processed_ids (shipmentId s)).

(** The state of the loop over the new shipments. *)
Record Loop := mkLoop {
  l_processed_ids : PySet.t;
  l_ledger : Ledger;
  l_written : list Written;
  l_counters : Counters
}.

Definition bump_processed (c : Counters) : Counters :=
  mkCounters (S (processed c)) (skipped c) (errors c).
Definition bump_skipped (c : Counters) : Counters :=
  mkCounters (processed c) (S (skipped c)) (errors c).
Definition bump_errors (c : Counters) : Counters :=
  mkCounters (processed c) (skipped c) (S (errors c)).

(** The call in the loop body: it passes [pending], [shipment] and
    [out_folder] and nothing for [ship_from]. *)
Definition the_call (pending : PendingEntry) (shipment : Shipment) : Call :=
  {| arg_pending := Some pending;
     arg_shipment := Some shipment;
     arg_out_folder := Some (out_folder w);
     arg_ship_from := None |}.

(** One iteration of the loop over the new shipments; the [except
    Exception] clause counts an error and goes on. *)
Definition reconcile (st : Loop) (shipment : Shipment) : Loop :=
  let ss_shipment_id := shipmentId shipment in
  let shipment_id := shipment_id_of (orderNumber shipment) in
  match _load_pending_shipment (l_ledger st) shipment_id with
  | None =>
      mkLoop (PySet.add (l_processed_ids st) ss_shipment_id) (l_ledger st)
             (l_written st) (bump_skipped (l_counters st))
  | Some pending =>
      if dry_run then
        mkLoop (l_processed_ids st) (l_ledger st) (l_written st)
               (bump_processed (l_counters st))
      else
        match generate_out_files (fmt_decimal w) (timestamp w)
                                 (the_call pending shipment) with
        | inr files =>
            mkLoop (PySet.add (l_processed_ids st) ss_shipment_id)
                   (_delete_pending_shipment (l_ledger st) shipment_id)
                   (l_written st ++ [files])
                   (bump_processed (l_counters st))
        | inl _ =>
            mkLoop (l_processed_ids st) (l_ledger st) (l_written st)
                   (bump_errors (l_counters st))
        end
  end.

(** The identifier list that is persisted: the set as a list, cut to its
    last [MAX_PROCESSED_IDS] elements when it is longer. *)
Definition capped (processed_ids : PySet.t) : list Z :=
  let id_list := PySet.to_list processed_ids in
  if (MAX_PROCESSED_IDS <? length id_list)%nat
  then last_n MAX_PROCESSED_IDS id_list else id_list.

(** [start_date]: the watermark, or seven days back on a first run. *)
Definition start_date_of (state : State) : string :=
  match last_poll_date state with
  | Some d => if Py.truthy d then d else week_ago w
  | None => week_ago w
  end.

(** [run_flow2]; [fuel] bounds the pages fetched from one account. *)
Definition run_flow2 (fuel : nat) (disk : Disk) : outcome (Disk * Counters) :=
  let state := _load_flow2_state (state_file disk) in
  let processed_ids := PySet.of_list (processed_shipment_ids state) in
  let start_date := start_date_of state in
  match fetch_accounts fuel (Config._get_all_accounts config) start_date [] with
  | Raised e => Raised e
  | OutOfFuel => OutOfFuel
  | Done all_shipments =>
      match List.filter (is_new processed_ids) all_shipments with
      | [] =>
          Done (if dry_run then disk
                else mkDisk (Some (mkState (Some (today w))
                                           (processed_shipment_ids state)))
                            (ledger disk) (out_files disk),
                mkCounters 0 0 0)
      | new_shipments =>
          let st := fold_left reconcile new_shipments
                              (mkLoop processed_ids (ledger disk)
                                      (out_files disk) (mkCounters 0 0 0)) in
          Done (if dry_run
                then mkDisk (state_file disk) (l_ledger st) (l_written st)
                else mkDisk (Some (mkState (Some (today w))
                                           (capped (l_processed_ids st))))
                            (l_ledger st) (l_written st),
                l_counters st)
      end
  end.

End Run.

End Flow2.


(** * Further parts of the sources

    The modules below embed functions of the same files that the modules
    above leave out, and name the notions their properties are stated
    with. *)

(** ** src/file_manager.py: what the scan returns for one identifier *)

Module ScanSpec.
Import FileManager.

(** The listing holds a regular file of that role and identifier. *)
Definition has_role (listing : list DirEntry) (r : role) (sid : string)
  : Prop :=
  exists e, e ∈ listing /\ classify e = Some (r, sid).

(** The pair appended for an identifier, when both dicts hold it. *)
Definition pair_of (t : Tables) (sid : string) : option FilePair :=
  match headers t !! sid, details t !! sid with
  | Some h, Some d => Some (mkPair sid h d)
  | _, _ => None
  end.

(** The line logged for an identifier, when one dict only holds it. *)
Definition orphan_of (t : Tables) (sid : string) : option log_line :=
  match headers t !! sid, details t !! sid with
  | Some _, None => Some (OrphanHeader sid)
  | None, Some _ => Some (OrphanDetail sid)
  | _, _ => None
  end.

End ScanSpec.

(** ** Strings: a character class holding throughout a string *)

Module StrSpec.

Fixpoint all_chars (p : ascii -> bool) (s : string) : bool :=
  match s with
  | EmptyString => true
  | String c r => p c && all_chars p r
  end.

(** The first character of a non-empty string is outside the class. *)
Definition stops (p : ascii -> bool) (s : string) : bool :=
  match s with
  | EmptyString => true
  | String c _ => negb (p c)
  end.

End StrSpec.

(** ** src/shipstation_client.py: a wait that cannot be taken *)

Module RetrySpec.
Import ShipStation.


Section Outcome.
Context {J : Type}.
Variable self : Client.
Variable env : nat -> attempt J.


End Outcome.

End RetrySpec.

(** ** qpss_middleware.py: reading the summary and the trace of Flow 1 *)

Module Flow1Spec.
Import Flow1.

(** The sum of the four counters of the summary line. *)
Definition tally (c : Counters) : nat :=
  (processed c + skipped c + errors c + transient_failures c)%nat.

(** A move of a pair out of the intake folder. *)
Definition is_relocation (e : effect) : bool :=
  match e with
  | MovedToProcessed _ | MovedToError _ _ => true
  | _ => false
  end.

Definition is_sage_lookup (e : effect) : bool :=
  match e with SageLookup _ => true | _ => false end.

(** The number of effects of a kind in a trace. *)
Definition count (kind : effect -> bool) (trace : list effect) : nat :=
  List.length (List.filter kind trace).

(** The pending records written, in the order of the trace. *)
Definition pending_writes (trace : list effect) : list Pending.PendingEntry :=
  omap (fun e => match e with PendingSaved x => Some x | _ => None end) trace.

(** The gateway accepts an order: [client.create_or_update_order] of
    the account's client returns for it instead of raising. *)
Definition accepted (w : World) (account : string)
           (order : OrderMapper.Order) : bool :=
  match create_or_update_order w account order with
  | inr _ => true
  | inl _ => false
  end.

(** Every pending record of a trace is backed by an accepted order: it
    stands between the creation of an order of its number in its account,
    which the gateway of the run accepts, and the move of the pair to the
    processed folder. *)
Fixpoint backed (w : World) (trace : list effect) : bool :=
  match trace with
  | [] => true
  | GatewayCreate account order :: PendingSaved entry
      :: MovedToProcessed _ :: rest =>
      String.eqb account (Pending.pe_account entry)
      && String.eqb (OrderMapper.orderNumber order)
                    (Pending.pe_order_number entry)
      && accepted w account order
      && backed w rest
  | PendingSaved _ :: _ => false
  | _ :: rest => backed w rest
  end.

(** The held units that the operator's answer leaves where they are. *)
Definition left_held (dry_run : bool) (answer : choice) (st : RunState)
  : nat :=
  if dry_run then List.length (held_orders st)
  else match answer with
       | SkipAll => List.length (held_orders st)
       | PushAll => O
       end.

End Flow1Spec.

(** ** qpss_middleware.py: reading the summary of Flow 2 *)

Module Flow2Spec.
Import Flow2.

(** The sum of the three counters of the summary line. *)
Definition tally (c : Counters) : nat :=
  (processed c + skipped c + errors c)%nat.

(** The shipments that the run takes up: what the accounts returned,
    filtered by [is_new] against the persisted identifiers. *)
Definition candidates (disk : Disk) (fetched : list XmlGenerator.Shipment)
  : list XmlGenerator.Shipment :=
  List.filter
    (is_new (PySet.of_list
               (processed_shipment_ids
                  (_load_flow2_state (state_file disk)))))
    fetched.

End Flow2Spec.

(** ** src/xml_parser.py: the element that decides a header field *)

Module ParseSpec.
Import XmlParser.

(** No two element names of [_HEADER_FIELD_MAP] fill the same
    attribute. *)
Definition distinct_fields (m : list (string * string)) : bool :=
  forallb (fun p =>
             forallb (fun q => implb (String.eqb p.2 q.2)
                                     (String.eqb p.1 q.1)) m) m.

(** What an element contributes: its text, stripped, the empty string
    when it has none. *)
Definition stripped_text (el : element) : string :=
  Py.strip (default "" (text_of el)).

End ParseSpec.

(** ** src/xml_generator.py: reading the generated documents *)

Module OutSpec.
Import XmlParser Pending XmlGenerator.

(** The records of a document (the children of its root) and the fields
    of all of them. *)
Definition records (doc : element) : list element := children_of doc.
Definition fields (doc : element) : list element :=
  flat_map children_of (records doc).

(** An element with a text that is not empty. *)
Definition has_text (el : element) : bool :=
  match text_of el with
  | Some t => Py.truthy t
  | None => false
  end.

(** The field of a name in the first record of a document. *)
Definition out_field (doc : element) (tag : string) : option element :=
  match records doc with
  | record :: _ => find record tag
  | [] => None
  end.

(** Fields of the output header and the attribute of the input header
    that each of them repeats. *)
Definition echoed : list (string * string) :=
  [ ("ShipmentID", "shipment_id"); ("shipvia", "ship_via_code");
    ("shipName", "ship_name"); ("shipAddr1", "ship_addr1");
    ("shipAddr2", "ship_addr2"); ("shipAddr3", "ship_addr3");
    ("shipCity", "ship_city"); ("shipState", "ship_state");
    ("shipCountry", "ship_country"); ("shipzip", "ship_zip");
    ("shipPhone", "optional_text_001"); ("shipEmail", "ship_email");
    ("isCOD", "is_cod"); ("colltype", "coll_type") ].

End OutSpec.

(** ** src/file_manager.py: moving a pair out of the intake folder

    The file system is a finite map from the path of a regular file to
    its content; paths are POSIX paths in one spelling, as in
    [FileManager.path_join], and no directory stands where a file is
    looked for. *)

Module FileMove.
Import FileManager.

Abbreviation FS := (gmap string string).

(** [os.path.exists(path)] *)
Definition exists_ (fs : FS) (path : string) : bool :=
  bool_decide (is_Some (fs !! path)).

(** [os.path.basename(p)]: what follows the last slash. *)
Fixpoint basename (p : string) : string :=
  match p with
  | EmptyString => EmptyString
  | String c r =>
      if Py.contains_char "/"%char r then basename r
      else if Ascii.eqb c "/"%char then r else p
  end.

(** [p.rfind(c)]: the index of the last occurrence, [-1] without one. *)
Fixpoint rfind_from (c : ascii) (s : string) (i found : Z) : Z :=
  match s with
  | EmptyString => found
  | String d r => rfind_from c r (i + 1) (if Ascii.eqb d c then i else found)
  end.
Definition rfind (c : ascii) (s : string) : Z := rfind_from c s 0 (-1).

(** Whether a string holds a character other than the dot. *)
Fixpoint has_non_dot (s : string) : bool :=
  match s with
  | EmptyString => false
  | String c r => negb (Ascii.eqb c "."%char) || has_non_dot r
  end.

(** [os.path.splitext(p)]: the extension starts at the last dot that
    follows the last slash, unless only dots stand between the two. *)
Definition splitext (p : string) : string * string :=
  let sepIndex := rfind "/"%char p in
  let dotIndex := rfind "."%char p in
  if (sepIndex <? dotIndex)
     && has_non_dot (Py.slice (Z.to_nat (sepIndex + 1)) (Z.to_nat dotIndex) p)
  then (Py.slice 0 (Z.to_nat dotIndex) p,
        Py.slice (Z.to_nat dotIndex) (Py.len p) p)
  else (p, EmptyString).

(** The name tried at a value of [counter]. *)
Definition numbered (dest_folder base ext : string) (counter : nat) : string :=
  path_join dest_folder (base +:+ "_" +:+ pretty counter +:+ ext).

(** The [while os.path.exists(dest)] loop, entered with [dest] taken:
    the first free numbered name from [counter] on. *)
Fixpoint free_name (fuel : nat) (fs : FS) (dest_folder base ext : string)
         (counter : nat) : option string :=
  match fuel with
  | O => None
  | S fuel' =>
      let dest := numbered dest_folder base ext counter in
      if exists_ fs dest
      then free_name fuel' fs dest_folder base ext (S counter)
      else Some dest
  end.

(** The destination that [_move_file] settles on.  The loop stops at the
    latest after as many names as the file system has files, plus one. *)
Definition destination (fs : FS) (src dest_folder : string) : option string :=
  let filename := basename src in
  let dest := path_join dest_folder filename in
  if exists_ fs dest then
    let '(base, ext) := splitext filename in
    free_name (S (size fs)) fs dest_folder base ext 1
  else Some dest.

(** How a move ends: done, the source missing ([shutil.move] raises
    [FileNotFoundError]), or no free name found within the bound. *)
Inductive moved :=
| Moved (fs : FS) (dest : string)
| NoSuchFile (src : string)
| NoFreeName.

(** [_move_file] *)
Definition _move_file (fs : FS) (src dest_folder : string) : moved :=
  match destination fs src dest_folder with
  | None => NoFreeName
  | Some dest =>
      match fs !! src with
      | None => NoSuchFile src
      | Some content => Moved (<[dest := content]> (delete src fs)) dest
      end
  end.

(** [move_to_processed]: the header file, then the detail file. *)
Definition move_to_processed (fs : FS) (pair : FilePair)
           (processed_folder : string) : moved :=
  match _move_file fs (header_path pair) processed_folder with
  | Moved fs _ => _move_file fs (detail_path pair) processed_folder
  | failed => failed
  end.

(** The text of the companion file. *)
Definition error_text (shipment_id error_message : string) : string :=
  "ShipmentID: " +:+ shipment_id +:+ String newline ""
  +:+ "Error: " +:+ error_message +:+ String newline "".

Definition error_txt_path (pair : FilePair) (error_folder : string) : string :=
  path_join error_folder (shipment_id pair +:+ ".error.txt").

(** [move_to_error]: both files, then the companion file, opened for
    writing, which replaces a file of that name. *)
Definition move_to_error (fs : FS) (pair : FilePair)
           (error_folder error_message : string) : moved :=
  match _move_file fs (header_path pair) error_folder with
  | Moved fs _ =>
      match _move_file fs (detail_path pair) error_folder with
      | Moved fs dest =>
          Moved (<[error_txt_path pair error_folder
                   := error_text (shipment_id pair) error_message]> fs)
                dest
      | failed => failed
      end
  | failed => failed
  end.

End FileMove.

(** ** qpss_middleware.py: what a page of the remote listing holds *)

Module FetchSpec.
Import Flow2.

(** The shipments of a page that the remote serves, none when the call
    for that page fails. *)
Definition page_shipments (w : World) (section : string)
           (store_id : option Z) (start_date : string) (page : Z)
  : list XmlGenerator.Shipment :=
  match list_shipments w section store_id start_date page with
  | inr result => shipments result
  | inl _ => []
  end.

(** The call for a page succeeds and announces further pages. *)
Definition has_next (w : World) (section : string) (store_id : option Z)
           (start_date : string) (page : Z) : Prop :=
  exists result,
    list_shipments w section store_id start_date page = inr result
    /\ page < pages result.

(** The pagination stops at a page: it is the last one announced, or
    the call for it fails with one of the two gateway exceptions. *)
Definition stops_at (w : World) (section : string) (store_id : option Z)
           (start_date : string) (page : Z) : Prop :=
  match list_shipments w section store_id start_date page with
  | inr result => pages result <= page
  | inl e => gateway_error e = true
  end.

End FetchSpec.

(** ** src/shipstation_client.py: the probe for an existing order *)

Module Gateway.
Import Exn ShipStation.

(** An order of the [orders] array of [GET /orders]; [orderNumber] may be
    missing from the dict. *)
Record RemoteOrder := mkRemoteOrder {
  ro_orderNumber : option string;
  ro_orderId : Z
}.

(** The decoded body of [GET /orders]: an object whose [orders] key,
    when present, holds a list of objects. *)
Record OrdersResponse := mkOrders { orders : option (list RemoteOrder) }.

(** [order.get("orderNumber") == order_number] *)
Definition same_number (order_number : string) (order : RemoteOrder) : bool :=
  bool_decide (ro_orderNumber order = Some order_number).

(** [find_order_by_number]: the first order of the answer whose number
    is the one asked for; [None] without one, and also when the request
    ends in one of the two gateway exceptions. *)
Definition find_order_by_number (self : Client)
           (env : nat -> attempt OrdersResponse) (order_number : string)
  : result (option RemoteOrder) * list event :=
  let '(response, trace) := _request_with_retry self env in
  match response with
  | inr response =>
      (inr (List.find (same_number order_number)
                      (default [] (orders response))), trace)
  | inl (ShipStationError _) | inl (ShipStationTransientError _) =>
      (inr None, trace)
  | inl e => (inl e, trace)
  end.

End Gateway.

(** ** src/order_mapper.py: the address and the notes of the order *)

Module OrderExtras.
Import XmlParser OrderMapper.

(** The [shipTo] object; a key that [_build_ship_to] may leave out is an
    [option] field. *)
Record Address := mkAddress {
  a_name : string;
  a_street1 : string;
  a_city : string;
  a_state : string;
  a_postalCode : string;
  a_country : string;
  a_street2 : option string;
  a_street3 : option string;
  a_phone : option string;
  a_email : option string;
  a_residential : bool
}.

(** [_build_ship_to] *)
Definition _build_ship_to (header : ShipmentHeader) : Address :=
  {| a_name := getattr header "ship_name";
     a_street1 := getattr header "ship_addr1";
     a_city := getattr header "ship_city";
     a_state := getattr header "ship_state";
     a_postalCode := getattr header "ship_zip";
     a_country := getattr header "ship_country";
     a_street2 := if_truthy (getattr header "ship_addr2");
     a_street3 := if_truthy (getattr header "ship_addr3");
     a_phone := if_truthy (getattr header "optional_text_001");
     a_email := if_truthy (getattr header "ship_email");
     a_residential := String.eqb (is_residential header) "1" |}.

(** [sep.join(parts)] *)
Fixpoint join (sep : string) (parts : list string) : string :=
  match parts with
  | [] => ""
  | [p] => p
  | p :: rest => p +:+ sep +:+ join sep rest
  end.

Section Notes.
(** [str(x)] of a float, as an f-string prints it. *)
Variable str_of_float : Q -> string.

(** The line of one package in the notes. *)
Definition package_note (p : PackageDetail) : string :=
  "Pkg " +:+ pretty (package_no p) +:+ ": "
  +:+ str_of_float (XmlParser.weight p)
  +:+ " lbs " +:+ str_of_float (XmlParser.length p) +:+ "x"
  +:+ str_of_float (XmlParser.width p) +:+ "x"
  +:+ str_of_float (XmlParser.height p).

(** [notes_parts], as [map_to_shipstation] collects it. *)
Definition notes_parts (header : ShipmentHeader) (detail : ShipmentDetail)
  : list string :=
  let terms := getattr header "optional_text_009" in
  let account := getattr header "optional_text_010" in
  (if Py.truthy terms then ["Shipping terms: " +:+ terms] else [])
  ++ (if Py.truthy account && negb (String.eqb account "0")
      then ["Carrier account: " +:+ account] else [])
  ++ (if (1 <? List.length (packages detail))%nat
      then ("Packages: " +:+ pretty (List.length (packages detail)))
           :: map package_note (packages detail)
      else []).

(** The [internalNotes] key of the order: left out without parts. *)
Definition internalNotes (header : ShipmentHeader) (detail : ShipmentDetail)
  : option string :=
  match notes_parts header detail with
  | [] => None
  | parts => Some (join " | " parts)
  end.

End Notes.

End OrderExtras.


(** ** Concrete inputs used by the examples below *)

Module Scenario.
Import Exn XmlParser Sage OrderMapper.

(** A header with the given order date and nothing else set. *)
Definition header_dated (d : string) : ShipmentHeader :=
  setattr default_header "order_date" d.




(** A client with three attempts and a delay of five seconds, and a wire
    that fails, then rate-limits with a hint of seven seconds, then
    answers 503. *)
Definition client3 : ShipStation.Client :=
  ShipStation.mkClient "https://ssapi.shipstation.com" 3 5.

Definition busy_wire (k : nat) : ShipStation.attempt unit :=
  match k with
  | 1%nat => ShipStation.NetworkError "connection reset"
  | 2%nat => ShipStation.Response 429 (Some "7") "slow down" tt
  | 3%nat => ShipStation.Response 503 None "unavailable" tt
  | _ => ShipStation.Response 200 None "{}" tt
  end.

(** The same wire, answering 404 at the third attempt. *)
Definition rejecting_wire (k : nat) : ShipStation.attempt unit :=
  match k with
  | 3%nat => ShipStation.Response 404 None "not found" tt
  | _ => busy_wire k
  end.

(** A wire that rate-limits the first attempt and answers 200 from the
    second on.  The [Retry-After] header of the 429 is given: an HTTP
    date in [dated_wire], a number of seconds in [hinted_wire]. *)
Definition limited_wire (retry_after : string) (k : nat)
  : ShipStation.attempt unit :=
  match k with
  | 1%nat => ShipStation.Response 429 (Some retry_after) "Too Many Requests" tt
  | _ => ShipStation.Response 200 None "{}" tt
  end.

Definition dated_wire : nat -> ShipStation.attempt unit :=
  limited_wire "Wed, 21 Oct 2026 07:28:00 GMT".

Definition hinted_wire : nat -> ShipStation.attempt unit :=
  limited_wire "7".

(** An intake folder with two header files and one detail file of the
    same shipment. *)
Definition twice_headed : list FileManager.DirEntry :=
  [ FileManager.mkEntry "HeaderIn_SHIP1_a.xml" true;
    FileManager.mkEntry "DetailIn_SHIP1_a.xml" true;
    FileManager.mkEntry "HeaderIn_SHIP1_b.xml" true ].

(** *** Work units for the outbound pipeline *)

Definition leaf (field : string * string) : element :=
  Element field.1 (Some field.2) [].

(** A HeaderIn document with the given elements. *)
Definition header_doc (fields : list (string * string)) : element :=
  Element "ProcessWeaverInHeader" None (map leaf fields).

(** A DetailIn document with one [InQueueDetail] per element list. *)
Definition detail_doc (pkgs : list (list (string * string))) : element :=
  Element "ProcessWeaverInDetail" None
          (map (fun fields => Element "InQueueDetail" None (map leaf fields))
               pkgs).

Definition unit1 : FileManager.FilePair :=
  FileManager.mkPair "SHIP1" "in/HeaderIn_SHIP1_a.xml"
                     "in/DetailIn_SHIP1_a.xml".

(** [float] on plain digit strings, which is all the scenarios use. *)
Definition float_of_digits (s : string) : option Q :=
  if Py.isdigit s then Some (inject_Z (Py.int_of_digits s)) else None.

(** A world that holds the two documents of [unit1] and whose gateway
    accepts every order. *)
Definition world_of (hdr dtl : element) : Flow1.World :=
  {| Flow1.read_xml := fun path =>
       if String.eqb path "in/HeaderIn_SHIP1_a.xml" then Some hdr
       else if String.eqb path "in/DetailIn_SHIP1_a.xml" then Some dtl
       else None;
     Flow1.float_of_string := float_of_digits;
     Flow1.find_order_by_number := fun _ _ => inr false;
     Flow1.create_or_update_order := fun _ _ => inr tt;
     Flow1.now := "2026-11-04T10:00:00" |}.

Definition us_only : Config.t := Config.mkConfig None "" "".

(** The header of shipment SHIP1 for customer HO1002. *)
Definition plain_header : element :=
  header_doc [("ShipmentID", "SHIP1"); ("customercode", "HO1002");
              ("orderno", "ORD0469657"); ("shipcountry", "US")].




(** One package carrying the identifier of the header. *)
Definition matching_detail : element :=
  detail_doc [[("ShipmentID", "SHIP1"); ("weight", "2")]].



(** *** Runs of the inbound pipeline *)

(** A shipped order as the remote lists it. *)
Definition shipped (id : Z) (order_number : string) : XmlGenerator.Shipment :=
  {| XmlGenerator.shipmentId := id;
     XmlGenerator.orderNumber := order_number;
     XmlGenerator.trackingNumber := Some "1Z999AA10123456784";
     XmlGenerator.carrierCode := Some "ups";
     XmlGenerator.serviceCode := Some "ups_ground";
     XmlGenerator.shipDate := Some "2026-11-03T00:00:00.000";
     XmlGenerator.weight_value := None;
     XmlGenerator.weight_units := None;
     XmlGenerator.dim_length := None;
     XmlGenerator.dim_width := None;
     XmlGenerator.dim_height := None |}.

(** A remote whose first page for the primary account holds the given
    shipments and is the only page. *)
Definition remote_with (found : list XmlGenerator.Shipment) : Flow2.World :=
  {| Flow2.list_shipments := fun section _ _ page =>
       inr (Flow2.mkPage (if String.eqb section "shipstation" && (page =? 1)
                          then found else []) 1);
     Flow2.today := "2026-11-04";
     Flow2.week_ago := "2026-10-28";
     Flow2.timestamp := "20261104_101500";
     Flow2.fmt_decimal := fun _ _ => "0.000000";
     Flow2.out_folder := "out" |}.

(** A remote that cannot be reached. *)
Definition remote_down : Flow2.World :=
  {| Flow2.list_shipments := fun _ _ _ _ =>
       inl (ShipStationTransientError "Network error: timed out");
     Flow2.today := "2026-11-04";
     Flow2.week_ago := "2026-10-28";
     Flow2.timestamp := "20261104_101500";
     Flow2.fmt_decimal := fun _ _ => "0.000000";
     Flow2.out_folder := "out" |}.

(** A remote that announces three pages, serves the first and fails at
    the second. *)
Definition remote_flaky : Flow2.World :=
  {| Flow2.list_shipments := fun _ _ _ page =>
       if page =? 1
       then inr (Flow2.mkPage [shipped 7001 "WEB-1001"] 3)
       else inl (ShipStationError "HTTP 400: bad page");
     Flow2.today := "2026-11-04";
     Flow2.week_ago := "2026-10-28";
     Flow2.timestamp := "20261104_101500";
     Flow2.fmt_decimal := fun _ _ => "0.000000";
     Flow2.out_folder := "out" |}.

(** The pending record that Flow 1 wrote for SHIP1. *)
Definition pending_ship1 : Pending.PendingEntry :=
  Pending.pending_data (parse_header plain_header)
                       (parse_detail float_of_digits matching_detail)
                       "HO1002_SHIP1" "shipstation" []
                       "2026-11-01T09:00:00".

(** A disk on which SHIP1 is pending and no run state exists yet. *)
Definition disk_pending : Flow2.Disk :=
  Flow2.mkDisk None {[ "SHIP1" := pending_ship1 ]} [].

(** A run state whose dedup list is full: the identifiers 1001 to 1500,
    written by earlier runs. *)
Definition full_ids : list Z := map Z.of_nat (seq 1001 500).

Definition disk_full : Flow2.Disk :=
  Flow2.mkDisk (Some (Flow2.mkState (Some "2026-11-03") full_ids)) ∅ [].

(** A run state with three identifiers. *)
Definition disk_small : Flow2.Disk :=
  Flow2.mkDisk (Some (Flow2.mkState (Some "2026-10-30") [11; 12; 13])) ∅ [].

End Scenario.


(** ** Further concrete inputs *)

Module Samples.
Import XmlParser.

(** A header with the given customer code and shipment identifier. *)
Definition header_of (customer_code shipment_id : string) : ShipmentHeader :=
  setattr (setattr default_header "customer_code" customer_code)
          "shipment_id" shipment_id.

(** A file system where the header file of SHIP1 waits in the intake
    folder while a file of the same name from an earlier run lies in the
    destination folder. *)
Definition crowded : FileMove.FS :=
  {[ "in/HeaderIn_SHIP1_a.xml" := "<new/>";
     "in/DetailIn_SHIP1_a.xml" := "<lines/>";
     "done/HeaderIn_SHIP1_a.xml" := "<old/>";
     "done/SHIP1.error.txt" := "stale note" ]}.

End Samples.


(** * Properties *)

(** ** The translations at work on the sample data of the sources *)

Module Checks.
Import XmlParser OrderMapper.

Example strip_and_upper :
  Py.strip "  SHIP0000447526  " = "SHIP0000447526" /\ Py.upper "y" = "Y".
Proof. split; reflexivity. Qed.

Example header_pattern_sample :
  FileManager._HEADER_PATTERN "HeaderIn_SHIP0000447526_20260213-063014.xml"
  = Some "SHIP0000447526"
  /\ FileManager._HEADER_PATTERN "headerin_TEST0000000001_20260222-120000.XML"
     = Some "TEST0000000001"
  /\ FileManager._HEADER_PATTERN "DetailIn_SHIP0000447526_20260213-063014.xml"
     = None
  /\ FileManager._HEADER_PATTERN "HeaderIn_SHIP_20260213.xml" = None.
Proof. vm_compute. repeat split. Qed.

Example order_number_sample :
  build_order_number
    (setattr (setattr default_header "customer_code" "HO1002")
             "shipment_id" "TEST00001")
  = "HO1002_TEST00001"
  /\ Flow2._is_our_order "HO1002_TEST00001" = true
  /\ Flow2.shipment_id_of "HO1002_TEST00001" = "TEST00001".
Proof. vm_compute. repeat split. Qed.

Example canadian_order_routes_to_secondary_account :
  Config._get_account_for_country
    (Config.mkConfig (Some "key") "" "322411") "ca"
  = ("shipstation_ca", "CA", Some 322411)
  /\ Config._get_account_for_country (Config.mkConfig None "" "") "CA"
     = ("shipstation", "US", None).
Proof. vm_compute. repeat split. Qed.

Example retry_after_values :
  map ShipStation.py_int ["7"; " 12 "; "1_000"; "Wed, 21 Oct 2026 07:28:00 GMT"]
  = [Some 7; Some 12; Some 1000; None].
Proof. reflexivity. Qed.

(** Slot order of small sets: colliding keys keep their insertion order,
    others are listed by slot. *)
Example set_order_samples :
  PySet.to_list (PySet.of_list [8; 0; 16; 1]) = [8; 0; 16; 1]
  /\ PySet.to_list (PySet.of_list [5; 3; 8; 1; 0; 16; 9])
     = [0; 1; 3; 5; 8; 9; 16]
  /\ PySet.to_list (PySet.of_list [100; 20; 35; 7; 1000; 33])
     = [33; 35; 100; 7; 1000; 20].
Proof. vm_compute. repeat split. Qed.

End Checks.

(** ** The order translator *)

Module OrderMapperFacts.
Import XmlParser Sage OrderMapper Scenario.



(** The sum is the sum: adding a package adds its weight. *)
Lemma total_weight_from (ps : list PackageDetail) (acc : Q) :
  (fold_left (fun a p => a + weight p) ps acc
   == acc + total_weight ps)%Q.
Proof.
  unfold total_weight. revert acc.
  induction ps as [|p ps IH]; intros acc; simpl.
  - ring.
  - rewrite (IH (acc + weight p)%Q), (IH (0 + weight p)%Q). ring.
Qed.

Lemma total_weight_cons (p : PackageDetail) (ps : list PackageDetail) :
  (total_weight (p :: ps) == weight p + total_weight ps)%Q.
Proof.
  unfold total_weight at 1. simpl. rewrite total_weight_from. ring.
Qed.





(** A date of the wrong length, the empty one included, is left out. *)
Lemma format_datetime_other_length (s : string) :
  Py.len s <> 8%nat -> _format_datetime s = "".
Proof.
  intros H. unfold _format_datetime.
  destruct (Nat.eqb_spec (Py.len s) 8) as [E | _]; [contradiction |].
  simpl. rewrite orb_true_r. reflexivity.
Qed.

(** Eight characters are always rearranged, whatever they are. *)
Lemma format_datetime_eight (c1 c2 c3 c4 c5 c6 c7 c8 : ascii) :
  _format_datetime
    (String c1 (String c2 (String c3 (String c4 (String c5 (String c6
       (String c7 (String c8 EmptyString))))))))
  = String c1 (String c2 (String c3 (String c4 (String "-"%char
      (String c5 (String c6 (String "-"%char (String c7 (String c8
         "T00:00:00"))))))))).
Proof. reflexivity. Qed.

(** ** C7 -- dates.  The translator is asked to leave out a malformed
    date.  For the eight-character string [2026AB01], which is no date,
    the order carries [orderDate = 2026-AB-01T00:00:00]: the length test
    is the only validation that runs.  (A well-formed date is converted,
    [20260213] to [2026-02-13T00:00:00], and an absent one is left out.) *)
Theorem format_datetime_keeps_malformed_date :
  orderDate (map_to_shipstation (header_dated "2026AB01") (mkDetail []) None [])
    = Some "2026-AB-01T00:00:00"
  /\ orderDate (map_to_shipstation (header_dated "20260213") (mkDetail [])
                                   None [])
    = Some "2026-02-13T00:00:00"
  /\ orderDate (map_to_shipstation (header_dated "") (mkDetail []) None [])
    = None
  /\ orderDate (map_to_shipstation (header_dated "2026-02-13") (mkDetail [])
                                   None [])
    = None.
Proof. vm_compute. repeat split. Qed.




End OrderMapperFacts.


(** ** The retrying gateway *)

Module ShipStationFacts.
Import Exn ShipStation Scenario.

Lemma sent_count_app (t1 t2 : list event) :
  sent_count (t1 ++ t2) = (sent_count t1 + sent_count t2)%nat.
Proof.
  induction t1 as [|[k | s] t1 IH]; simpl; [reflexivity | | exact IH].
  rewrite IH. reflexivity.
Qed.

Lemma sleeps_app (t1 t2 : list event) :
  sleeps (t1 ++ t2) = sleeps t1 ++ sleeps t2.
Proof.
  induction t1 as [|[k | s] t1 IH]; simpl; [reflexivity | exact IH |].
  rewrite IH. reflexivity.
Qed.

Lemma sleep_ok (secs : Z) : 0 <= secs -> sleep secs = None.
Proof.
  intros H. unfold sleep. destruct (Z.ltb_spec secs 0); [lia | reflexivity].
Qed.

Section RetryFacts.
Context {J : Type}.
Variable self : Client.
Variable env : nat -> attempt J.

(** One retryable attempt costs one request and one wait, and leaves a
    transient error behind. *)
Lemma retry_loop_step (rem a : nat) (last : option exn) (tr : list event) :
  retryable (env a) = true -> waits self (env a) ->
  exists msg secs,
    wait_after self (env a) = Some secs
    /\ retry_loop self env (S rem) a last tr
       = retry_loop self env rem (S a) (Some (ShipStationTransientError msg))
                    ((tr ++ [Sent a]) ++ [Slept secs]).
Proof.
  intros Hr (secs & Hw & Hs). cbn [retry_loop].
  destruct (env a) as [msg | status hdr text json] eqn:Ea; simpl in Hr.
  - simpl in Hw. injection Hw as <-. rewrite (sleep_ok _ Hs).
    eexists _, _. split; reflexivity.
  - destruct (Z.eqb_spec status 429) as [-> | Hne].
    + destruct hdr as [raw |]; simpl in Hw.
      * rewrite Hw, (sleep_ok _ Hs). eexists _, _.
        split; [exact Hw | reflexivity].
      * injection Hw as <-. rewrite (sleep_ok _ Hs).
        eexists _, _. split; reflexivity.
    + simpl in Hr. rewrite Hr.
      assert (Hw' : wait_after self (Response status hdr text json)
                    = Some (retry_delay self)).
      { unfold wait_after. destruct hdr; [| reflexivity].
        destruct (Z.eqb_spec status 429); [contradiction | reflexivity]. }
      rewrite Hw' in Hw. injection Hw as <-. rewrite (sleep_ok _ Hs).
      eexists _, _. split; [exact Hw' | reflexivity].
Qed.

(** A run of [m] retryable attempts from attempt [a] on. *)
Lemma retry_loop_prefix (m : nat) :
  forall (rem a : nat) (last : option exn) (tr : list event),
    (forall i, (a <= i < a + m)%nat ->
               retryable (env i) = true /\ waits self (env i)) ->
    exists last' tr',
      retry_loop self env (m + rem) a last tr
      = retry_loop self env rem (a + m) last' tr'
      /\ sent_count tr' = (sent_count tr + m)%nat
      /\ map Some (sleeps tr')
         = map Some (sleeps tr)
           ++ map (fun i => wait_after self (env i)) (seq a m)
      /\ (m = O -> last' = last)
      /\ ((0 < m)%nat ->
          exists msg, last' = Some (ShipStationTransientError msg)).
Proof.
  induction m as [|m IH]; intros rem a last tr H.
  - exists last, tr. rewrite Nat.add_0_r, app_nil_r.
    repeat split; [lia | lia].
  - destruct (H a ltac:(lia)) as [Hr Hw].
    destruct (retry_loop_step (m + rem) a last tr Hr Hw)
      as (msg & secs & Hsecs & Hstep).
    destruct (IH rem (S a) (Some (ShipStationTransientError msg))
                 ((tr ++ [Sent a]) ++ [Slept secs]))
      as (last' & tr' & Heq & Hsent & Hsleeps & Hkeep & Hlast).
    { intros i Hi. apply H. lia. }
    exists last', tr'. repeat split.
    + change (S m + rem)%nat with (S (m + rem)).
      rewrite Hstep, Heq. f_equal. lia.
    + rewrite Hsent, !sent_count_app. simpl. lia.
    + rewrite Hsleeps, !sleeps_app, !map_app. simpl.
      rewrite app_nil_r, Hsecs, <- app_assoc. reflexivity.
    + discriminate.
    + intros _. destruct m as [|m'].
      * rewrite Hkeep by reflexivity. eauto.
      * apply Hlast. lia.
Qed.

(** The retry contract of [_request_with_retry] where every wait can be
    taken.  With a non-negative configured delay and [Retry-After] headers
    that are non-negative integers:
    - when the attempts before the [k]-th are retryable (network error,
      429, 5xx) and the [k]-th meets a 4xx other than 429, the permanent
      [ShipStationError] is raised after exactly [k] requests: none follows
      the 4xx;
    - when all of the [n >= 1] configured attempts are retryable, exactly
      [n] requests are sent and [ShipStationTransientError] is raised;
    - in both cases each retryable attempt is followed by one wait: the
      hint of the [Retry-After] header after a 429 that has one, the
      configured delay otherwise;
    - the two exceptions are different;
    - and a response below 400 that follows retryable attempts is
      returned, so the retries do lead somewhere. *)
Theorem request_with_retry_contract :
  let n := Z.to_nat (retry_attempts self) in
  let run := _request_with_retry self env in
  0 <= retry_delay self ->
  (forall i raw text json,
      (1 <= i <= n)%nat -> env i = Response 429 (Some raw) text json ->
      exists secs, py_int raw = Some secs /\ 0 <= secs) ->
  (forall k,
      (1 <= k <= n)%nat ->
      (forall i, (1 <= i < k)%nat -> retryable (env i) = true) ->
      client_error (env k) = true ->
      (exists msg, fst run = inl (ShipStationError msg))
      /\ sent_count (snd run) = k
      /\ map Some (sleeps (snd run))
         = map (fun i => wait_after self (env i)) (seq 1 (k - 1)))
  /\ ((1 <= n)%nat ->
      (forall i, (1 <= i <= n)%nat -> retryable (env i) = true) ->
      (exists msg, fst run = inl (ShipStationTransientError msg))
      /\ sent_count (snd run) = n
      /\ map Some (sleeps (snd run))
         = map (fun i => wait_after self (env i)) (seq 1 n))
  /\ (forall m1 m2, ShipStationError m1 <> ShipStationTransientError m2)
  /\ (forall k status hdr text json,
         (1 <= k <= n)%nat ->
         (forall i, (1 <= i < k)%nat -> retryable (env i) = true) ->
         env k = Response status hdr text json -> status < 400 ->
         fst run = inr json /\ sent_count (snd run) = k).
Proof.
  intros n run Hdelay Hhdr.
  assert (Hwaits : forall i, (1 <= i <= n)%nat -> waits self (env i)).
  { intros i Hi. unfold waits.
    destruct (env i) as [msg | status [raw |] text json] eqn:Ei; simpl;
      try (exists (retry_delay self); split; [reflexivity | exact Hdelay]).
    destruct (Z.eqb_spec status 429) as [-> | _].
    - apply (Hhdr i raw text json Hi Ei).
    - exists (retry_delay self). split; [reflexivity | exact Hdelay]. }
  assert (Hreach : forall k,
             (1 <= k <= n)%nat ->
             (forall i, (1 <= i < k)%nat -> retryable (env i) = true) ->
             exists last' tr',
               run = retry_loop self env (S (n - k)) k last' tr'
               /\ sent_count tr' = (k - 1)%nat
               /\ map Some (sleeps tr')
                  = map (fun i => wait_after self (env i)) (seq 1 (k - 1))).
  { intros k Hk Hpre.
    destruct (retry_loop_prefix (k - 1) (S (n - k)) 1 None [])
      as (last' & tr' & Heq & Hsent & Hsleeps & _ & _).
    { intros i Hi. split; [apply Hpre | apply Hwaits]; lia. }
    exists last', tr'. split; [| split; assumption].
    unfold run, _request_with_retry. fold n.
    replace n with (k - 1 + S (n - k))%nat at 1 by lia.
    rewrite Heq. f_equal. lia. }
  split; [| split; [| split]].
  - intros k Hk Hpre Hce.
    destruct (Hreach k Hk Hpre) as (last' & tr' & -> & Hsent & Hsleeps).
    cbn [retry_loop].
    destruct (env k) as [msg | status hdr text json]; simpl in Hce;
      [discriminate |].
    apply andb_prop in Hce as [Hce Hne]. apply andb_prop in Hce as [Hlo Hhi].
    apply negb_true_iff in Hne. rewrite Hne.
    assert (H5 : (500 <=? status) = false) by lia.
    rewrite H5, Hlo. simpl. repeat split.
    + eauto.
    + rewrite sent_count_app, Hsent. simpl. lia.
    + rewrite sleeps_app, map_app, Hsleeps. simpl. rewrite app_nil_r.
      reflexivity.
  - intros Hn Hall.
    destruct (retry_loop_prefix n 0 1 None [])
      as (last' & tr' & Heq & Hsent & Hsleeps & _ & Hlast).
    { intros i Hi. split; [apply Hall | apply Hwaits]; lia. }
    destruct (Hlast ltac:(lia)) as (msg & ->).
    assert (Hrun : run = (inl (ShipStationTransientError msg), tr')).
    { unfold run, _request_with_retry. fold n.
      replace n with (n + 0)%nat at 1 by lia. rewrite Heq. reflexivity. }
    rewrite Hrun. simpl. repeat split; [eauto | exact Hsent | exact Hsleeps].
  - discriminate.
  - intros k status hdr text json Hk Hpre Ek Hlt.
    destruct (Hreach k Hk Hpre) as (last' & tr' & -> & Hsent & _).
    cbn [retry_loop]. rewrite Ek.
    assert (H429 : (status =? 429) = false) by lia.
    assert (H500 : (500 <=? status) = false) by lia.
    assert (H400 : (400 <=? status) = false) by lia.
    rewrite H429, H500, H400. simpl. split; [reflexivity |].
    rewrite sent_count_app, Hsent. simpl. lia.
Qed.

End RetryFacts.

(** Two instances: three retryable attempts, and a 404 at the third. *)
Lemma request_with_retry_contract_witness :
  (exists msg,
      fst (_request_with_retry client3 busy_wire)
      = inl (ShipStationTransientError msg))
  /\ sent_count (snd (_request_with_retry client3 busy_wire)) = 3%nat
  /\ sleeps (snd (_request_with_retry client3 busy_wire)) = [5; 7; 5]
  /\ (exists msg,
         fst (_request_with_retry client3 rejecting_wire)
         = inl (ShipStationError msg))
  /\ sent_count (snd (_request_with_retry client3 rejecting_wire)) = 3%nat.
Proof.
  assert (Hbusy : forall i raw text json,
             (1 <= i <= Z.to_nat (retry_attempts client3))%nat ->
             busy_wire i = Response 429 (Some raw) text json ->
             exists secs, py_int raw = Some secs /\ 0 <= secs).
  { intros i raw text json _ E.
    destruct i as [|[|[|[|i]]]]; simpl in E; try discriminate E.
    injection E as <- _ _. exists 7. split; [reflexivity | lia]. }
  assert (Hrej : forall i raw text json,
             (1 <= i <= Z.to_nat (retry_attempts client3))%nat ->
             rejecting_wire i = Response 429 (Some raw) text json ->
             exists secs, py_int raw = Some secs /\ 0 <= secs).
  { intros i raw text json _ E.
    destruct i as [|[|[|[|i]]]]; simpl in E; try discriminate E.
    injection E as <- _ _. exists 7. split; [reflexivity | lia]. }
  destruct (request_with_retry_contract client3 busy_wire
              ltac:(simpl; lia) Hbusy) as (_ & Hexhaust & _ & _).
  destruct (request_with_retry_contract client3 rejecting_wire
              ltac:(simpl; lia) Hrej) as (Hperm & _ & _ & _).
  assert (Hall : forall i, (1 <= i <= 3)%nat -> retryable (busy_wire i) = true).
  { intros i Hi. destruct i as [|[|[|[|i]]]]; try lia; reflexivity. }
  assert (Hpre : forall i, (1 <= i < 3)%nat ->
                           retryable (rejecting_wire i) = true).
  { intros i Hi. destruct i as [|[|[|i]]]; try lia; reflexivity. }
  destruct (Hexhaust ltac:(simpl; lia) Hall) as (Hmsg & Hsent & Hsleeps).
  destruct (Hperm 3%nat ltac:(simpl; lia) Hpre eq_refl) as (Hmsg' & Hsent' & _).
  split; [exact Hmsg |]. split; [exact Hsent |].
  split; [apply (inj (map Some)); rewrite Hsleeps; reflexivity |].
  split; [exact Hmsg' | exact Hsent'].
Defined.

(** ** C5 -- a 429 whose [Retry-After] header is an HTTP date.  The
    gateway is to wait the server's hint and try again, and to end in the
    transient failure when the attempts run out.  With three attempts
    configured and a wire that answers the first attempt by 429 with the
    header [Wed, 21 Oct 2026 07:28:00 GMT] and every later one by 200, the
    request is sent once and never again: [int] of the header raises
    [ValueError] before the wait, and that exception, which is neither of
    the two gateway failures, leaves the loop.  The same wire with the
    header [7] is waited on for seven seconds, retried, and answered. *)
Theorem rate_limit_with_date_hint_is_not_retried :
  let run := _request_with_retry client3 dated_wire in
  let raised := ValueError "invalid literal for int() with base 10" in
  retryable (dated_wire 1) = true
  /\ fst run = inl raised
  /\ snd run = [Sent 1]
  /\ is_transient raised = false /\ is_permanent raised = false
  /\ _request_with_retry client3 hinted_wire
     = (inr tt, [Sent 1; Slept 7; Sent 2]).
Proof. repeat split. Qed.

End ShipStationFacts.

(** ** The intake scanner *)

Module FileManagerFacts.
Import FileManager Scenario.

Lemma path_join_inj (folder n1 n2 : string) :
  path_join folder n1 = path_join folder n2 -> n1 = n2.
Proof.
  unfold path_join. destruct (String.rev folder) as [|c r]; [auto |].
  destruct (Ascii.eqb c "/"); intros H.
  - by apply (inj (String.app folder)) in H.
  - apply (inj (String.app folder)) in H. by apply (inj (String.app "/")) in H.
Qed.

Lemma tables_eq (t1 t2 : Tables) :
  headers t1 = headers t2 -> details t1 = details t2 -> t1 = t2.
Proof. destruct t1, t2; simpl; intros -> ->; reflexivity. Qed.

(** Two states of the scan that differ at most in the entry of one
    identifier in the dict of one role. *)
Lemma scan_entry_agree (folder : string) (r : role) (sid : string)
      (t1 t2 : Tables) (e : DirEntry) :
  table_of (other r) t1 = table_of (other r) t2 ->
  (forall k, k <> sid -> table_of r t1 !! k = table_of r t2 !! k) ->
  table_of (other r) (scan_entry folder t1 e)
  = table_of (other r) (scan_entry folder t2 e)
  /\ (forall k, k <> sid ->
                table_of r (scan_entry folder t1 e) !! k
                = table_of r (scan_entry folder t2 e) !! k).
Proof.
  intros Ho Hr. unfold scan_entry.
  destruct (classify e) as [[[] sid'] |]; destruct r; simpl in *;
    (split; [| intros k Hk]);
    rewrite ?Ho; auto;
    destruct (decide (sid' = k)) as [-> | Hne];
    rewrite ?lookup_insert_eq, ?lookup_insert_ne by done; auto.
Qed.

Lemma scan_fold_agree (folder : string) (r : role) (sid : string)
      (l : list DirEntry) :
  forall t1 t2,
    table_of (other r) t1 = table_of (other r) t2 ->
    (forall k, k <> sid -> table_of r t1 !! k = table_of r t2 !! k) ->
    table_of (other r) (fold_left (scan_entry folder) l t1)
    = table_of (other r) (fold_left (scan_entry folder) l t2)
    /\ (forall k, k <> sid ->
                  table_of r (fold_left (scan_entry folder) l t1) !! k
                  = table_of r (fold_left (scan_entry folder) l t2) !! k).
Proof.
  induction l as [|e l IH]; intros t1 t2 Ho Hr; simpl; [auto |].
  destruct (scan_entry_agree folder r sid t1 t2 e Ho Hr) as [Ho' Hr'].
  apply IH; assumption.
Qed.

Lemma scan_entry_classified (folder : string) (r : role) (sid : string)
      (t : Tables) (e : DirEntry) :
  classify e = Some (r, sid) ->
  table_of r (scan_entry folder t e)
  = <[sid := path_join folder (name e)]> (table_of r t)
  /\ table_of (other r) (scan_entry folder t e) = table_of (other r) t.
Proof.
  intros H. unfold scan_entry. rewrite H. destruct r; simpl; auto.
Qed.

Lemma scan_entry_merges (folder : string) (r : role) (sid : string)
      (t1 t2 : Tables) (e : DirEntry) :
  classify e = Some (r, sid) ->
  table_of (other r) t1 = table_of (other r) t2 ->
  (forall k, k <> sid -> table_of r t1 !! k = table_of r t2 !! k) ->
  scan_entry folder t1 e = scan_entry folder t2 e.
Proof.
  intros Hc Ho Hr.
  destruct (scan_entry_classified folder r sid t1 e Hc) as [H1 H1'].
  destruct (scan_entry_classified folder r sid t2 e Hc) as [H2 H2'].
  assert (Hsame : table_of r (scan_entry folder t1 e)
                  = table_of r (scan_entry folder t2 e)).
  { rewrite H1, H2. apply map_eq. intros k.
    destruct (decide (sid = k)) as [-> | Hne].
    - by rewrite !lookup_insert_eq.
    - rewrite !lookup_insert_ne by done. apply Hr. congruence. }
  assert (Hother : table_of (other r) (scan_entry folder t1 e)
                   = table_of (other r) (scan_entry folder t2 e)).
  { by rewrite H1', H2'. }
  destruct r; simpl in *; apply tables_eq; assumption.
Qed.

(** The shadowed file leaves no trace in the two dicts. *)
Lemma scan_listing_shadowed (folder : string) (r : role) (sid : string)
      (before mid after : list DirEntry) (f1 f2 : DirEntry) :
  classify f1 = Some (r, sid) -> classify f2 = Some (r, sid) ->
  scan_listing folder (before ++ f1 :: mid ++ f2 :: after)
  = scan_listing folder (before ++ mid ++ f2 :: after).
Proof.
  intros H1 H2. unfold scan_listing.
  rewrite !fold_left_app. simpl. rewrite !fold_left_app. simpl.
  f_equal.
  set (t0 := fold_left (scan_entry folder) before (mkTables ∅ ∅)).
  destruct (scan_entry_classified folder r sid t0 f1 H1) as [Hr Ho].
  destruct (scan_fold_agree folder r sid mid (scan_entry folder t0 f1) t0)
    as [Ho' Hr'].
  - exact Ho.
  - intros k Hk. rewrite Hr. by rewrite lookup_insert_ne.
  - apply (scan_entry_merges folder r sid); assumption.
Qed.

(** Every path in a dict is a classified entry of the listing, or was in
    the dict before. *)
Lemma scan_fold_values (folder : string) (r : role) (l : list DirEntry) :
  forall t k path,
    table_of r (fold_left (scan_entry folder) l t) !! k = Some path ->
    table_of r t !! k = Some path
    \/ exists e, e ∈ l /\ classify e = Some (r, k)
                 /\ path = path_join folder (name e).
Proof.
  induction l as [|e l IH]; intros t k path H; simpl in H; [auto |].
  destruct (IH _ _ _ H) as [H' | (e' & He' & Hc & Hp)].
  - unfold scan_entry in H'.
    destruct (classify e) as [[r' sid'] |] eqn:Hc; [| auto].
    destruct r, r'; simpl in H'; auto;
      (destruct (decide (sid' = k)) as [-> | Hne];
       [ rewrite lookup_insert_eq in H'; injection H' as <-;
         right; exists e; split; [left | auto]
       | rewrite lookup_insert_ne in H' by done; auto ]).
  - right. exists e'. split; [right; exact He' | auto].
Qed.

(** Entries of another role or identifier do not touch the entry of
    [sid]. *)
Lemma scan_fold_keeps (folder : string) (r : role) (sid : string)
      (l : list DirEntry) :
  forall t,
    (forall e, e ∈ l -> classify e <> Some (r, sid)) ->
    table_of r (fold_left (scan_entry folder) l t) !! sid
    = table_of r t !! sid.
Proof.
  induction l as [|e l IH]; intros t H; simpl; [reflexivity |].
  rewrite IH by (intros e' He'; apply H; by right).
  assert (He : classify e <> Some (r, sid)) by (apply H; by left).
  unfold scan_entry. destruct (classify e) as [[r' sid'] |]; [| reflexivity].
  destruct r, r'; simpl; try reflexivity;
    (destruct (decide (sid' = sid)) as [-> | Hne];
     [congruence | by rewrite lookup_insert_ne]).
Qed.

(** The last file of a role and identifier is the one recorded. *)
Lemma scan_listing_last (folder : string) (r : role) (sid : string)
      (before after : list DirEntry) (f : DirEntry) :
  classify f = Some (r, sid) ->
  (forall e, e ∈ after -> classify e <> Some (r, sid)) ->
  table_of r (scan_listing folder (before ++ f :: after)) !! sid
  = Some (path_join folder (name f)).
Proof.
  intros Hc Hafter. unfold scan_listing. rewrite fold_left_app. simpl.
  rewrite (scan_fold_keeps folder r sid after _ Hafter).
  destruct (scan_entry_classified folder r sid
              (fold_left (scan_entry folder) before (mkTables ∅ ∅)) f Hc)
    as [-> _].
  apply lookup_insert_eq.
Qed.

(** A returned pair holds what the two dicts hold for its identifier. *)
Lemma match_fold_sound (t : Tables) (ids : list string) :
  forall acc p,
    p ∈ fst (fold_left (match_id t) ids acc) ->
    p ∈ fst acc
    \/ (headers t !! shipment_id p = Some (header_path p)
        /\ details t !! shipment_id p = Some (detail_path p)).
Proof.
  induction ids as [|sid ids IH]; intros acc p H; simpl in H; [auto |].
  destruct (IH _ _ H) as [H' | H']; [| auto].
  destruct acc as [pairs log]. unfold match_id in H'.
  destruct (headers t !! sid) as [h |] eqn:Eh;
    destruct (details t !! sid) as [d |] eqn:Ed; simpl in H'; auto.
  apply elem_of_app in H' as [H' | H']; [auto |].
  apply list_elem_of_singleton in H' as ->. simpl. auto.
Qed.

Lemma match_pairs_sound (t : Tables) (p : FilePair) :
  p ∈ fst (match_pairs t) ->
  headers t !! shipment_id p = Some (header_path p)
  /\ details t !! shipment_id p = Some (detail_path p).
Proof.
  intros H. destruct (match_fold_sound t _ _ _ H) as [H' | H']; [| exact H'].
  simpl in H'. by apply not_elem_of_nil in H'.
Qed.

Lemma match_pairs_role (t : Tables) (r : role) (p : FilePair) :
  p ∈ fst (match_pairs t) ->
  table_of r t !! shipment_id p = Some (role_path r p).
Proof.
  intros H. destruct (match_pairs_sound t p H). by destruct r.
Qed.

Lemma elem_of_paths_of (path : string) (pairs : list FilePair) :
  path ∈ paths_of pairs ->
  exists p r, p ∈ pairs /\ path = role_path r p.
Proof.
  unfold paths_of. rewrite list_elem_of_In, in_flat_map.
  intros (p & Hp & Hpath). apply list_elem_of_In in Hp.
  destruct Hpath as [<- | [<- | []]].
  - exists p, Header. auto.
  - exists p, Detail. auto.
Qed.

Lemma name_not_elsewhere (before rest : list DirEntry) (f e : DirEntry) :
  NoDup (name <$> (before ++ f :: rest)) ->
  e ∈ before ++ rest -> name e <> name f.
Proof.
  rewrite fmap_app, fmap_cons. intros Hnd He Heq.
  apply NoDup_app in Hnd as (_ & Hcross & Hnd).
  apply NoDup_cons in Hnd as [Hnot _].
  apply elem_of_app in He as [He | He].
  - apply (Hcross (name e)).
    + by apply list_elem_of_fmap_2.
    + rewrite Heq. by left.
  - apply Hnot. rewrite <- Heq. by apply list_elem_of_fmap_2.
Qed.

(** ** C10 -- two files of one role and one identifier.  In a listing
    with distinct names, let [f1] and a later [f2] be files of the same
    role whose names yield the same identifier, [f2] being the last such
    file.  Then the scan returns exactly what it returns for the listing
    without [f1] (the same pairs and the same orphan lines, so [f1] is
    reported nowhere); the path of [f1] is in no returned pair, hence
    never handed to a relocation; and a returned pair of that identifier
    holds the path of [f2] for that role. *)
Theorem scan_keeps_last_of_same_role
        (folder : string) (r : role) (sid : string)
        (before mid after : list DirEntry) (f1 f2 : DirEntry) :
  let listing := before ++ f1 :: mid ++ f2 :: after in
  let result := scan_for_pairs folder (Some listing) in
  NoDup (name <$> listing) ->
  classify f1 = Some (r, sid) ->
  classify f2 = Some (r, sid) ->
  (forall e, e ∈ after -> classify e <> Some (r, sid)) ->
  result = scan_for_pairs folder (Some (before ++ mid ++ f2 :: after))
  /\ (path_join folder (name f1) ∉ paths_of (fst result))
  /\ (forall p, p ∈ fst result -> shipment_id p = sid ->
                role_path r p = path_join folder (name f2)).
Proof.
  intros listing result Hnd H1 H2 Hlast.
  assert (Hsame : result = scan_for_pairs folder
                                          (Some (before ++ mid ++ f2 :: after))).
  { unfold result, listing, scan_for_pairs.
    by rewrite (scan_listing_shadowed folder r sid before mid after f1 f2). }
  split; [exact Hsame | split].
  - rewrite Hsame. intros Hin.
    apply elem_of_paths_of in Hin as (p & r' & Hp & Hpath).
    apply (match_pairs_role _ r') in Hp. rewrite <- Hpath in Hp.
    apply scan_fold_values in Hp as [Hp | (e & He & _ & Heq)].
    + destruct r'; simpl in Hp; by rewrite lookup_empty in Hp.
    + apply path_join_inj in Heq.
      by apply (name_not_elsewhere before (mid ++ f2 :: after) f1 e Hnd He).
  - intros p Hp Hsid.
    apply (match_pairs_role _ r) in Hp. rewrite Hsid in Hp.
    unfold listing in Hp.
    change (before ++ f1 :: mid ++ f2 :: after)
      with (before ++ (f1 :: mid) ++ f2 :: after) in Hp.
    rewrite app_assoc in Hp.
    rewrite (scan_listing_last folder r sid _ after f2 H2 Hlast) in Hp.
    congruence.
Qed.

(** An instance: two header files and one detail file of SHIP1. *)
Lemma scan_keeps_last_of_same_role_witness :
  fst (scan_for_pairs "in" (Some twice_headed))
  = [mkPair "SHIP1" "in/HeaderIn_SHIP1_b.xml" "in/DetailIn_SHIP1_a.xml"]
  /\ snd (scan_for_pairs "in" (Some twice_headed)) = []
  /\ ("in/HeaderIn_SHIP1_a.xml"
      ∉ paths_of (fst (scan_for_pairs "in" (Some twice_headed)))).
Proof.
  destruct (scan_keeps_last_of_same_role
              "in" Header "SHIP1" []
              [mkEntry "DetailIn_SHIP1_a.xml" true] []
              (mkEntry "HeaderIn_SHIP1_a.xml" true)
              (mkEntry "HeaderIn_SHIP1_b.xml" true))
    as (Hsame & Hnot & _).
  - apply (bool_decide_unpack _). vm_compute. exact I.
  - reflexivity.
  - reflexivity.
  - intros e He. inversion He.
  - split; [| split].
    + etransitivity; [exact (f_equal fst Hsame) | vm_compute; reflexivity].
    + etransitivity; [exact (f_equal snd Hsame) | vm_compute; reflexivity].
    + exact Hnot.
Defined.

End FileManagerFacts.

(** ** The outbound pipeline *)

Module Flow1Facts.
Import Exn XmlParser Sage OrderMapper FileManager Pending Config Flow1.
Import Scenario.


Section Unit.
Variable w : World.
Variable config : Config.t.
Variable sage : option SageClient.
Variable dry_run : bool.
Variable pair : FilePair.
Variables header_root detail_root : element.
Hypothesis Hheader : read_xml w (header_path pair) = Some header_root.
Hypothesis Hdetail : read_xml w (detail_path pair) = Some detail_root.

Let header := parse_header header_root.
Let detail := parse_detail (float_of_string w) detail_root.



End Unit.

Section Healthy.
Variable w : World.
Variable config : Config.t.
Variable sage : option SageClient.
Variable dry_run : bool.
Variable pair : FilePair.
Variables header_root detail_root : element.
Hypothesis Hheader : read_xml w (header_path pair) = Some header_root.
Hypothesis Hdetail : read_xml w (detail_path pair) = Some detail_root.
Hypothesis Hfind : forall a o, exists b, find_order_by_number w a o = inr b.
Hypothesis Hcreate : forall a o, exists u, create_or_update_order w a o = inr u.
Hypothesis Hsage :
  forall client order_no, sage = Some client ->
                          exists items, client order_no = inr items.

Let header := parse_header header_root.
Let detail := parse_detail (float_of_string w) detail_root.




End Healthy.











End Flow1Facts.

(** ** The inbound reconciliation pipeline *)

Module Flow2Facts.
Import Exn Pending XmlGenerator Config Flow2 Scenario.

(** The call of the loop body never binds [ship_from]. *)
Lemma generate_out_files_unbound (w : World) (pending : PendingEntry)
      (shipment : Shipment) :
  exists msg,
    generate_out_files (fmt_decimal w) (timestamp w)
                       (the_call w pending shipment)
    = inl (TypeError msg).
Proof. eexists. reflexivity. Qed.

(** With all four arguments the generator does write the pair. *)
Lemma generate_out_files_bound (fmt : Q -> nat -> string) (ts : string)
      (pending : PendingEntry) (shipment : Shipment) (folder : string)
      (ship_from : gmap string string) :
  exists files,
    generate_out_files fmt ts
      (mkCall (Some pending) (Some shipment) (Some folder) (Some ship_from))
    = inr files.
Proof. eexists. reflexivity. Qed.

(** On a real run a shipment whose pending record is present only adds
    to the error count. *)
Lemma reconcile_present (w : World) (st : Loop) (shipment : Shipment)
      (pending : PendingEntry) :
  _load_pending_shipment (l_ledger st)
                         (shipment_id_of (orderNumber shipment))
  = Some pending ->
  reconcile w false st shipment
  = mkLoop (l_processed_ids st) (l_ledger st) (l_written st)
           (bump_errors (l_counters st)).
Proof. intros H. unfold reconcile. rewrite H. reflexivity. Qed.

(** ** C1 -- a candidate whose pending record is present.  The pipeline
    is to merge the record with the shipment, write the output pair,
    delete the record and add the remote identifier to the dedup set.  On
    a real run with SHIP1 pending and the remote listing shipment 9001 for
    order HO1002_SHIP1, the run counts one error, writes no output file,
    leaves the pending record in place and persists an empty dedup list:
    the call of [generate_out_files] passes no [ship_from] and raises
    before anything is written. *)
Theorem pending_shipment_is_not_reconciled :
  exists disk',
    run_flow2 (remote_with [shipped 9001 "HO1002_SHIP1"]) us_only false 1
              disk_pending
    = Done (disk', mkCounters 0 0 1)
    /\ out_files disk' = []
    /\ ledger disk' !! "SHIP1" = Some pending_ship1
    /\ state_file disk' = Some (mkState (Some "2026-11-04") []).
Proof.
  eexists. split; [vm_compute; reflexivity |].
  repeat split.
Qed.

Lemma last_n_length {A} (n : nat) (l : list A) :
  (n <= length l)%nat -> length (last_n n l) = n.
Proof. intros H. unfold last_n. rewrite length_drop. lia. Qed.

(** The persisted list never exceeds the cap. *)
Lemma capped_length (s : PySet.t) :
  (length (capped s) <= MAX_PROCESSED_IDS)%nat.
Proof.
  unfold capped.
  destruct (Nat.ltb_spec MAX_PROCESSED_IDS (length (PySet.to_list s))).
  - rewrite last_n_length; lia.
  - assumption.
Qed.

(** ** C4 -- the cap of the dedup list.  The list is to be cut oldest
    first.  With the 500 identifiers 1001..1500 persisted by earlier runs
    and shipment 2049 reconciled in this run, the set lists 2049 first (its
    slot is 2049 mod 2048 = 1), so the cut to the last 500 drops 2049, the
    one identifier added in this run, and keeps all the older ones. *)
Theorem trimming_drops_the_newest_identifier :
  PySet.to_list (PySet.add (PySet.of_list full_ids) 2049) = 2049 :: full_ids
  /\ exists disk',
      run_flow2 (remote_with [shipped 2049 "HO1002_SHIP7"]) us_only false 1
                disk_full
      = Done (disk', mkCounters 0 1 0)
      /\ state_file disk' = Some (mkState (Some "2026-11-04") full_ids)
      /\ 2049 ∉ full_ids.
Proof.
  split; [vm_compute; reflexivity |].
  eexists. split; [vm_compute; reflexivity |].
  split; [reflexivity |].
  apply (bool_decide_unpack _). vm_compute. exact I.
Qed.

Section Fetch.
Variable w : World.
Variable config : Config.t.
Hypothesis Hgateway :
  forall section store_id start_date page e,
    list_shipments w section store_id start_date page = inl e ->
    gateway_error e = true.

(** A pagination that ends within the fuel returns what it fetched. *)
Lemma fetch_pages_returns (section : string) (store_id : option Z)
      (start_date : string) (fuel : nat) :
  forall page all_shipments,
    (exists k, (k < fuel)%nat
               /\ ends_at w section store_id start_date (page + Z.of_nat k)) ->
    exists fetched,
      fetch_pages w fuel section store_id start_date page all_shipments
      = Done fetched.
Proof.
  induction fuel as [|fuel IH]; intros page acc (k & Hk & Hend); [lia |].
  simpl.
  destruct (list_shipments w section store_id start_date page)
    as [e | result] eqn:E.
  - apply Hgateway in E. unfold gateway_error in E.
    destruct e; simpl in E; try discriminate; eauto.
  - destruct (Z.leb_spec (pages result) page) as [Hle | Hgt]; [eauto |].
    apply IH. destruct k as [|k].
    + unfold ends_at in Hend. rewrite Z.add_0_r, E in Hend. lia.
    + exists k. split; [lia |].
      replace (page + 1 + Z.of_nat k) with (page + Z.of_nat (S k)) by lia.
      exact Hend.
Qed.

Lemma fetch_accounts_returns (start_date : string) (fuel : nat)
      (accounts : list (string * string)) :
  forall all_shipments,
    (forall section label,
        (section, label) ∈ accounts ->
        exists k, (k < fuel)%nat
                  /\ ends_at w section (Config.store_id_of config section)
                             start_date (1 + Z.of_nat k)) ->
    exists fetched,
      fetch_accounts w config fuel accounts start_date all_shipments
      = Done fetched.
Proof.
  induction accounts as [|[section label] rest IH]; intros acc H; simpl;
    [eauto |].
  destruct (fetch_pages_returns section (Config.store_id_of config section)
              start_date fuel 1 acc) as [fetched ->].
  { apply (H section label). by left. }
  apply IH. intros s l Hin. apply (H s l). by right.
Qed.

End Fetch.

(** ** C9 -- the watermark.  When the gateway raises only its own two
    exceptions and the pagination of every configured account ends within
    the page budget -- by a failed fetch, at the first page or later, or
    by reaching the last page -- a real run returns, and the run state it
    leaves has [last_poll_date] set to today; the next run therefore polls
    from today on.  This holds in particular when every fetch fails. *)
Theorem watermark_advances_despite_fetch_failures
        (w : World) (config : Config.t) (fuel : nat) (disk : Disk) :
  (forall section store_id start_date page e,
      list_shipments w section store_id start_date page = inl e ->
      gateway_error e = true) ->
  (forall section label,
      (section, label) ∈ Config._get_all_accounts config ->
      exists k, (k < fuel)%nat
                /\ ends_at w section (Config.store_id_of config section)
                           (start_date_of w
                              (_load_flow2_state (state_file disk)))
                           (1 + Z.of_nat k)) ->
  exists disk' counters,
    run_flow2 w config false fuel disk = Done (disk', counters)
    /\ (exists ids,
           state_file disk' = Some (mkState (Some (today w)) ids))
    /\ (Py.truthy (today w) = true ->
        forall next : World,
          start_date_of next (_load_flow2_state (state_file disk'))
          = today w).
Proof.
  intros Hgateway Hends. unfold run_flow2.
  destruct (fetch_accounts_returns w config Hgateway _ fuel _ [] Hends)
    as [fetched ->].
  destruct (List.filter _ fetched) as [|s new_shipments];
    eexists _, _; (split; [reflexivity |]); simpl;
    (split; [eauto |]); intros Ht next;
    unfold start_date_of; simpl; by rewrite Ht.
Qed.

(** When every fetch fails, the run returns with the watermark advanced
    and everything else as it was. *)
Lemma run_with_remote_down (w : World) (config : Config.t) (fuel : nat)
      (disk : Disk) :
  (forall section store_id start_date page,
      exists e, list_shipments w section store_id start_date page = inl e
                /\ gateway_error e = true) ->
  run_flow2 w config false (S fuel) disk
  = Done (mkDisk (Some (mkState (Some (today w))
                                (processed_shipment_ids
                                   (_load_flow2_state (state_file disk)))))
                 (ledger disk) (out_files disk),
          mkCounters 0 0 0).
Proof.
  intros Hdown. unfold run_flow2.
  assert (Hfetch : forall accounts start_date,
             fetch_accounts w config (S fuel) accounts start_date [] = Done []).
  { induction accounts as [|[section label] rest IH]; intros start_date;
      [reflexivity |].
    simpl.
    destruct (Hdown section (Config.store_id_of config section) start_date 1)
      as (e & -> & He).
    unfold gateway_error in He. destruct e; simpl in He; try discriminate;
      apply IH. }
  rewrite Hfetch. reflexivity.
Qed.

(** Two instances: the remote cannot be reached at all; the remote fails
    at the second of three pages. *)
Lemma watermark_advances_despite_fetch_failures_witness :
  (exists disk' counters,
      run_flow2 remote_down us_only false 1 disk_small
      = Done (disk', counters)
      /\ exists ids,
          state_file disk' = Some (mkState (Some "2026-11-04") ids))
  /\ (exists disk' counters,
         run_flow2 remote_flaky us_only false 2 disk_small
         = Done (disk', counters)
         /\ exists ids,
             state_file disk' = Some (mkState (Some "2026-11-04") ids)).
Proof.
  split.
  - destruct (watermark_advances_despite_fetch_failures
                remote_down us_only 1 disk_small)
      as (disk' & counters & Hrun & Hstate & _).
    + intros section store_id start_date page e [= <-]. reflexivity.
    + intros section label _. exists 0%nat. split; [constructor | exact I].
    + exists disk', counters. split; [exact Hrun | exact Hstate].
  - destruct (watermark_advances_despite_fetch_failures
                remote_flaky us_only 2 disk_small)
      as (disk' & counters & Hrun & Hstate & _).
    + intros section store_id start_date page e. simpl.
      destruct (page =? 1); [discriminate |]. intros [= <-]. reflexivity.
    + intros section label _. exists 1%nat. split; [constructor | exact I].
    + exists disk', counters. split; [exact Hrun | exact Hstate].
Defined.

End Flow2Facts.


(** * Further properties *)

(** ** The intake scanner: what a scan returns *)

Module ScanFacts.
Import FileManager ScanSpec FileManagerFacts Scenario.

Lemma match_fold_unfold (t : Tables) (ids : list string) :
  forall acc,
    fold_left (match_id t) ids acc
    = (fst acc ++ omap (pair_of t) ids, snd acc ++ omap (orphan_of t) ids).
Proof.
  induction ids as [|sid ids IH]; intros [pairs log]; simpl.
  - by rewrite !app_nil_r.
  - rewrite IH. unfold match_id, pair_of, orphan_of.
    destruct (headers t !! sid), (details t !! sid); simpl;
      by rewrite <- ?app_assoc.
Qed.

Lemma match_pairs_unfold (t : Tables) :
  match_pairs t
  = (omap (pair_of t) (sorted_ids t), omap (orphan_of t) (sorted_ids t)).
Proof. unfold match_pairs. by rewrite match_fold_unfold. Qed.

Lemma elem_of_sorted_ids (t : Tables) (sid : string) :
  sid ∈ sorted_ids t
  <-> is_Some (headers t !! sid) \/ is_Some (details t !! sid).
Proof.
  unfold sorted_ids. rewrite merge_sort_Permutation, elem_of_elements.
  rewrite elem_of_union, !elem_of_dom. reflexivity.
Qed.

(** A dict holds an identifier exactly when the listing holds a file of
    that role and identifier. *)
Lemma scan_fold_present (folder : string) (r : role) (sid : string)
      (l : list DirEntry) :
  forall t,
    is_Some (table_of r (fold_left (scan_entry folder) l t) !! sid)
    <-> is_Some (table_of r t !! sid) \/ has_role l r sid.
Proof.
  unfold has_role.
  induction l as [|e l IH]; intros t; simpl.
  - split; [auto |]. intros [H | (e & He & _)]; [done |].
    by apply not_elem_of_nil in He.
  - rewrite IH. split.
    + intros [H | (e' & He' & Hc)].
      * unfold scan_entry in H.
        destruct (classify e) as [[r' sid'] |] eqn:Hc; [| auto].
        destruct (decide (sid' = sid)) as [-> | Hne].
        -- destruct r, r'; simpl in H; auto;
             right; exists e; (split; [by left | done]).
        -- left. destruct r, r'; simpl in *; try done;
             by rewrite lookup_insert_ne in H.
      * right. exists e'. split; [by right | done].
    + intros [H | (e' & He' & Hc)].
      * left. unfold scan_entry.
        destruct (classify e) as [[r' sid'] |]; [| done].
        destruct r, r'; simpl; try done;
          (destruct (decide (sid' = sid)) as [-> | Hne];
           [by rewrite lookup_insert_eq | by rewrite lookup_insert_ne]).
      * apply elem_of_cons in He' as [-> | He'].
        -- left. unfold scan_entry. rewrite Hc.
           destruct r; simpl; by rewrite lookup_insert_eq.
        -- right. eauto.
Qed.

Lemma scan_listing_present (folder : string) (r : role) (sid : string)
      (l : list DirEntry) :
  is_Some (table_of r (scan_listing folder l) !! sid) <-> has_role l r sid.
Proof.
  unfold scan_listing. rewrite scan_fold_present.
  split; [| auto]. intros [H | H]; [| done].
  destruct r; simpl in H; rewrite lookup_empty in H; by destruct H.
Qed.

Lemma pair_of_Some (t : Tables) (sid : string) (p : FilePair) :
  pair_of t sid = Some p ->
  shipment_id p = sid
  /\ headers t !! sid = Some (header_path p)
  /\ details t !! sid = Some (detail_path p).
Proof.
  unfold pair_of. destruct (headers t !! sid), (details t !! sid);
    intros [= <-]; auto.
Qed.

(** ** X1 -- every returned pair consists of a header file and a detail file
    of the listing, both regular files whose names yield the identifier of
    the pair. *)
Theorem scan_pairs_are_files_of_the_listing
        (folder : string) (listing : list DirEntry) (p : FilePair) :
  p ∈ fst (scan_for_pairs folder (Some listing)) ->
  exists eh ed,
    eh ∈ listing /\ ed ∈ listing
    /\ is_file eh = true /\ is_file ed = true
    /\ _HEADER_PATTERN (name eh) = Some (shipment_id p)
    /\ _DETAIL_PATTERN (name ed) = Some (shipment_id p)
    /\ header_path p = path_join folder (name eh)
    /\ detail_path p = path_join folder (name ed).
Proof.
  intros Hp. simpl in Hp.
  destruct (match_pairs_sound _ _ Hp) as [Hh Hd].
  apply (scan_fold_values folder Header) in Hh
    as [Hh | (eh & Heh & Hch & Hph)];
    [simpl in Hh; by rewrite lookup_empty in Hh |].
  apply (scan_fold_values folder Detail) in Hd
    as [Hd | (ed & Hed & Hcd & Hpd)];
    [simpl in Hd; by rewrite lookup_empty in Hd |].
  exists eh, ed. unfold classify in Hch, Hcd.
  destruct (is_file eh); [| discriminate].
  destruct (is_file ed); [| discriminate]. simpl in Hch, Hcd.
  destruct (_HEADER_PATTERN (name eh)) as [s |] eqn:Eh;
    [| destruct (_DETAIL_PATTERN (name eh)); discriminate].
  injection Hch as ->.
  destruct (_HEADER_PATTERN (name ed)) as [s |] eqn:Ed; [discriminate |].
  destruct (_DETAIL_PATTERN (name ed)) as [s |] eqn:Ed'; [| discriminate].
  injection Hcd as ->. repeat split; assumption.
Qed.

Lemma scan_pairs_are_files_of_the_listing_witness :
  exists eh ed,
    eh ∈ twice_headed /\ ed ∈ twice_headed
    /\ name eh = "HeaderIn_SHIP1_b.xml" /\ name ed = "DetailIn_SHIP1_a.xml".
Proof.
  destruct (scan_pairs_are_files_of_the_listing
              "in" twice_headed
              (mkPair "SHIP1" "in/HeaderIn_SHIP1_b.xml"
                      "in/DetailIn_SHIP1_a.xml"))
    as (eh & ed & Heh & Hed & _ & _ & _ & _ & Hh & Hd).
  - vm_compute. left.
  - exists eh, ed. repeat split; [exact Heh | exact Hed | |].
    + by apply (path_join_inj "in").
    + by apply (path_join_inj "in").
Defined.

(** ** X2 -- every identifier of the listing is accounted for exactly once:
    by a pair when both roles are there, by an orphan line of the role that
    is there when the other is missing, and by nothing else. *)
Theorem scan_accounts_for_every_identifier
        (folder : string) (listing : list DirEntry) (sid : string) :
  let result := scan_for_pairs folder (Some listing) in
  ((exists p, p ∈ fst result /\ shipment_id p = sid)
   <-> has_role listing Header sid /\ has_role listing Detail sid)
  /\ (OrphanHeader sid ∈ snd result
      <-> has_role listing Header sid /\ ~ has_role listing Detail sid)
  /\ (OrphanDetail sid ∈ snd result
      <-> ~ has_role listing Header sid /\ has_role listing Detail sid).
Proof.
  intros result. unfold result, scan_for_pairs.
  rewrite match_pairs_unfold. simpl.
  set (t := scan_listing folder listing).
  assert (Hh : is_Some (headers t !! sid) <-> has_role listing Header sid)
    by apply (scan_listing_present folder Header).
  assert (Hd : is_Some (details t !! sid) <-> has_role listing Detail sid)
    by apply (scan_listing_present folder Detail).
  rewrite <- Hh, <- Hd. clear Hh Hd.
  assert (Hids : forall s,
             (is_Some (headers t !! s) \/ is_Some (details t !! s))
             <-> s ∈ sorted_ids t).
  { intros s. symmetry. apply elem_of_sorted_ids. }
  split; [| split].
  - split.
    + intros (p & Hp & Hsid). apply list_elem_of_omap in Hp as (s & _ & Hs).
      apply pair_of_Some in Hs as (Heq & H1 & H2).
      rewrite Hsid in Heq. subst s. rewrite H1, H2. eauto.
    + intros [[h Hh] [d Hd]]. exists (mkPair sid h d). split; [| done].
      apply list_elem_of_omap. exists sid. split.
      * apply Hids. left. by rewrite Hh.
      * unfold pair_of. by rewrite Hh, Hd.
  - rewrite list_elem_of_omap. split.
    + intros (s & _ & Hs). unfold orphan_of in Hs.
      destruct (headers t !! s) eqn:E1, (details t !! s) eqn:E2;
        try discriminate; injection Hs as ->.
      rewrite E1, E2. split; [eauto | by intros [? ?]].
    + intros [[h Hh] Hd]. exists sid. split.
      * apply Hids. left. by rewrite Hh.
      * unfold orphan_of. rewrite Hh.
        destruct (details t !! sid); [| done]. exfalso. apply Hd. eauto.
  - rewrite list_elem_of_omap. split.
    + intros (s & _ & Hs). unfold orphan_of in Hs.
      destruct (headers t !! s) eqn:E1, (details t !! s) eqn:E2;
        try discriminate; injection Hs as ->.
      rewrite E1, E2. split; [by intros [? ?] | eauto].
    + intros [Hh [d Hd]]. exists sid. split.
      * apply Hids. right. by rewrite Hd.
      * unfold orphan_of. rewrite Hd.
        destruct (headers t !! sid); [| done]. exfalso. apply Hh. eauto.
Qed.

Lemma sorted_ids_sorted (t : Tables) :
  StronglySorted String.le (sorted_ids t) /\ NoDup (sorted_ids t).
Proof.
  unfold sorted_ids. split.
  - apply StronglySorted_merge_sort; apply _.
  - rewrite merge_sort_Permutation. apply NoDup_elements.
Qed.

Lemma pair_ids_filter (t : Tables) (ids : list string) :
  shipment_id <$> omap (pair_of t) ids
  = filter (fun sid => is_Some (pair_of t sid)) ids.
Proof.
  induction ids as [|sid ids IH]; [done |].
  rewrite filter_cons. cbn [omap list_omap].
  destruct (pair_of t sid) as [p |] eqn:E.
  - apply pair_of_Some in E as (Hsid & _).
    rewrite fmap_cons, Hsid. fold (omap (pair_of t) ids). rewrite IH.
    destruct (decide (is_Some (Some p))) as [_ | Hn]; [done |].
    exfalso. apply Hn. eauto.
  - fold (omap (pair_of t) ids). rewrite IH.
    destruct (decide (is_Some (@None FilePair))) as [[? ?] | _]; done.
Qed.

Lemma StronglySorted_filter {A} (R : relation A) (P : A -> Prop)
      `{!forall x, Decision (P x)} (l : list A) :
  StronglySorted R l -> StronglySorted R (filter P l).
Proof.
  induction 1 as [|x l Hl IH Hx]; [constructor |].
  rewrite filter_cons. destruct (decide (P x)); [| exact IH].
  constructor; [exact IH |].
  apply Forall_forall. intros y Hy. apply list_elem_of_filter in Hy as [_ Hy].
  rewrite Forall_forall in Hx. by apply Hx.
Qed.

(** ** X3 -- the pairs come in increasing order of their identifiers, one
    pair per identifier, whatever the order of the directory listing; a
    missing folder gives no pair. *)
Theorem scan_pairs_are_sorted_by_identifier
        (folder : string) (listing : option (list DirEntry)) :
  let ids := shipment_id <$> fst (scan_for_pairs folder listing) in
  StronglySorted String.le ids /\ NoDup ids
  /\ fst (scan_for_pairs folder None) = [].
Proof.
  destruct listing as [l |]; simpl.
  - rewrite match_pairs_unfold. simpl. rewrite pair_ids_filter.
    destruct (sorted_ids_sorted (scan_listing folder l)) as [Hs Hn].
    split; [by apply StronglySorted_filter |].
    split; [by apply NoDup_filter | done].
  - repeat split; constructor.
Qed.

End ScanFacts.


(** ** Identifiers: from file names to order numbers and back *)

Module IdentifierFacts.
Import FileManager StrSpec FileManagerFacts Scenario Samples.

Lemma span_spec (p : ascii -> bool) (s run rest : string) :
  span p s = (run, rest) ->
  s = run +:+ rest /\ all_chars p run = true /\ stops p rest = true.
Proof.
  revert run rest. induction s as [|c s IH]; intros run rest; simpl.
  - intros [= <- <-]. done.
  - destruct (p c) eqn:Ec.
    + destruct (span p s) as [run' rest']. intros [= <- <-].
      destruct (IH run' rest' eq_refl) as (-> & Hall & Hstop).
      simpl. by rewrite Ec.
    + intros [= <- <-]. simpl. by rewrite Ec.
Qed.



Lemma underscore_not_alnum :
  Py.is_alpha "_"%char = false /\ Py.is_digit "_"%char = false.
Proof. split; reflexivity. Qed.





Lemma append_cons (c : ascii) (s t : string) :
  String c s +:+ t = String c (s +:+ t).
Proof. reflexivity. Qed.

Lemma length_append (s t : string) :
  String.length (s +:+ t) = (String.length s + String.length t)%nat.
Proof.
  induction s as [|c s IH]; [done |]. rewrite append_cons. simpl. by rewrite IH.
Qed.

Lemma contains_char_app (c : ascii) (s t : string) :
  Py.contains_char c (s +:+ t)
  = Py.contains_char c s || Py.contains_char c t.
Proof.
  induction s as [|d s IH]; [done |].
  rewrite append_cons. simpl. by destruct (Ascii.eqb c d).
Qed.

Lemma all_chars_excludes (p : ascii -> bool) (c : ascii) (s : string) :
  p c = false -> all_chars p s = true -> Py.contains_char c s = false.
Proof.
  intros Hc. induction s as [|d s IH]; [done |]. simpl.
  intros H. apply andb_prop in H as [Hd Hs].
  destruct (Ascii.eqb_spec c d) as [-> |]; [congruence | auto].
Qed.

Lemma after_first_absent (c : ascii) (s t : string) :
  Py.contains_char c s = false ->
  Py.after_first c (s +:+ String c t) = Some t.
Proof.
  induction s as [|d s IH].
  - intros _. simpl. by rewrite Ascii.eqb_refl.
  - rewrite append_cons. simpl. destruct (Ascii.eqb c d); [done | auto].
Qed.

Lemma after_first_present (c : ascii) (s t : string) :
  Py.contains_char c s = true ->
  exists rest, Py.after_first c (s +:+ t) = Some (rest +:+ t).
Proof.
  induction s as [|d s IH]; [done |].
  rewrite append_cons. simpl. destruct (Ascii.eqb c d); [by exists s | auto].
Qed.

Lemma id_pattern_no_underscore (s : string) :
  Flow2.id_pattern s = true -> Py.contains_char "_"%char s = false.
Proof.
  unfold Flow2.id_pattern.
  destruct (span Py.is_alpha s) as [letters r1] eqn:E1.
  destruct (span Py.is_digit r1) as [digits r2] eqn:E2.
  apply span_spec in E1 as (-> & Hal & _).
  apply span_spec in E2 as (-> & Had & _).
  intros H. apply andb_prop in H as [_ Hend].
  rewrite !contains_char_app.
  rewrite (all_chars_excludes Py.is_alpha "_"%char letters eq_refl Hal).
  rewrite (all_chars_excludes Py.is_digit "_"%char digits eq_refl Had).
  apply orb_prop in Hend as [H | H]; apply String.eqb_eq in H; by subst r2.
Qed.

(** ** X4 -- the order number built by the translator is read back by Flow
    2: when the customer code holds no underscore, splitting the order
    number at its first underscore gives the shipment identifier of the
    header, and the order is taken for one of ours exactly when that
    identifier is letters followed by digits. *)
Theorem order_number_round_trip (h : XmlParser.ShipmentHeader) :
  Py.contains_char "_"%char (XmlParser.customer_code h) = false ->
  Flow2.shipment_id_of (OrderMapper.build_order_number h)
  = XmlParser.shipment_id h
  /\ Flow2._is_our_order (OrderMapper.build_order_number h)
     = Flow2.id_pattern (XmlParser.shipment_id h).
Proof.
  intros Hcc. unfold Flow2.shipment_id_of, Flow2._is_our_order,
    OrderMapper.build_order_number.
  change ("_" +:+ XmlParser.shipment_id h)
    with (String "_"%char (XmlParser.shipment_id h)).
  by rewrite (after_first_absent _ _ _ Hcc).
Qed.

(** ** X5 -- a customer code that holds an underscore breaks the round trip:
    the split happens inside the customer code, the order is not taken for
    one of ours, and the identifier read back is not that of the header. *)
Theorem underscore_in_customer_code_hides_order (h : XmlParser.ShipmentHeader) :
  Py.contains_char "_"%char (XmlParser.customer_code h) = true ->
  Flow2._is_our_order (OrderMapper.build_order_number h) = false
  /\ Flow2.shipment_id_of (OrderMapper.build_order_number h)
     <> XmlParser.shipment_id h.
Proof.
  intros Hcc. unfold Flow2.shipment_id_of, Flow2._is_our_order,
    OrderMapper.build_order_number.
  destruct (after_first_present "_"%char (XmlParser.customer_code h)
              ("_" +:+ XmlParser.shipment_id h) Hcc) as [rest ->].
  simpl. split.
  - destruct (Flow2.id_pattern _) eqn:E; [| done].
    apply id_pattern_no_underscore in E.
    rewrite contains_char_app in E. apply orb_false_iff in E as [_ E].
    discriminate E.
  - intros E. apply (f_equal String.length) in E.
    rewrite !length_append in E. simpl in E. lia.
Qed.




Lemma order_number_round_trip_witness :
  Flow2.shipment_id_of
    (OrderMapper.build_order_number (header_of "ACME" "SHIP1"))
  = "SHIP1"
  /\ Flow2._is_our_order
       (OrderMapper.build_order_number (header_of "ACME" "SHIP1"))
     = true.
Proof.
  destruct (order_number_round_trip (header_of "ACME" "SHIP1") eq_refl)
    as [Hid Hours].
  split; [exact Hid | exact Hours].
Defined.

Lemma underscore_in_customer_code_hides_order_witness :
  Flow2._is_our_order
    (OrderMapper.build_order_number (header_of "AC_ME" "SHIP1")) = false.
Proof.
  exact (proj1 (underscore_in_customer_code_hides_order
                  (header_of "AC_ME" "SHIP1") eq_refl)).
Defined.

End IdentifierFacts.

(** ** The retrying gateway: what an outcome says about the wire *)

Module RetryFacts.
Import Exn ShipStation RetrySpec ShipStationFacts.

Section OutcomeFacts.
Context {J : Type}.
Variable self : Client.
Variable env : nat -> attempt J.




End OutcomeFacts.

End RetryFacts.

(** ** Flow 1: the summary, the trace and the ledger of a run *)

Module Flow1RunFacts.
Import Exn XmlParser Sage OrderMapper FileManager Pending Config Flow1.
Import Flow1Spec Scenario.

Lemma count_none (kind other : effect -> bool) (l : list effect) :
  (forall x, other x = true -> kind x = false) ->
  Forall (fun x => other x = true) l -> count kind l = O.
Proof.
  intros Hk. unfold count. induction 1 as [|x l Hx _ IH]; [done |].
  simpl. by rewrite (Hk x Hx).
Qed.

Lemma pending_writes_app (t1 t2 : list effect) :
  pending_writes (t1 ++ t2) = pending_writes t1 ++ pending_writes t2.
Proof. apply omap_app. Qed.

Lemma pending_writes_none (other : effect -> bool) (l : list effect) :
  (forall x, other x = true -> is_pending_write x = false) ->
  Forall (fun x => other x = true) l -> pending_writes l = [].
Proof.
  intros Hk. induction 1 as [|x l Hx _ IH]; [done |].
  specialize (Hk x Hx). unfold pending_writes in *. simpl.
  destruct x; try done.
Qed.

Lemma lookup_not_relocation (x : effect) :
  is_sage_lookup x = true -> is_relocation x = false.
Proof. by destruct x. Qed.
Lemma lookup_not_pending (x : effect) :
  is_sage_lookup x = true -> is_pending_write x = false.
Proof. by destruct x. Qed.
Lemma remote_not_relocation (x : effect) :
  is_remote_call x = true -> is_relocation x = false.
Proof. by destruct x. Qed.
Lemma remote_not_pending (x : effect) :
  is_remote_call x = true -> is_pending_write x = false.
Proof. by destruct x. Qed.

Section RunFacts.
Variable w : World.
Variable config : Config.t.
Variable sage : option SageClient.

Lemma count_app (kind : effect -> bool) (t1 t2 : list effect) :
  count kind (t1 ++ t2) = (count kind t1 + count kind t2)%nat.
Proof. unfold count. by rewrite List.filter_app, List.length_app. Qed.

(** The submission ends by [Processed] or by an exception. *)
Lemma submit_ending (pair : FilePair) (header : ShipmentHeader)
      (detail : ShipmentDetail) (account : string) (store_id : option Z)
      (items : list OrderItem) (p : Progress) :
  let r := submit w pair header detail account store_id items p in
  (snd r = Processed
   /\ exists entry,
      entry = pending_data header detail (build_order_number header)
                           account items (now w)
      /\ done_effects (fst r)
      = done_effects p
        ++ [GatewayFind account (build_order_number header);
            GatewayCreate account
              (map_to_shipstation header detail store_id items);
            PendingSaved entry; MovedToProcessed pair]
      /\ cur_ledger (fst r) = _save_pending_shipment (cur_ledger p) entry)
  \/ (exists e tail,
         snd r = Raised e
         /\ done_effects (fst r) = done_effects p ++ tail
         /\ Forall (fun x => is_remote_call x = true) tail
         /\ cur_ledger (fst r) = cur_ledger p).
Proof.
  unfold submit.
  destruct (find_order_by_number w account _) as [e | found].
  - right. exists e, [GatewayFind account (build_order_number header)].
    simpl. repeat split. by constructor.
  - destruct (create_or_update_order w account _) as [e | []].
    + right. exists e, [GatewayFind account (build_order_number header);
                        GatewayCreate account
                          (map_to_shipstation header detail store_id items)].
      simpl. rewrite <- app_assoc. repeat split. by repeat constructor.
    + left. split; [done |]. eexists. simpl.
      rewrite <- !app_assoc. split; [reflexivity |]. split; reflexivity.
Qed.

(** A submission that ends by [Processed] had its order accepted. *)
Lemma submit_accepted (pair : FilePair) (header : ShipmentHeader)
      (detail : ShipmentDetail) (account : string) (store_id : option Z)
      (items : list OrderItem) (p : Progress) :
  snd (submit w pair header detail account store_id items p) = Processed ->
  accepted w account (map_to_shipstation header detail store_id items)
  = true.
Proof.
  unfold submit, accepted.
  destruct (find_order_by_number w account _); [done |].
  by destruct (create_or_update_order w account _).
Qed.

Lemma lookup_items_effects (order_no : string) (p : Progress) :
  let r := lookup_items sage order_no p in
  cur_ledger (fst r) = cur_ledger p
  /\ exists tail, done_effects (fst r) = done_effects p ++ tail
                  /\ Forall (fun x => is_sage_lookup x = true) tail.
Proof.
  unfold lookup_items. destruct sage as [get |].
  - destruct (Py.truthy order_no).
    + assert (H : exists tail,
                 done_effects (perform p (SageLookup order_no))
                 = done_effects p ++ tail
                 /\ Forall (fun x => is_sage_lookup x = true) tail).
      { exists [SageLookup order_no]. split; [done | by constructor]. }
      destruct (get order_no) as [[] | []]; simpl; split; done.
    + simpl. split; [done |]. exists []. by rewrite app_nil_r.
  - simpl. split; [done |]. exists []. by rewrite app_nil_r.
Qed.

Variable dry_run : bool.

(** The five ways in which the [try] block of a unit ends, with what it
    has done by then: item lookups first, then the tail named here. *)
Lemma try_unit_cases (pair : FilePair) (p : Progress) :
  let r := try_unit w config sage dry_run pair p in
  exists lookups tail,
    done_effects (fst r) = done_effects p ++ lookups ++ tail
    /\ Forall (fun x => is_sage_lookup x = true) lookups
    /\ ((snd r = Skipped
         /\ tail = (if dry_run then [] else [MovedToProcessed pair])
         /\ cur_ledger (fst r) = cur_ledger p)
        \/ (exists h, snd r = Held h /\ tail = [] /\ held_pair h = pair
                      /\ cur_ledger (fst r) = cur_ledger p)
        \/ (snd r = Processed /\ dry_run = true /\ tail = []
            /\ cur_ledger (fst r) = cur_ledger p)
        \/ (snd r = Processed /\ dry_run = false
            /\ exists account order entry,
                tail = [GatewayFind account (pe_order_number entry);
                        GatewayCreate account order;
                        PendingSaved entry; MovedToProcessed pair]
                /\ cur_ledger (fst r)
                   = _save_pending_shipment (cur_ledger p) entry
                /\ orderNumber order = pe_order_number entry
                /\ pe_account entry = account
                /\ accepted w account order = true)
        \/ (exists e, snd r = Raised e
                      /\ Forall (fun x => is_remote_call x = true) tail
                      /\ (dry_run = true -> tail = [])
                      /\ cur_ledger (fst r) = cur_ledger p)).
Proof.
  unfold try_unit.
  destruct (read_xml w (header_path pair)) as [hroot |].
  2: { exists [], []. rewrite !app_nil_r. split; [done |]. split; [done |].
       do 4 right. eexists. repeat split; by try constructor. }
  destruct (read_xml w (detail_path pair)) as [droot |].
  2: { exists [], []. rewrite !app_nil_r. split; [done |]. split; [done |].
       do 4 right. eexists. repeat split; by try constructor. }
  destruct (id_mismatch _ _).
  { exists [], []. rewrite !app_nil_r. split; [done |]. split; [done |].
    do 4 right. eexists. repeat split; by try constructor. }
  destruct (String.eqb (Py.upper (void _)) "Y").
  { exists [], (if dry_run then [] else [MovedToProcessed pair]).
    split; [by destruct dry_run; simpl; rewrite ?app_nil_r |].
    split; [done |]. left. by destruct dry_run. }
  destruct (String.eqb (Py.upper (rate_only _)) "Y").
  { exists [], (if dry_run then [] else [MovedToProcessed pair]).
    split; [by destruct dry_run; simpl; rewrite ?app_nil_r |].
    split; [done |]. left. by destruct dry_run. }
  destruct (_get_account_for_country config _) as [[account label] store_id].
  pose proof (lookup_items_effects (order_no (parse_header hroot)) p) as Hl.
  simpl in Hl. destruct Hl as (Hledger & lookups & Heff & Hlk).
  destruct (lookup_items sage _ p) as [p' [e | [items problem]]];
    simpl in Hledger, Heff.
  { exists lookups, []. rewrite app_nil_r. split; [done |]. split; [done |].
    do 4 right. eexists. repeat split; by try constructor. }
  destruct (must_hold sage _ items).
  { exists lookups, []. rewrite app_nil_r. split; [done |]. split; [done |].
    right. left. eexists. repeat split; done. }
  destruct dry_run.
  { exists lookups, []. rewrite app_nil_r. split; [done |]. split; [done |].
    do 2 right. left. done. }
  pose proof (submit_ending pair (parse_header hroot)
                (parse_detail (float_of_string w) droot)
                account store_id items p') as Hs.
  simpl in Hs.
  destruct Hs as [(Hend & entry & Hentry & Hdone & Hled)
                 | (e & tail & Hend & Hdone & Hrem & Hled)].
  - eexists lookups, _. rewrite Hdone, Heff, <- app_assoc.
    split; [reflexivity |]. split; [done |].
    do 3 right. left. split; [done |]. split; [done |].
    eexists account, _, entry. rewrite Hled, Hledger.
    split; [by rewrite Hentry |]. split; [reflexivity |].
    rewrite Hentry. split; [reflexivity |]. split; [reflexivity |].
    by apply (submit_accepted pair _ _ _ _ _ p').
  - exists lookups, tail. rewrite Hdone, Heff, <- app_assoc.
    split; [reflexivity |]. split; [done |].
    do 4 right. exists e. rewrite Hled. repeat split; done.
Qed.


(** What one iteration of the main loop changes. *)
Lemma process_pair_summary (st : RunState) (pair : FilePair) :
  let st' := process_pair w config sage dry_run st pair in
  exists added,
    effects st' = effects st ++ added
    /\ (tally (counters st') + List.length (held_orders st')
        = S (tally (counters st) + List.length (held_orders st)))%nat
    /\ (dry_run = true ->
        Forall (fun x => is_sage_lookup x = true) added
        /\ ledger st' = ledger st)
    /\ (dry_run = false ->
        (count is_relocation added + transient_failures (counters st')
         + List.length (held_orders st')
         = S (transient_failures (counters st)
              + List.length (held_orders st)))%nat
        /\ (List.length (pending_writes added) + processed (counters st)
            = processed (counters st'))%nat)
    /\ ledger st'
       = fold_left _save_pending_shipment (pending_writes added) (ledger st).
Proof.
  unfold process_pair.
  pose proof (try_unit_cases pair (mkProgress (effects st) (ledger st))) as H.
  simpl in H. destruct H as (lookups & tail & Heff & Hlk & Hcases).
  destruct (try_unit _ _ _ _ _ _) as [p' ending]. simpl in Heff, Hcases.
  assert (Hr := count_none is_relocation _ lookups lookup_not_relocation Hlk).
  assert (Hp := pending_writes_none _ lookups lookup_not_pending Hlk).
  unfold tally.
  destruct Hcases as [(-> & -> & Hled)
                     | [(h & -> & -> & _ & Hled)
                       | [(-> & Hdry & -> & Hled)
                         | [(-> & Hdry & account & order & entry & ->
                             & Hled & _)
                           | (e & -> & Hrem & Hnil & Hled)]]]]; simpl.
  - exists (lookups ++ (if dry_run then [] else [MovedToProcessed pair])).
    rewrite !count_app, !pending_writes_app, Hr, Hp.
    split; [by rewrite Heff |]. split; [lia |]. split; [| split].
    + intros ->. by rewrite app_nil_r.
    + intros ->. simpl. lia.
    + by destruct dry_run.
  - exists lookups. rewrite List.length_app, Hr, Hp. simpl.
    split; [by rewrite Heff, app_nil_r |]. split; [lia |].
    split; [done |]. split; [| done]. intros _. lia.
  - exists lookups. rewrite Hr, Hp.
    split; [by rewrite Heff, app_nil_r |]. split; [lia |].
    split; [done |]. split; [| done]. by rewrite Hdry.
  - eexists. split; [by rewrite Heff |].
    rewrite !count_app, !pending_writes_app, Hr, Hp.
    split; [lia |]. split; [by rewrite Hdry |]. split; [| done].
    intros _. simpl. lia.
  - assert (Hr' := count_none is_relocation _ tail remote_not_relocation Hrem).
    assert (Hp' := pending_writes_none _ tail remote_not_pending Hrem).
    destruct e; simpl; rewrite Heff;
      (eexists; split; [by rewrite <- ?app_assoc |]);
      (split; [lia |]);
      rewrite ?count_app, ?pending_writes_app, Hr, Hp, Hr', Hp';
      (split; [| split];
        [intros Hd; rewrite (Hnil Hd), ?Hd; simpl; by rewrite ?app_nil_r
        | intros ->; simpl; lia
        | by destruct dry_run]).
Qed.


(** What the push of one held unit changes. *)
Lemma push_held_summary (st : RunState) (h : HeldOrder) :
  let st' := push_held w st h in
  exists added,
    effects st' = effects st ++ added
    /\ held_orders st' = held_orders st
    /\ tally (counters st') = S (tally (counters st))
    /\ (count is_relocation added + transient_failures (counters st')
        = S (transient_failures (counters st)))%nat
    /\ (List.length (pending_writes added) + processed (counters st)
        = processed (counters st'))%nat
    /\ ledger st'
       = fold_left _save_pending_shipment (pending_writes added) (ledger st).
Proof.
  unfold push_held.
  pose proof (submit_ending (held_pair h) (held_header h) (held_detail h)
                (held_account h) (held_store_id h) []
                (mkProgress (effects st) (ledger st))) as H.
  simpl in H. unfold tally.
  destruct (submit _ _ _ _ _ _ _ _) as [p' ending]. simpl in H.
  destruct H as [(-> & entry & _ & Heff & Hled)
                | (e & tail & -> & Heff & Hrem & Hled)]; simpl.
  - eexists. split; [by rewrite Heff |]. rewrite Hled.
    repeat split; simpl; lia.
  - assert (Hr' := count_none is_relocation _ tail remote_not_relocation Hrem).
    assert (Hp' := pending_writes_none _ tail remote_not_pending Hrem).
    destruct e; simpl; rewrite Heff;
      (eexists; split; [by rewrite <- ?app_assoc |]);
      rewrite ?count_app, ?pending_writes_app, Hr', Hp', Hled;
      repeat split; simpl; lia.
Qed.

(** The state after the main loop. *)
Lemma main_loop_summary (pairs : list FilePair) :
  forall st,
    let st' := fold_left (process_pair w config sage dry_run) pairs st in
    exists added,
      effects st' = effects st ++ added
      /\ (tally (counters st') + List.length (held_orders st')
          = tally (counters st) + List.length (held_orders st)
            + List.length pairs)%nat
      /\ (dry_run = true ->
          Forall (fun x => is_sage_lookup x = true) added
          /\ ledger st' = ledger st)
      /\ (dry_run = false ->
          (count is_relocation added + transient_failures (counters st')
           + List.length (held_orders st')
           = transient_failures (counters st)
             + List.length (held_orders st) + List.length pairs)%nat
          /\ (List.length (pending_writes added) + processed (counters st)
              = processed (counters st'))%nat)
      /\ ledger st'
         = fold_left _save_pending_shipment (pending_writes added)
                     (ledger st).
Proof.
  induction pairs as [|pair pairs IH]; intros st; simpl.
  - exists []. rewrite app_nil_r. simpl.
    repeat split; try done; try lia.
  - destruct (process_pair_summary st pair)
      as (a1 & He1 & Ht1 & Hd1 & Hr1 & Hl1).
    destruct (IH (process_pair w config sage dry_run st pair))
      as (a2 & He2 & Ht2 & Hd2 & Hr2 & Hl2).
    exists (a1 ++ a2). rewrite He2, He1, <- app_assoc.
    split; [done |]. split; [lia |]. split; [| split].
    + intros Hd. destruct (Hd1 Hd) as [? E1]. destruct (Hd2 Hd) as [? E2].
      split; [by apply Forall_app | by rewrite E2, E1].
    + intros Hd. destruct (Hr1 Hd) as [? ?]. destruct (Hr2 Hd) as [? ?].
      rewrite count_app, pending_writes_app, List.length_app. lia.
    + by rewrite pending_writes_app, fold_left_app, <- Hl1, <- Hl2.
Qed.

Lemma skip_all_summary (hs : list HeldOrder) :
  forall st,
    let st' := fold_left skip_held hs st in
    effects st' = effects st /\ held_orders st' = held_orders st
    /\ ledger st' = ledger st
    /\ processed (counters st') = processed (counters st)
    /\ transient_failures (counters st') = transient_failures (counters st)
    /\ tally (counters st') = (tally (counters st) + List.length hs)%nat.
Proof.
  induction hs as [|h hs IH]; intros st; simpl;
    [unfold tally; repeat split; lia |].
  destruct (IH (skip_held st h)) as (-> & -> & -> & -> & -> & ->).
  unfold tally. simpl. repeat split; lia.
Qed.

Lemma push_all_summary (hs : list HeldOrder) :
  forall st,
    let st' := fold_left (push_held w) hs st in
    exists added,
      effects st' = effects st ++ added
      /\ held_orders st' = held_orders st
      /\ tally (counters st') = (tally (counters st) + List.length hs)%nat
      /\ (count is_relocation added + transient_failures (counters st')
          = transient_failures (counters st) + List.length hs)%nat
      /\ (List.length (pending_writes added) + processed (counters st)
          = processed (counters st'))%nat
      /\ ledger st'
         = fold_left _save_pending_shipment (pending_writes added)
                     (ledger st).
Proof.
  induction hs as [|h hs IH]; intros st; simpl.
  - exists []. rewrite app_nil_r. simpl. repeat split; lia.
  - destruct (push_held_summary st h)
      as (a1 & He1 & Hh1 & Ht1 & Hr1 & Hp1 & Hl1).
    destruct (IH (push_held w st h))
      as (a2 & He2 & Hh2 & Ht2 & Hr2 & Hp2 & Hl2).
    exists (a1 ++ a2). rewrite He2, He1, <- app_assoc, Hh2, Hh1.
    rewrite count_app, pending_writes_app, List.length_app, fold_left_app.
    rewrite <- Hl1, <- Hl2. repeat split; lia.
Qed.

End RunFacts.

(** ** X8 -- every pair of the scan is counted exactly once in the summary
    line of the run, in a dry run as in a real one and whatever the operator
    answers about the held units. *)
Theorem every_pair_is_counted_once
        (w : World) (config : Config.t) (sage : option SageClient)
        (dry_run : bool) (pairs : list FilePair) (answer : choice)
        (l : Ledger) :
  tally (counters (run_flow1 w config sage dry_run pairs answer l))
  = List.length pairs.
Proof.
  unfold run_flow1, decide_held.
  destruct (main_loop_summary w config sage dry_run pairs (initial l))
    as (added & _ & Ht & _).
  simpl in Ht.
  set (st := fold_left (process_pair w config sage dry_run) pairs (initial l))
    in *.
  destruct (skip_all_summary (held_orders st) st) as (_ & _ & _ & _ & _ & Hs).
  destruct (push_all_summary w (held_orders st) st)
    as (? & _ & _ & Hp & _).
  destruct dry_run; [| destruct answer]; lia.
Qed.

(** ** X9 -- a dry run touches nothing: the only actions are item lookups in
    the enrichment source; no gateway call is made, no pair is moved and the
    pending ledger is the one the run started with. *)
Theorem dry_run_only_reads
        (w : World) (config : Config.t) (sage : option SageClient)
        (pairs : list FilePair) (answer : choice) (l : Ledger) :
  let run := run_flow1 w config sage true pairs answer l in
  Forall (fun x => is_sage_lookup x = true) (effects run)
  /\ count is_remote_call (effects run) = O
  /\ count is_relocation (effects run) = O
  /\ ledger run = l.
Proof.
  unfold run_flow1, decide_held.
  destruct (main_loop_summary w config sage true pairs (initial l))
    as (added & He & _ & Hd & _).
  destruct (Hd eq_refl) as [Hall Hled].
  set (st := fold_left (process_pair w config sage true) pairs (initial l))
    in *.
  destruct (skip_all_summary (held_orders st) st) as (-> & _ & -> & _).
  simpl in He, Hled. rewrite He, Hled.
  split; [done |]. split; [| split; [| done]].
  - apply (count_none _ is_sage_lookup); [by intros [] | done].
  - apply (count_none _ is_sage_lookup); [by intros [] | done].
Qed.

(** ** X10 -- on a real run a pair stays in the intake folder in two cases
    only: its submission failed transiently, or it was held for want of
    items and the operator chose to skip the held units. Every other pair is
    moved exactly once, to the processed or to the error folder. *)
Theorem real_run_moves_every_other_pair
        (w : World) (config : Config.t) (sage : option SageClient)
        (pairs : list FilePair) (answer : choice) (l : Ledger) :
  let run := run_flow1 w config sage false pairs answer l in
  (count is_relocation (effects run)
   + transient_failures (counters run)
   + left_held false answer run)%nat
  = List.length pairs.
Proof.
  unfold run_flow1, decide_held, left_held.
  destruct (main_loop_summary w config sage false pairs (initial l))
    as (added & He & _ & _ & Hr & _).
  destruct (Hr eq_refl) as [Hmoves _]. simpl in He, Hmoves.
  set (st := fold_left (process_pair w config sage false) pairs (initial l))
    in *.
  destruct answer.
  - destruct (push_all_summary w (held_orders st) st)
      as (a2 & -> & _ & _ & Hp & _).
    rewrite He, count_app. lia.
  - destruct (skip_all_summary (held_orders st) st)
      as (-> & -> & _ & _ & -> & _).
    rewrite He. lia.
Qed.

(** ** X11 -- on a real run the pending ledger at the end is the ledger at
    the start with the records of the trace written over it in order, and
    the units counted as processed are exactly those that wrote one. *)
Theorem real_run_ledger_is_the_trace
        (w : World) (config : Config.t) (sage : option SageClient)
        (pairs : list FilePair) (answer : choice) (l : Ledger) :
  let run := run_flow1 w config sage false pairs answer l in
  ledger run
  = fold_left _save_pending_shipment (pending_writes (effects run)) l
  /\ processed (counters run)
     = List.length (pending_writes (effects run)).
Proof.
  unfold run_flow1, decide_held.
  destruct (main_loop_summary w config sage false pairs (initial l))
    as (added & He & _ & _ & Hr & Hl).
  destruct (Hr eq_refl) as [_ Hproc]. simpl in He, Hproc, Hl.
  set (st := fold_left (process_pair w config sage false) pairs (initial l))
    in *.
  destruct answer.
  - destruct (push_all_summary w (held_orders st) st)
      as (a2 & -> & _ & _ & _ & Hp & ->).
    rewrite He, pending_writes_app, fold_left_app, List.length_app, Hl.
    split; [done | lia].
  - destruct (skip_all_summary (held_orders st) st)
      as (-> & _ & -> & -> & _).
    rewrite He, Hl. split; [done | lia].
Qed.

(** ** X12 -- the record that a successful submission writes is the one Flow
    2 will look for: when the customer code holds no underscore, loading the
    ledger at the identifier that Flow 2 takes from the order number gives
    the record just written, which carries that order number. *)
Theorem pending_record_is_found_by_flow2
        (w : World) (pair : FilePair) (header : ShipmentHeader)
        (detail : ShipmentDetail) (account : string) (store_id : option Z)
        (items : list OrderItem) (p : Progress) :
  Py.contains_char "_"%char (customer_code header) = false ->
  snd (submit w pair header detail account store_id items p) = Processed ->
  exists entry,
    _load_pending_shipment
      (cur_ledger (fst (submit w pair header detail account store_id items p)))
      (Flow2.shipment_id_of (build_order_number header))
    = Some entry
    /\ pe_order_number entry = build_order_number header
    /\ pe_account entry = account.
Proof.
  intros Hcc Hend.
  pose proof (submit_ending w pair header detail account store_id items p)
    as H.
  simpl in H. destruct H as [(_ & entry & -> & _ & ->) | (e & ? & He & _)];
    [| congruence].
  exists (pending_data header detail (build_order_number header) account
                       items (now w)).
  split; [| split; reflexivity].
  unfold _load_pending_shipment, _save_pending_shipment, Flow2.shipment_id_of.
  unfold build_order_number.
  change ("_" +:+ XmlParser.shipment_id header)
    with (String "_"%char (XmlParser.shipment_id header)).
  rewrite (IdentifierFacts.after_first_absent _ _ _ Hcc). simpl.
  apply lookup_insert_eq.
Qed.

Lemma pending_record_is_found_by_flow2_witness :
  exists entry,
    _load_pending_shipment
      (cur_ledger
         (fst (submit (world_of plain_header matching_detail) unit1
                      (parse_header plain_header)
                      (parse_detail float_of_digits matching_detail)
                      "shipstation" None [] (mkProgress [] ∅))))
      "SHIP1"
    = Some entry
    /\ pe_order_number entry = "HO1002_SHIP1".
Proof.
  destruct (pending_record_is_found_by_flow2
              (world_of plain_header matching_detail) unit1
              (parse_header plain_header)
              (parse_detail float_of_digits matching_detail)
              "shipstation" None [] (mkProgress [] ∅) eq_refl eq_refl)
    as (entry & Hload & Horder & _).
  exists entry. split; [exact Hload | exact Horder].
Defined.

End Flow1RunFacts.

(** ** Flow 2: the summary and the disk after a run *)

Module Flow2RunFacts.
Import Exn Pending XmlGenerator Flow2 Flow2Spec Scenario.

Section LoopFacts.
Variable w : World.
Variable dry_run : bool.

(** What one iteration of the reconciliation loop changes. *)
Lemma reconcile_summary (st : Loop) (shipment : Shipment) :
  let st' := reconcile w dry_run st shipment in
  exists added,
    l_written st' = l_written st ++ added
    /\ tally (l_counters st') = S (tally (l_counters st))
    /\ l_ledger st' ⊆ l_ledger st
    /\ (size (l_ledger st') + List.length added)%nat = size (l_ledger st)
    /\ (dry_run = true ->
        l_ledger st' = l_ledger st /\ added = []
        /\ errors (l_counters st') = errors (l_counters st))
    /\ (dry_run = false ->
        processed (l_counters st')
        = (processed (l_counters st) + List.length added)%nat).
Proof.
  unfold reconcile, _load_pending_shipment, _delete_pending_shipment, tally.
  destruct (l_ledger st !! shipment_id_of (orderNumber shipment))
    as [pending |] eqn:E.
  - destruct dry_run.
    + exists []. rewrite app_nil_r. simpl. repeat split; try done; lia.
    + destruct (generate_out_files (fmt_decimal w) (timestamp w)
                                   (the_call w pending shipment))
        as [e | files].
      * exists []. rewrite app_nil_r. simpl. repeat split; try done; lia.
      * exists [files]. simpl. repeat split; try done; try lia.
        -- apply delete_subseteq.
        -- rewrite map_size_delete, E.
           assert (size (l_ledger st) <> O)
             by (intros H; apply map_size_empty_inv in H;
                 rewrite H in E; by rewrite lookup_empty in E).
           simpl. lia.
  - exists []. rewrite app_nil_r. simpl. repeat split; try done; lia.
Qed.

Lemma reconcile_all_summary (shipments : list Shipment) :
  forall st,
    let st' := fold_left (reconcile w dry_run) shipments st in
    exists added,
      l_written st' = l_written st ++ added
      /\ tally (l_counters st')
         = (tally (l_counters st) + List.length shipments)%nat
      /\ l_ledger st' ⊆ l_ledger st
      /\ (size (l_ledger st') + List.length added)%nat = size (l_ledger st)
      /\ (dry_run = true ->
          l_ledger st' = l_ledger st /\ added = []
          /\ errors (l_counters st') = errors (l_counters st))
      /\ (dry_run = false ->
          processed (l_counters st')
          = (processed (l_counters st) + List.length added)%nat).
Proof.
  induction shipments as [|s shipments IH]; intros st; simpl.
  - exists []. rewrite app_nil_r. simpl. repeat split; try done; lia.
  - destruct (reconcile_summary st s)
      as (a1 & Hw1 & Ht1 & Hs1 & Hz1 & Hd1 & Hr1).
    destruct (IH (reconcile w dry_run st s))
      as (a2 & Hw2 & Ht2 & Hs2 & Hz2 & Hd2 & Hr2).
    exists (a1 ++ a2). rewrite Hw2, Hw1, <- app_assoc, List.length_app.
    split; [done |]. split; [lia |]. split; [by etrans |].
    split; [lia |]. split.
    + intros Hd. destruct (Hd1 Hd) as (E1 & -> & F1).
      destruct (Hd2 Hd) as (E2 & -> & F2).
      split; [by rewrite E2, E1 |]. split; [done | by rewrite F2, F1].
    + intros Hd. rewrite (Hr2 Hd), (Hr1 Hd). lia.
Qed.

End LoopFacts.

(** A run that completes: what was fetched, and the loop over the
    candidates that gives the counters and the disk. *)
Lemma run_flow2_done (w : World) (config : Config.t) (dry_run : bool)
      (fuel : nat) (disk disk' : Disk) (c : Counters) :
  run_flow2 w config dry_run fuel disk = Done (disk', c) ->
  let previous :=
    processed_shipment_ids (_load_flow2_state (state_file disk)) in
  exists fetched,
    fetch_accounts w config fuel (Config._get_all_accounts config)
                   (start_date_of w (_load_flow2_state (state_file disk))) []
    = Done fetched
    /\ let st := fold_left (reconcile w dry_run) (candidates disk fetched)
                           (mkLoop (PySet.of_list previous) (ledger disk)
                                   (out_files disk) (mkCounters 0 0 0)) in
       c = l_counters st /\ ledger disk' = l_ledger st
       /\ out_files disk' = l_written st
       /\ (dry_run = true -> state_file disk' = state_file disk)
       /\ (dry_run = false ->
           exists ids,
             state_file disk' = Some (mkState (Some (today w)) ids)
             /\ (ids = previous \/ ids = capped (l_processed_ids st))).
Proof.
  unfold run_flow2, candidates.
  destruct (fetch_accounts _ _ _ _ _ _) as [fetched | e |]; try discriminate.
  intros H. exists fetched. split; [done |].
  destruct (List.filter _ fetched) as [|s new].
  - injection H as <- <-. simpl. destruct dry_run; repeat split; try done.
    intros _. eauto.
  - injection H as <- <-. destruct dry_run; repeat split; try done.
    intros _. eauto.
Qed.

(** ** X13 -- every candidate of a completed run is counted exactly once in
    its summary: as processed, skipped or failed. *)
Theorem every_candidate_is_counted_once
        (w : World) (config : Config.t) (dry_run : bool) (fuel : nat)
        (disk disk' : Disk) (c : Counters) :
  run_flow2 w config dry_run fuel disk = Done (disk', c) ->
  exists fetched,
    fetch_accounts w config fuel (Config._get_all_accounts config)
                   (start_date_of w (_load_flow2_state (state_file disk))) []
    = Done fetched
    /\ tally c = List.length (candidates disk fetched).
Proof.
  intros H. apply run_flow2_done in H as (fetched & Hf & -> & _).
  exists fetched. split; [done |].
  destruct (reconcile_all_summary w dry_run (candidates disk fetched)
              (mkLoop (PySet.of_list
                         (processed_shipment_ids
                            (_load_flow2_state (state_file disk))))
                      (ledger disk) (out_files disk) (mkCounters 0 0 0)))
    as (? & _ & Ht & _).
  exact Ht.
Qed.

(** ** X14 -- a dry run that completes leaves the disk as it was: the run
    state, the pending ledger and the output folder; and it counts no error.
    *)
Theorem flow2_dry_run_changes_nothing
        (w : World) (config : Config.t) (fuel : nat)
        (disk disk' : Disk) (c : Counters) :
  run_flow2 w config true fuel disk = Done (disk', c) ->
  disk' = disk /\ errors c = O.
Proof.
  intros H. apply run_flow2_done in H as (fetched & _ & -> & Hl & Hw & Hs & _).
  destruct (reconcile_all_summary w true (candidates disk fetched)
              (mkLoop (PySet.of_list
                         (processed_shipment_ids
                            (_load_flow2_state (state_file disk))))
                      (ledger disk) (out_files disk) (mkCounters 0 0 0)))
    as (added & Hw' & _ & _ & _ & Hd & _).
  destruct (Hd eq_refl) as (Hl' & -> & He).
  rewrite Hl' in Hl. rewrite Hw', app_nil_r in Hw. simpl in Hl, Hw.
  split; [| exact He].
  destruct disk, disk'. simpl in *. rewrite Hl, Hw, (Hs eq_refl). done.
Qed.

(** On a real run the loop body never gets past the generator: a
    candidate is skipped when it has no pending record and counted as
    failed when it has one. *)
Lemma reconcile_all_real (w : World) (shipments : list Shipment) :
  forall st,
    let st' := fold_left (reconcile w false) shipments st in
    l_ledger st' = l_ledger st /\ l_written st' = l_written st
    /\ processed (l_counters st') = processed (l_counters st).
Proof.
  induction shipments as [|s shipments IH]; intros st; simpl; [done |].
  destruct (IH (reconcile w false st s)) as (-> & -> & ->).
  unfold reconcile.
  destruct (_load_pending_shipment (l_ledger st) _) as [pending |]; [| done].
  by destruct (Flow2Facts.generate_out_files_unbound w pending s) as [msg ->].
Qed.

(** ** X15 -- a real run that completes writes no output file and removes no
    pending record, whatever the remote lists and whatever is pending: the
    call of [generate_out_files] in the loop passes three of the four
    required arguments, so every candidate with a pending record ends in the
    error count and none in the processed count. *)
Theorem flow2_real_run_writes_no_output
        (w : World) (config : Config.t) (fuel : nat)
        (disk disk' : Disk) (c : Counters) :
  run_flow2 w config false fuel disk = Done (disk', c) ->
  out_files disk' = out_files disk /\ ledger disk' = ledger disk
  /\ processed c = O.
Proof.
  intros H. apply run_flow2_done in H as (fetched & _ & -> & -> & -> & _).
  destruct (reconcile_all_real w (candidates disk fetched)
              (mkLoop (PySet.of_list
                         (processed_shipment_ids
                            (_load_flow2_state (state_file disk))))
                      (ledger disk) (out_files disk) (mkCounters 0 0 0)))
    as (-> & -> & ->).
  done.
Qed.

(** ** X16 -- the persisted identifier list does not outgrow its cap: after
    a real run that completes it holds at most [MAX_PROCESSED_IDS]
    identifiers when it did so before. *)
Theorem dedup_list_stays_within_the_cap
        (w : World) (config : Config.t) (fuel : nat)
        (disk disk' : Disk) (c : Counters) :
  (List.length (processed_shipment_ids (_load_flow2_state (state_file disk)))
   <= MAX_PROCESSED_IDS)%nat ->
  run_flow2 w config false fuel disk = Done (disk', c) ->
  (List.length (processed_shipment_ids (_load_flow2_state (state_file disk')))
   <= MAX_PROCESSED_IDS)%nat.
Proof.
  intros Hlen H.
  apply run_flow2_done in H as (fetched & _ & _ & _ & _ & _ & Hs).
  destruct (Hs eq_refl) as (ids & -> & [-> | ->]); simpl; [done |].
  apply Flow2Facts.capped_length.
Qed.

Lemma every_candidate_is_counted_once_witness :
  exists fetched,
    fetch_accounts (remote_with [shipped 9001 "HO1002_SHIP1"]) us_only 1
                   (Config._get_all_accounts us_only) "2026-10-28" []
    = Done fetched
    /\ List.length (candidates disk_pending fetched) = 1%nat.
Proof.
  assert (H : exists d,
             run_flow2 (remote_with [shipped 9001 "HO1002_SHIP1"]) us_only
                       false 1 disk_pending
             = Done (d, mkCounters 0 0 1))
    by (eexists; vm_compute; reflexivity).
  destruct H as [d H].
  destruct (every_candidate_is_counted_once _ _ _ _ _ _ _ H)
    as (fetched & Hf & Ht).
  exists fetched. split; [exact Hf | symmetry; exact Ht].
Defined.

Lemma flow2_dry_run_changes_nothing_witness :
  exists c,
    run_flow2 (remote_with [shipped 9001 "HO1002_SHIP1"]) us_only true 1
              disk_pending
    = Done (disk_pending, c)
    /\ errors c = O.
Proof.
  assert (H : exists d,
             run_flow2 (remote_with [shipped 9001 "HO1002_SHIP1"]) us_only
                       true 1 disk_pending
             = Done (d, mkCounters 1 0 0))
    by (eexists; vm_compute; reflexivity).
  destruct H as [d H].
  destruct (flow2_dry_run_changes_nothing _ _ _ _ _ _ H) as [Hd He].
  exists (mkCounters 1 0 0). rewrite Hd in H. split; [exact H | exact He].
Defined.

Lemma flow2_real_run_writes_no_output_witness :
  exists d c,
    run_flow2 (remote_with [shipped 9001 "HO1002_SHIP1"]) us_only false 1
              disk_pending
    = Done (d, c)
    /\ out_files d = [] /\ ledger d = {[ "SHIP1" := pending_ship1 ]}.
Proof.
  assert (H : exists d,
             run_flow2 (remote_with [shipped 9001 "HO1002_SHIP1"]) us_only
                       false 1 disk_pending
             = Done (d, mkCounters 0 0 1))
    by (eexists; vm_compute; reflexivity).
  destruct H as [d H].
  destruct (flow2_real_run_writes_no_output _ _ _ _ _ _ H) as (Ho & Hl & _).
  exists d, (mkCounters 0 0 1). split; [exact H |].
  split; [exact Ho | exact Hl].
Defined.

Lemma dedup_list_stays_within_the_cap_witness :
  exists d c,
    run_flow2 (remote_with [shipped 9001 "WEB_SHIP7"]) us_only false 1
              disk_small
    = Done (d, c)
    /\ (List.length (processed_shipment_ids
                       (_load_flow2_state (state_file d))) <= 500)%nat.
Proof.
  assert (H : exists d,
             run_flow2 (remote_with [shipped 9001 "WEB_SHIP7"]) us_only
                       false 1 disk_small
             = Done (d, mkCounters 0 1 0))
    by (eexists; vm_compute; reflexivity).
  destruct H as [d H].
  exists d, (mkCounters 0 1 0). split; [exact H |].
  refine (dedup_list_stays_within_the_cap _ _ _ _ _ _ _ H).
  simpl. unfold MAX_PROCESSED_IDS. lia.
Defined.

End Flow2RunFacts.

(** ** Dates between the two pipelines *)

Module DateFacts.
Import OrderMapper XmlGenerator.

Lemma contains_char_cons (c d : ascii) (r : string) :
  Py.contains_char c (String d r) = false ->
  Ascii.eqb d c = false /\ Py.contains_char c r = false.
Proof.
  simpl. rewrite (Ascii.eqb_sym d c).
  by destruct (Ascii.eqb c d).
Qed.

(** ** X17 -- round trip of a date through the two pipelines: Flow 1 sends
    [_format_datetime] of an eight-character date of the header; what
    [_to_yyyymmdd] makes of that text in Flow 2 is the date of the header
    again, provided it holds no dash. *)
Theorem date_round_trip (s : string) :
  Py.len s = 8%nat -> Py.contains_char "-"%char s = false ->
  _to_yyyymmdd (_format_datetime s) = s.
Proof.
  intros Hlen Hdash.
  destruct s as [|c1 [|c2 [|c3 [|c4 [|c5 [|c6 [|c7 [|c8 [|c9 s]]]]]]]]];
    try discriminate Hlen.
  apply contains_char_cons in Hdash as [H1 Hdash].
  apply contains_char_cons in Hdash as [H2 Hdash].
  apply contains_char_cons in Hdash as [H3 Hdash].
  apply contains_char_cons in Hdash as [H4 Hdash].
  apply contains_char_cons in Hdash as [H5 Hdash].
  apply contains_char_cons in Hdash as [H6 Hdash].
  apply contains_char_cons in Hdash as [H7 Hdash].
  apply contains_char_cons in Hdash as [H8 _].
  unfold _format_datetime, _to_yyyymmdd. cbv -[Ascii.eqb].
  rewrite H1, H2, H3, H4, H5, H6, H7, H8. reflexivity.
Qed.

Lemma date_round_trip_witness :
  _to_yyyymmdd (_format_datetime "20260213") = "20260213".
Proof. apply date_round_trip; reflexivity. Defined.

End DateFacts.

(** ** Routing of a shipment to a remote account *)

Module RoutingFacts.
Import Config.

(** ** X18 -- the account to which a country is routed is one of the
    configured accounts, so the client looked up for it in Flow 1 exists; it
    is the Canadian account exactly when the country reads CA in any letter
    case and that account is configured, and the primary account otherwise.
    *)
Theorem routed_account_is_configured (c : Config.t) (country : string) :
  let r := _get_account_for_country c country in
  (r.1.1, r.1.2) ∈ _get_all_accounts c
  /\ r.2 = store_id_of c r.1.1
  /\ (r.1.1 = "shipstation_ca"
      <-> Py.upper country = "CA" /\ ca_configured c = true)
  /\ (r.1.1 = "shipstation_ca" \/ r.1.1 = "shipstation").
Proof.
  unfold _get_account_for_country, _get_all_accounts.
  destruct (String.eqb_spec (Py.upper country) "CA") as [Hca | Hca];
    destruct (ca_configured c); simpl.
  - split; [apply elem_of_cons; right; apply elem_of_cons; by left |].
    split; [done |]. split; [done | by left].
  - split; [apply elem_of_cons; by left |].
    split; [done |]. split; [| by right]. split; [done | by intros [_ ?]].
  - split; [apply elem_of_cons; by left |].
    split; [done |]. split; [| by right]. split; [done | by intros [? _]].
  - split; [apply elem_of_cons; by left |].
    split; [done |]. split; [| by right]. split; [done | by intros [? _]].
Qed.

End RoutingFacts.

(** ** The header parser *)

Module ParseFacts.
Import XmlParser ParseSpec Scenario.

Lemma header_fields_distinct (t1 t2 f : string) :
  _HEADER_FIELD_MAP !! t1 = Some f -> _HEADER_FIELD_MAP !! t2 = Some f ->
  t1 = t2.
Proof.
  intros H1 H2.
  assert (Hc : distinct_fields (map_to_list _HEADER_FIELD_MAP) = true)
    by (vm_compute; reflexivity).
  apply elem_of_map_to_list, list_elem_of_In in H1, H2.
  unfold distinct_fields in Hc. rewrite forallb_forall in Hc.
  specialize (Hc _ H1). rewrite forallb_forall in Hc. specialize (Hc _ H2).
  simpl in Hc. rewrite String.eqb_refl in Hc. simpl in Hc.
  by apply String.eqb_eq in Hc.
Qed.

Lemma getattr_setattr (h : ShipmentHeader) (f g v : string) :
  getattr (setattr h f v) g = if decide (f = g) then v else getattr h g.
Proof.
  unfold getattr, setattr. simpl. destruct (decide (f = g)) as [-> | Hne].
  - by rewrite lookup_insert_eq.
  - by rewrite lookup_insert_ne.
Qed.

Lemma parse_fold_reads_last (tag field : string) (children : list element) :
  _HEADER_FIELD_MAP !! tag = Some field ->
  forall h,
    getattr
      (fold_left
         (fun header el =>
            let text := Py.strip (default "" (text_of el)) in
            match _HEADER_FIELD_MAP !! tag_of el with
            | Some field_name => setattr header field_name text
            | None => header
            end) children h) field
    = match last (List.filter (fun c => String.eqb (tag_of c) tag) children)
      with
      | Some el => stripped_text el
      | None => getattr h field
      end.
Proof.
  intros Htag. induction children as [|el children IH]; intros h; [done |].
  cbn [fold_left List.filter]. rewrite IH. clear IH.
  destruct (String.eqb_spec (tag_of el) tag) as [-> | Hne].
  - rewrite Htag.
    rewrite last_cons.
    destruct (last (List.filter _ children)); [done |].
    rewrite getattr_setattr. by destruct (decide (field = field)).
  - destruct (last (List.filter _ children)); [done |].
    destruct (_HEADER_FIELD_MAP !! tag_of el) as [f' |] eqn:Ef; [| done].
    rewrite getattr_setattr.
    destruct (decide (f' = field)) as [-> | ?]; [| done].
    exfalso. apply Hne. by apply (header_fields_distinct _ _ field).
Qed.

(** ** X19 -- a header field is decided by the last element of the mapped
    name among the children of the root: its text, stripped, or the empty
    string when it has no text. Without such an element the field keeps the
    default of the dataclass; elements of other names do not touch it. *)
Theorem parse_header_reads_last_element (root : element)
        (tag field : string) :
  _HEADER_FIELD_MAP !! tag = Some field ->
  getattr (parse_header root) field
  = match last (findall root tag) with
    | Some el => stripped_text el
    | None => getattr default_header field
    end.
Proof. intros Htag. by apply parse_fold_reads_last. Qed.

Lemma parse_header_reads_last_element_witness :
  getattr (parse_header
             (header_doc [("customercode", " HO1 "); ("other", "x");
                          ("customercode", "HO1002 ")]))
          "customer_code"
  = "HO1002".
Proof.
  rewrite (parse_header_reads_last_element _ "customercode");
    reflexivity.
Defined.

End ParseFacts.

(** ** The generated documents *)

Module GeneratorFacts.
Import XmlParser Pending XmlGenerator OutSpec.

Lemma _add_has_text (tag text : string) : has_text (_add tag text) = true.
Proof. unfold _add, has_text. simpl. by destruct text. Qed.

(** ** X20 -- no element of the two generated documents is empty: every
    field of the output header and of every detail line carries a text, a
    blank value being written as the placeholder of a line feed and eight
    spaces. *)
Theorem out_documents_have_no_empty_field
        (fmt : Q -> nat -> string) (shipment_id order_number : string)
        (pending : PendingEntry) (shipment : Shipment)
        (ship_from : gmap string string) (packages : list Package) :
  forallb has_text
          (fields (_build_header_out shipment_id order_number pending
                                     shipment ship_from)) = true
  /\ forallb has_text
             (fields (_build_detail_out fmt shipment_id order_number
                                        shipment packages)) = true.
Proof.
  split.
  - unfold fields, records, _build_header_out. cbn [children_of flat_map app].
    cbn [forallb]. rewrite !_add_has_text. reflexivity.
  - unfold fields, records, _build_detail_out. cbn [children_of].
    destruct packages as [|p ps].
    + cbn [flat_map fallback_line children_of app forallb].
      rewrite !_add_has_text. reflexivity.
    + generalize (p :: ps). intros l. induction l as [|q l IH]; [done |].
      cbn [map flat_map detail_line children_of app forallb] in *.
      rewrite !_add_has_text, IH. reflexivity.
Qed.

(** ** X21 -- the output detail holds one line per package of the snapshot,
    in the order of the snapshot, and a single line when the snapshot has
    none; every line names the shipment, the order number and the tracking
    number of the remote shipment, and a line of a package repeats the
    identifier, the units and the comment of that package. *)
Theorem detail_out_has_one_line_per_package
        (fmt : Q -> nat -> string) (shipment_id order_number : string)
        (shipment : Shipment) (packages : list Package) :
  let doc := _build_detail_out fmt shipment_id order_number shipment
                               packages in
  let tracking := default "" (trackingNumber shipment) in
  List.length (records doc) = Nat.max 1 (List.length packages)
  /\ Forall (fun line =>
               tag_of line = "DetailLine"
               /\ find line "ShipmentID" = Some (_add "ShipmentID" shipment_id)
               /\ find line "P_ShipmentID"
                  = Some (_add "P_ShipmentID" order_number)
               /\ find line "trackingNumber"
                  = Some (_add "trackingNumber" tracking))
            (records doc)
  /\ (packages = []
      \/ map (fun line => (find line "packageID", find line "units",
                           find line "comment"))
             (records doc)
         = map (fun pkg => (Some (_add "packageID" (p_package_id pkg)),
                            Some (_add "units" (p_units pkg)),
                            Some (_add "comment" (p_comment pkg))))
               packages).
Proof.
  intros doc tracking. unfold doc, records, _build_detail_out.
  cbn [children_of]. fold tracking.
  destruct packages as [|p ps].
  - split; [done |]. split; [| by left].
    constructor; [| constructor]. repeat split.
  - split; [| split].
    + rewrite length_map. simpl. lia.
    + apply Forall_forall. intros line Hin.
      apply list_elem_of_fmap in Hin as (pkg & -> & _). repeat split.
    + right. rewrite map_map. reflexivity.
Qed.

(** ** X22 -- what Flow 1 saved comes back in the output header: built from
    the pending record of a header, the output header repeats the shipment
    identifier, the requested service, the ship-to name, address, phone
    (taken from [optional_text_001]) and e-mail, the COD flag and the
    collection type of that header, names the order number of the record,
    and writes the residential flag as 1 or 0. *)
Theorem out_header_echoes_the_in_header
        (header : ShipmentHeader) (detail : ShipmentDetail)
        (order_number account : string) (items : list Sage.OrderItem)
        (now : string) (shipment : Shipment)
        (ship_from : gmap string string) :
  let pending := pending_data header detail order_number account items now in
  let doc := _build_header_out (pe_shipment_id pending)
                               (pe_order_number pending) pending shipment
                               ship_from in
  Forall (fun p => out_field doc p.1 = Some (_add p.1 (getattr header p.2)))
         echoed
  /\ out_field doc "P_ShipmentID" = Some (_add "P_ShipmentID" order_number)
  /\ out_field doc "isResidential"
     = Some (_add "isResidential"
                  (if String.eqb (is_residential header) "1"
                   then "1" else "0")).
Proof.
  intros pending doc. split; [| split; reflexivity].
  unfold echoed. repeat (constructor; [reflexivity |]). constructor.
Qed.

End GeneratorFacts.

(** ** Moving files out of the intake folder *)

Module MoveFacts.
Import FileManager FileMove FileManagerFacts Scenario Samples.

Lemma append_inj_r (t : string) :
  forall s1 s2, s1 +:+ t = s2 +:+ t -> s1 = s2.
Proof.
  induction s1 as [|c1 s1 IH]; intros [|c2 s2] H.
  - done.
  - apply (f_equal String.length) in H.
    rewrite !IdentifierFacts.length_append in H. simpl in H. lia.
  - apply (f_equal String.length) in H.
    rewrite !IdentifierFacts.length_append in H. simpl in H. lia.
  - rewrite !IdentifierFacts.append_cons in H. injection H as -> H.
    by rewrite (IH s2 H).
Qed.

Lemma numbered_inj (folder base ext : string) (j k : nat) :
  numbered folder base ext j = numbered folder base ext k -> j = k.
Proof.
  unfold numbered. intros H. apply path_join_inj in H.
  apply (inj (String.app base)) in H. apply (inj (String.app "_")) in H.
  apply append_inj_r in H. by apply (inj pretty) in H.
Qed.

Lemma exists_spec (fs : FS) (path : string) :
  exists_ fs path = true <-> is_Some (fs !! path).
Proof. unfold exists_. apply bool_decide_eq_true. Qed.

Lemma exists_false (fs : FS) (path : string) :
  exists_ fs path = false <-> fs !! path = None.
Proof.
  unfold exists_. rewrite bool_decide_eq_false. symmetry.
  apply eq_None_not_Some.
Qed.

(** What the loop returns, and what it has seen when it gives up. *)
Lemma free_name_spec (fs : FS) (folder base ext : string) (fuel : nat) :
  forall counter,
    match free_name fuel fs folder base ext counter with
    | Some dest =>
        exists k, (counter <= k < counter + fuel)%nat
                  /\ dest = numbered folder base ext k
                  /\ fs !! dest = None
                  /\ forall j, (counter <= j < k)%nat ->
                               is_Some (fs !! numbered folder base ext j)
    | None =>
        forall j, (counter <= j < counter + fuel)%nat ->
                  is_Some (fs !! numbered folder base ext j)
    end.
Proof.
  induction fuel as [|fuel IH]; intros counter; simpl; [intros; lia |].
  destruct (exists_ fs (numbered folder base ext counter)) eqn:E.
  - apply exists_spec in E. specialize (IH (S counter)).
    destruct (free_name fuel fs folder base ext (S counter)) as [dest |].
    + destruct IH as (k & Hk & -> & Hfree & Hbelow).
      exists k. split; [lia |]. split; [done |]. split; [done |].
      intros j Hj. destruct (decide (j = counter)) as [-> | ?]; [done |].
      apply Hbelow. lia.
    + intros j Hj. destruct (decide (j = counter)) as [-> | ?]; [done |].
      apply IH. lia.
  - apply exists_false in E. exists counter.
    split; [lia |]. split; [done |]. split; [done |]. intros; lia.
Qed.

(** More numbered names than files cannot all be taken. *)
Lemma numbered_names_run_out (fs : FS) (folder base ext : string)
      (counter : nat) :
  ~ (forall j, (counter <= j < counter + S (size fs))%nat ->
               is_Some (fs !! numbered folder base ext j)).
Proof.
  intros Hall.
  set (names := numbered folder base ext <$> seq counter (S (size fs))).
  assert (Hnd : NoDup names).
  { apply NoDup_fmap_2; [| apply NoDup_seq].
    intros j k. apply numbered_inj. }
  assert (Hsub : names ⊆+ elements (dom fs)).
  { apply NoDup_submseteq; [done |]. intros x Hx.
    apply list_elem_of_fmap in Hx as (j & -> & Hj).
    apply elem_of_seq in Hj. apply elem_of_elements, elem_of_dom.
    apply Hall. lia. }
  apply submseteq_length in Hsub.
  unfold names in Hsub. rewrite length_fmap, length_seq in Hsub.
  change (length (elements (dom fs))) with (size (dom fs)) in Hsub.
  rewrite size_dom in Hsub. lia.
Qed.

(** The destination is a free name in the folder; numbering starts only
    when the plain name is taken. *)
Lemma destination_spec (fs : FS) (src folder : string) :
  exists dest name,
    destination fs src folder = Some dest
    /\ dest = path_join folder name
    /\ fs !! dest = None
    /\ (name = basename src
        \/ is_Some (fs !! path_join folder (basename src))
           /\ exists k,
               (1 <= k)%nat
               /\ dest = numbered folder (splitext (basename src)).1
                                  (splitext (basename src)).2 k
               /\ forall j, (1 <= j < k)%nat ->
                    is_Some (fs !! numbered folder
                                   (splitext (basename src)).1
                                   (splitext (basename src)).2 j)).
Proof.
  unfold destination.
  destruct (exists_ fs (path_join folder (basename src))) eqn:E.
  - apply exists_spec in E.
    destruct (splitext (basename src)) as [base ext]. cbn [fst snd].
    pose proof (free_name_spec fs folder base ext (S (size fs)) 1) as H.
    destruct (free_name (S (size fs)) fs folder base ext 1) as [dest |].
    + destruct H as (k & Hk & -> & Hfree & Hbelow).
      eexists _, _. split; [done |]. split; [reflexivity |].
      split; [done |]. right. split; [done |]. exists k.
      split; [lia |]. split; [done | done].
    + by apply numbered_names_run_out in H.
  - apply exists_false in E. eexists _, _. split; [done |].
    split; [reflexivity |]. split; [done | by left].
Qed.

Lemma move_file_spec (fs : FS) (src folder content : string) :
  fs !! src = Some content ->
  exists fs' dest name,
    _move_file fs src folder = Moved fs' dest
    /\ dest = path_join folder name
    /\ fs !! dest = None
    /\ fs' !! dest = Some content
    /\ fs' !! src = None
    /\ (forall p, p <> src -> p <> dest -> fs' !! p = fs !! p)
    /\ (fs !! path_join folder (basename src) = None -> name = basename src).
Proof.
  intros Hsrc. unfold _move_file.
  destruct (destination_spec fs src folder)
    as (dest & name & -> & Hdest & Hfree & Hname).
  rewrite Hsrc. eexists _, dest, name. split; [reflexivity |].
  assert (Hne : dest <> src) by congruence.
  split; [done |]. split; [done |].
  split; [by rewrite lookup_insert_eq |].
  split; [by rewrite lookup_insert_ne, lookup_delete_eq |].
  split.
  - intros p Hp1 Hp2. by rewrite lookup_insert_ne, lookup_delete_ne.
  - intros Hplain. destruct Hname as [-> | [[? Htaken] _]]; [done |].
    congruence.
Qed.

(** ** X23 -- moving a file never overwrites one: the file arrives under a
    name of the destination folder that was free, its own name when that is
    free and a numbered one otherwise, which the loop always finds; it
    leaves its old path, and every other file keeps its path and content. *)
Theorem move_file_never_overwrites (fs : FS) (src folder content : string) :
  fs !! src = Some content ->
  exists fs' dest name,
    _move_file fs src folder = Moved fs' dest
    /\ dest = path_join folder name
    /\ fs !! dest = None
    /\ fs' !! dest = Some content
    /\ fs' !! src = None
    /\ (forall p, p <> src -> p <> dest -> fs' !! p = fs !! p)
    /\ (fs !! path_join folder (basename src) = None -> name = basename src).
Proof. apply move_file_spec. Qed.

Lemma move_file_never_overwrites_witness :
  exists fs',
    _move_file crowded "in/HeaderIn_SHIP1_a.xml" "done"
    = Moved fs' "done/HeaderIn_SHIP1_a_1.xml"
    /\ fs' !! "done/HeaderIn_SHIP1_a.xml" = Some "<old/>"
    /\ fs' !! "done/HeaderIn_SHIP1_a_1.xml" = Some "<new/>".
Proof.
  destruct (move_file_never_overwrites crowded "in/HeaderIn_SHIP1_a.xml"
              "done" "<new/>" eq_refl)
    as (fs' & dest & name & Hmove & _ & _ & Hnew & _ & Hothers & _).
  assert (Hdest : dest = "done/HeaderIn_SHIP1_a_1.xml").
  { assert (H : exists fs0,
               _move_file crowded "in/HeaderIn_SHIP1_a.xml" "done"
               = Moved fs0 "done/HeaderIn_SHIP1_a_1.xml")
      by (eexists; vm_compute; reflexivity).
    destruct H as [fs0 H]. rewrite H in Hmove. by injection Hmove. }
  subst dest. exists fs'. split; [exact Hmove |]. split; [| exact Hnew].
  by rewrite Hothers.
Defined.

(** ** X24 -- moving a pair to the error folder always goes through when
    both files are there: the two moves overwrite nothing, while the
    companion file is written with the identifier and the message over
    whatever note an earlier failure of the same shipment left. Every other
    file keeps its path and content. *)
Theorem error_move_replaces_only_the_note
        (fs : FS) (pair : FilePair) (folder message h d : string) :
  fs !! header_path pair = Some h ->
  fs !! detail_path pair = Some d ->
  header_path pair <> detail_path pair ->
  exists fs' dest,
    move_to_error fs pair folder message = Moved fs' dest
    /\ fs' !! error_txt_path pair folder
       = Some (error_text (shipment_id pair) message)
    /\ (forall p content,
           fs !! p = Some content ->
           p <> header_path pair -> p <> detail_path pair ->
           p <> error_txt_path pair folder ->
           fs' !! p = Some content).
Proof.
  intros Hh Hd Hne. unfold move_to_error.
  destruct (move_file_spec fs (header_path pair) folder h Hh)
    as (fs1 & d1 & n1 & -> & _ & Hfree1 & Hnew1 & Hgone1 & Hothers1 & _).
  assert (Hd1 : fs1 !! detail_path pair = Some d).
  { rewrite Hothers1; [done | done | congruence]. }
  destruct (move_file_spec fs1 (detail_path pair) folder d Hd1)
    as (fs2 & d2 & n2 & -> & _ & Hfree2 & Hnew2 & Hgone2 & Hothers2 & _).
  eexists _, d2. split; [reflexivity |].
  split; [by rewrite lookup_insert_eq |].
  intros p content Hp Hph Hpd Hpe.
  rewrite lookup_insert_ne by done.
  assert (Hp1 : fs1 !! p = Some content).
  { rewrite Hothers1; [done | done | congruence]. }
  rewrite Hothers2; [done | done | congruence].
Qed.

Lemma error_move_replaces_only_the_note_witness :
  exists fs' dest,
    move_to_error crowded unit1 "done" "boom" = Moved fs' dest
    /\ fs' !! "done/SHIP1.error.txt"
       = Some (error_text "SHIP1" "boom")
    /\ fs' !! "done/HeaderIn_SHIP1_a.xml" = Some "<old/>".
Proof.
  destruct (error_move_replaces_only_the_note crowded unit1 "done" "boom"
              "<new/>" "<lines/>" eq_refl eq_refl ltac:(discriminate))
    as (fs' & dest & Hmove & Hnote & Hothers).
  exists fs', dest. split; [exact Hmove |]. split; [exact Hnote |].
  apply Hothers; [reflexivity | discriminate | discriminate | discriminate].
Defined.

End MoveFacts.

(** ** Flow 2: fetching the remote shipments *)

Module FetchFacts.
Import Exn Pending XmlGenerator Flow2 FetchSpec Scenario.

Lemma flat_map_seq_shift {A} (f : nat -> list A) (n : nat) :
  forall a, flat_map f (seq (S a) n) = flat_map (fun i => f (S i)) (seq a n).
Proof.
  induction n as [|n IH]; intros a; [done |]. simpl. by rewrite IH.
Qed.

Section FetchFacts.
Variable w : World.
Variable config : Config.t.

(** The pagination only appends to what was fetched before. *)
Lemma fetch_pages_acc (section : string) (store_id : option Z)
      (start_date : string) (fuel : nat) :
  forall page acc,
    fetch_pages w fuel section store_id start_date page acc
    = match fetch_pages w fuel section store_id start_date page [] with
      | Done l => Done (acc ++ l)
      | Raised e => Raised e
      | OutOfFuel => OutOfFuel
      end.
Proof.
  induction fuel as [|fuel IH]; intros page acc; simpl; [done |].
  destruct (list_shipments w section store_id start_date page)
    as [e | result].
  - destruct e; try done; by rewrite app_nil_r.
  - destruct (pages result <=? page); [done |].
    rewrite IH. rewrite (IH _ (shipments result)).
    destruct (fetch_pages w fuel section store_id start_date (page + 1) []);
      try done. by rewrite app_assoc.
Qed.

Lemma fetch_pages_in_order (section : string) (store_id : option Z)
      (start_date : string) (fuel : nat) :
  forall page fetched,
    fetch_pages w fuel section store_id start_date page [] = Done fetched ->
    exists k,
      (k < fuel)%nat
      /\ (forall i, (i < k)%nat ->
            has_next w section store_id start_date (page + Z.of_nat i))
      /\ stops_at w section store_id start_date (page + Z.of_nat k)
      /\ fetched
         = flat_map (fun i => page_shipments w section store_id start_date
                                             (page + Z.of_nat i))
                    (seq 0 (S k)).
Proof.
  induction fuel as [|fuel IH]; intros page fetched; simpl; [done |].
  destruct (list_shipments w section store_id start_date page)
    as [e | result] eqn:E.
  - intros H. exists O. rewrite Z.add_0_r.
    unfold stops_at, page_shipments. rewrite E. simpl.
    split; [lia |]. split; [intros; lia |].
    destruct e; try done; injection H as <-; done.
  - destruct (Z.leb_spec (pages result) page) as [Hle | Hgt].
    + intros [= <-]. exists O. rewrite Z.add_0_r.
      unfold stops_at, page_shipments. rewrite E. simpl.
      split; [lia |]. split; [intros; lia |]. by rewrite app_nil_r.
    + rewrite fetch_pages_acc.
      destruct (fetch_pages w fuel section store_id start_date (page + 1) [])
        as [l | |] eqn:El; try done.
      intros [= <-]. destruct (IH _ _ El) as (k & Hk & Hnext & Hstop & ->).
      exists (S k). split; [lia |]. split; [| split].
      * intros i Hi. destruct i as [|i].
        -- rewrite Z.add_0_r. exists result. done.
        -- replace (page + Z.of_nat (S i)) with (page + 1 + Z.of_nat i)
             by lia.
           apply Hnext. lia.
      * by replace (page + Z.of_nat (S k)) with (page + 1 + Z.of_nat k)
          by lia.
      * change (seq 0 (S (S k))) with (0%nat :: seq 1 (S k)).
        cbn [flat_map]. rewrite Z.add_0_r. unfold page_shipments at 2.
        rewrite E. f_equal.
        rewrite flat_map_seq_shift.
        apply flat_map_ext. intros i. f_equal. lia.
Qed.

End FetchFacts.

(** ** X25 -- the pagination of an account fetches the pages 1, 2, ... in
    order, each once: what it returns is the shipments of the pages up to
    the one where it stops, and it stops at the first page that is the last
    one announced or whose call fails with a gateway exception, whose
    shipments are then missing. *)
Theorem pages_are_fetched_in_order
        (w : World) (section : string) (store_id : option Z)
        (start_date : string) (fuel : nat) (fetched : list Shipment) :
  fetch_pages w fuel section store_id start_date 1 [] = Done fetched ->
  exists k,
    (k < fuel)%nat
    /\ (forall i, (i < k)%nat ->
          has_next w section store_id start_date (1 + Z.of_nat i))
    /\ stops_at w section store_id start_date (1 + Z.of_nat k)
    /\ fetched
       = flat_map (fun i => page_shipments w section store_id start_date
                                           (1 + Z.of_nat i))
                  (seq 0 (S k)).
Proof. apply fetch_pages_in_order. Qed.

Lemma pages_are_fetched_in_order_witness :
  exists k,
    stops_at remote_flaky "shipstation" None "2026-10-28" (1 + Z.of_nat k)
    /\ [shipped 7001 "WEB-1001"]
       = flat_map (fun i => page_shipments remote_flaky "shipstation" None
                                           "2026-10-28" (1 + Z.of_nat i))
                  (seq 0 (S k)).
Proof.
  destruct (pages_are_fetched_in_order remote_flaky "shipstation" None
              "2026-10-28" 3 [shipped 7001 "WEB-1001"] eq_refl)
    as (k & _ & _ & Hstop & Hall).
  exists k. split; [exact Hstop | exact Hall].
Defined.

Lemma fetch_accounts_concat (w : World) (config : Config.t) (fuel : nat)
      (start_date : string) (accounts : list (string * string)) :
  forall acc fetched,
    fetch_accounts w config fuel accounts start_date acc = Done fetched ->
    exists per,
      Forall2 (fun account l =>
                 fetch_pages w fuel account.1
                             (Config.store_id_of config account.1)
                             start_date 1 [] = Done l)
              accounts per
      /\ fetched = acc ++ concat per.
Proof.
  induction accounts as [|[section label] accounts IH]; intros acc fetched;
    simpl.
  - intros [= <-]. exists []. split; [constructor | by rewrite app_nil_r].
  - rewrite fetch_pages_acc.
    destruct (fetch_pages w fuel section _ start_date 1 []) as [l | |] eqn:E;
      try done.
    intros H. destruct (IH _ _ H) as (per & Hper & ->).
    exists (l :: per). split; [by constructor |].
    simpl. by rewrite app_assoc.
Qed.

(** ** X26 -- the accounts are polled one after the other and independently:
    what the run fetched is, account by account in the configured order,
    what the pagination of that account alone returns; a gateway failure in
    one account takes nothing away from the others. *)
Theorem accounts_are_polled_independently
        (w : World) (config : Config.t) (fuel : nat) (start_date : string)
        (accounts : list (string * string)) (fetched : list Shipment) :
  fetch_accounts w config fuel accounts start_date [] = Done fetched ->
  exists per,
    Forall2 (fun account l =>
               fetch_pages w fuel account.1
                           (Config.store_id_of config account.1)
                           start_date 1 [] = Done l)
            accounts per
    /\ fetched = concat per.
Proof. apply fetch_accounts_concat. Qed.

Lemma accounts_are_polled_independently_witness :
  exists per,
    Forall2 (fun account l =>
               fetch_pages remote_flaky 3 account.1
                           (Config.store_id_of us_only account.1)
                           "2026-10-28" 1 [] = Done l)
            (Config._get_all_accounts us_only) per
    /\ [shipped 7001 "WEB-1001"] = concat per.
Proof.
  exact (accounts_are_polled_independently remote_flaky us_only 3
           "2026-10-28" (Config._get_all_accounts us_only)
           [shipped 7001 "WEB-1001"] eq_refl).
Defined.

End FetchFacts.

(** ** Flow 1: pending records and the orders behind them *)

Module TraceFacts.
Import Exn XmlParser Sage OrderMapper FileManager Pending Config Flow1.
Import Flow1Spec Scenario Flow1RunFacts.

Lemma backed_cons (w : World) (e : effect) (rest : list effect) :
  is_pending_write e = false ->
  (forall account order, e = GatewayCreate account order ->
     match rest with PendingSaved _ :: _ => False | _ => True end) ->
  backed w (e :: rest) = backed w rest.
Proof.
  intros He Hc. destruct e; try done.
  specialize (Hc _ _ eq_refl).
  destruct rest as [|[] rest]; done.
Qed.

Lemma backed_head (w : World) (trace : list effect) :
  backed w trace = true ->
  match trace with PendingSaved _ :: _ => False | _ => True end.
Proof. by destruct trace as [|[] ?]. Qed.

Lemma backed_app (w : World) (t1 : list effect) :
  forall t2, backed w t1 = true -> backed w t2 = true ->
             backed w (t1 ++ t2) = true.
Proof.
  remember (List.length t1) as n eqn:Hn. revert t1 Hn.
  induction n as [n IH] using lt_wf_ind. intros t1 Hn t2 H1 H2.
  destruct t1 as [|e r]; [done |].
  destruct e as [o | a num | a order | entry | pair | pair reason].
  - simpl in H1 |- *.
    apply (IH (List.length r)); [subst n; simpl; lia | done | done | done].
  - simpl in H1 |- *.
    apply (IH (List.length r)); [subst n; simpl; lia | done | done | done].
  - destruct r as [|e1 r1].
    + simpl. pose proof (backed_head w _ H2) as Hh.
      destruct t2 as [|[] t2]; done.
    + destruct e1 as [o | a1 num | a1 order1 | entry | pair | pair reason].
      * change (backed w ((SageLookup o :: r1) ++ t2) = true).
        change (backed w (SageLookup o :: r1) = true) in H1.
        apply (IH (List.length (SageLookup o :: r1)));
          [subst n; simpl; lia | done | done | done].
      * change (backed w ((GatewayFind a1 num :: r1) ++ t2) = true).
        change (backed w (GatewayFind a1 num :: r1) = true) in H1.
        apply (IH (List.length (GatewayFind a1 num :: r1)));
          [subst n; simpl; lia | done | done | done].
      * change (backed w ((GatewayCreate a1 order1 :: r1) ++ t2) = true).
        change (backed w (GatewayCreate a1 order1 :: r1) = true) in H1.
        apply (IH (List.length (GatewayCreate a1 order1 :: r1)));
          [subst n; simpl; lia | done | done | done].
      * destruct r1 as [|e2 r2]; [done |].
        destruct e2; try done. simpl in H1 |- *.
        apply andb_prop in H1 as [Hc Hr]. rewrite Hc. simpl.
        apply (IH (List.length r2)); [subst n; simpl; lia | done | done | done].
      * change (backed w ((MovedToProcessed pair :: r1) ++ t2) = true).
        change (backed w (MovedToProcessed pair :: r1) = true) in H1.
        apply (IH (List.length (MovedToProcessed pair :: r1)));
          [subst n; simpl; lia | done | done | done].
      * change (backed w ((MovedToError pair reason :: r1) ++ t2) = true).
        change (backed w (MovedToError pair reason :: r1) = true) in H1.
        apply (IH (List.length (MovedToError pair reason :: r1)));
          [subst n; simpl; lia | done | done | done].
  - done.
  - simpl in H1 |- *.
    apply (IH (List.length r)); [subst n; simpl; lia | done | done | done].
  - simpl in H1 |- *.
    apply (IH (List.length r)); [subst n; simpl; lia | done | done | done].
Qed.

Lemma backed_free (w : World) (trace : list effect) :
  Forall (fun x => is_pending_write x = false) trace ->
  backed w trace = true.
Proof.
  induction 1 as [|e r He Hr IH]; [done |].
  destruct e; try done.
  destruct r as [|e1 r1]; [done |].
  apply Forall_cons in Hr as [He1 _]. by destruct e1.
Qed.

(** What [backed] says about a pending record of the trace. *)
Lemma backed_meaning (w : World) (trace : list effect) :
  backed w trace = true ->
  forall pre entry post,
    trace = pre ++ PendingSaved entry :: post ->
    exists pre' order pair post',
      pre = pre' ++ [GatewayCreate (pe_account entry) order]
      /\ orderNumber order = pe_order_number entry
      /\ post = MovedToProcessed pair :: post'
      /\ accepted w (pe_account entry) order = true.
Proof.
  remember (List.length trace) as n eqn:Hn. revert trace Hn.
  induction n as [n IH] using lt_wf_ind. intros trace Hn Hb pre entry post ->.
  destruct pre as [|e pre].
  - by simpl in Hb.
  - assert (Hrest : forall r, e :: pre ++ PendingSaved entry :: post = e :: r ->
                              backed w r = true ->
                              exists pre' order pair post',
                                e :: pre
                                = pre'
                                  ++ [GatewayCreate (pe_account entry) order]
                                /\ orderNumber order = pe_order_number entry
                                /\ post = MovedToProcessed pair :: post'
                                /\ accepted w (pe_account entry) order
                                   = true).
    { intros r [= <-] Hr.
      destruct (IH (List.length (pre ++ PendingSaved entry :: post))
                   ltac:(subst n; simpl; lia) _ eq_refl Hr pre entry post
                   eq_refl)
        as (pre' & order & pair & post' & -> & Ho & -> & Hacc).
      by exists (e :: pre'), order, pair, post'. }
    destruct e as [o | a num | a order | entry0 | pair | pair reason];
      try (apply (Hrest _ eq_refl); exact Hb).
    + destruct pre as [|e1 pre1].
      * simpl in Hb. destruct post as [|[] post]; try done.
        apply andb_prop in Hb as [Hc _]. apply andb_prop in Hc as [Hc Hacc].
        apply andb_prop in Hc as [Ha Ho].
        apply String.eqb_eq in Ha, Ho. subst a.
        by exists [], order, pair, post.
      * destruct e1 as [o | a1 num | a1 order1 | entry1 | pair1 | pair1 reason];
          try (apply (Hrest _ eq_refl); exact Hb).
        destruct pre1 as [|e2 pre2]; [done |].
        destruct e2; try done. simpl in Hb.
        apply andb_prop in Hb as [_ Hb].
        destruct (IH (List.length (pre2 ++ PendingSaved entry :: post))
                     ltac:(subst n; simpl; rewrite !List.length_app; simpl; lia)
                     _ eq_refl Hb pre2 entry post eq_refl)
          as (pre' & order' & pair' & post' & -> & Ho & -> & Hacc).
        exists (GatewayCreate a order :: PendingSaved entry1
                :: MovedToProcessed pair :: pre'), order', pair', post'.
        done.
    + by simpl in Hb.
Qed.

Lemma lookups_backed (w : World) (l : list effect) :
  Forall (fun x => is_sage_lookup x = true) l -> backed w l = true.
Proof.
  intros H. apply backed_free. eapply Forall_impl; [exact H |].
  intros x. apply lookup_not_pending.
Qed.

Lemma remote_calls_backed (w : World) (l : list effect) :
  Forall (fun x => is_remote_call x = true) l -> backed w l = true.
Proof.
  intros H. apply backed_free. eapply Forall_impl; [exact H |].
  intros x. apply remote_not_pending.
Qed.

Section BackedFacts.
Variable w : World.
Variable config : Config.t.
Variable sage : option SageClient.
Variable dry_run : bool.

Lemma handle_backed (relocate : bool) (pair : FilePair) (e : exn)
      (st : RunState) :
  backed w (effects st) = true ->
  backed w (effects (handle relocate pair e st)) = true.
Proof.
  intros H. destruct e; simpl; try done;
    (apply backed_app; [done | by destruct relocate]).
Qed.

Lemma process_pair_backed (st : RunState) (pair : FilePair) :
  backed w (effects st) = true ->
  backed w (effects (process_pair w config sage dry_run st pair)) = true.
Proof.
  intros Hst. unfold process_pair.
  pose proof (try_unit_cases w config sage dry_run pair
                (mkProgress (effects st) (ledger st))) as H.
  simpl in H. destruct H as (lookups & tail & Heff & Hlk & Hcases).
  destruct (try_unit _ _ _ _ _ _) as [p' ending]. simpl in Heff, Hcases.
  assert (Hdone : backed w tail = true -> backed w (done_effects p') = true).
  { intros Ht. rewrite Heff.
    apply backed_app; [done |]. apply backed_app; [| done].
    by apply lookups_backed. }
  destruct Hcases as [(-> & -> & _)
                     | [(h & -> & -> & _)
                       | [(-> & _ & -> & _)
                         | [(-> & _ & account & order & entry & ->
                             & _ & Hord & Hacc & Hok)
                           | (e & -> & Hrem & _)]]]]; simpl.
  - apply Hdone. by destruct dry_run.
  - by apply Hdone.
  - by apply Hdone.
  - apply Hdone. simpl. by rewrite Hord, Hacc, !String.eqb_refl, Hok.
  - apply (handle_backed _ _ _
             (mkState (counters st) (held_orders st) (done_effects p')
                      (cur_ledger p'))).
    simpl. apply Hdone. by apply remote_calls_backed.
Qed.

Lemma push_held_backed (st : RunState) (h : HeldOrder) :
  backed w (effects st) = true ->
  backed w (effects (push_held w st h)) = true.
Proof.
  intros Hst. unfold push_held.
  pose proof (submit_ending w (held_pair h) (held_header h) (held_detail h)
                (held_account h) (held_store_id h) []
                (mkProgress (effects st) (ledger st))) as H.
  pose proof (submit_accepted w (held_pair h) (held_header h)
                (held_detail h) (held_account h) (held_store_id h) []
                (mkProgress (effects st) (ledger st))) as Hok.
  simpl in H.
  destruct (submit _ _ _ _ _ _ _ _) as [p' ending]. simpl in H, Hok.
  destruct H as [(-> & entry & -> & Heff & _)
                | (e & tail & -> & Heff & Hrem & _)]; simpl.
  - rewrite Heff. apply backed_app; [done |]. simpl.
    by rewrite !String.eqb_refl, (Hok eq_refl).
  - apply (handle_backed _ _ _
             (mkState (counters st) (held_orders st) (done_effects p')
                      (cur_ledger p'))).
    simpl. rewrite Heff. apply backed_app; [done |].
    by apply remote_calls_backed.
Qed.

Lemma run_backed (pairs : list FilePair) (answer : choice) (l : Ledger) :
  backed w (effects (run_flow1 w config sage dry_run pairs answer l)) = true.
Proof.
  unfold run_flow1, decide_held.
  assert (Hmain : forall st,
             backed w (effects st) = true ->
             backed w (effects (fold_left (process_pair w config sage dry_run)
                                        pairs st)) = true).
  { induction pairs as [|p ps IH]; intros st Hst; [done |].
    simpl. apply IH. by apply process_pair_backed. }
  specialize (Hmain (initial l) eq_refl).
  set (st := fold_left (process_pair w config sage dry_run) pairs (initial l))
    in *.
  assert (Hskip : backed w (effects (fold_left skip_held (held_orders st) st))
                  = true).
  { destruct (skip_all_summary (held_orders st) st) as (-> & _). done. }
  assert (Hpush : forall hs st0,
             backed w (effects st0) = true ->
             backed w (effects (fold_left (push_held w) hs st0)) = true).
  { induction hs as [|h hs IH]; intros st0 H0; [done |].
    simpl. apply IH. by apply push_held_backed. }
  destruct dry_run; [done |]. destruct answer; [by apply Hpush | done].
Qed.

End BackedFacts.

Lemma accepted_returns (w : World) (account : string) (order : Order) :
  accepted w account order = true ->
  create_or_update_order w account order = inr tt.
Proof.
  unfold accepted.
  by destruct (create_or_update_order w account order) as [|[]].
Qed.

(** ** X27 -- no pending record without an accepted order: in the trace of a
    run, every write of a pending record comes directly after the creation
    of an order in the account of the record and under its order number,
    the gateway of the run answers that creation by returning, not by
    raising, and the write is directly followed by the move of the pair to
    the processed folder. *)
Theorem pending_records_are_backed_by_orders
        (w : World) (config : Config.t) (sage : option SageClient)
        (dry_run : bool) (pairs : list FilePair) (answer : choice)
        (l : Ledger) (pre post : list effect) (entry : PendingEntry) :
  effects (run_flow1 w config sage dry_run pairs answer l)
  = pre ++ PendingSaved entry :: post ->
  exists pre' order pair post',
    pre = pre' ++ [GatewayCreate (pe_account entry) order]
    /\ orderNumber order = pe_order_number entry
    /\ create_or_update_order w (pe_account entry) order = inr tt
    /\ post = MovedToProcessed pair :: post'.
Proof.
  intros Htrace.
  destruct (backed_meaning w _ (run_backed w config sage dry_run pairs
                                           answer l)
                           pre entry post Htrace)
    as (pre' & order & pair & post' & Hpre & Hord & Hpost & Hok).
  exists pre', order, pair, post'.
  split; [exact Hpre |]. split; [exact Hord |].
  split; [by apply accepted_returns | exact Hpost].
Qed.

Lemma pending_records_are_backed_by_orders_witness :
  exists order pair,
    orderNumber order = "HO1002_SHIP1"
    /\ create_or_update_order (world_of plain_header matching_detail)
                              "shipstation" order = inr tt
    /\ pair = unit1.
Proof.
  destruct (pending_records_are_backed_by_orders
              (world_of plain_header matching_detail) us_only None false
              [unit1] PushAll ∅
              [GatewayFind "shipstation" "HO1002_SHIP1";
               GatewayCreate "shipstation"
                 (map_to_shipstation
                    (parse_header plain_header)
                    (parse_detail float_of_digits matching_detail)
                    None [])]
              [MovedToProcessed unit1]
              (pending_data (parse_header plain_header)
                            (parse_detail float_of_digits matching_detail)
                            "HO1002_SHIP1" "shipstation" []
                            "2026-11-04T10:00:00"))
    as (pre' & order & pair & post' & _ & Hord & Hok & Hpost).
  - vm_compute. reflexivity.
  - exists order, pair. split; [exact Hord |].
    split; [exact Hok | by injection Hpost].
Defined.

End TraceFacts.

(** ** The probe for an existing order *)

Module GatewayFacts.
Import Exn ShipStation RetrySpec Gateway RetryFacts.


End GatewayFacts.

(** ** The address and the notes of the order *)

Module OrderExtrasFacts.
Import XmlParser OrderMapper Pending OrderExtras.

Lemma if_truthy_default (s : string) : default "" (if_truthy s) = s.
Proof. by destruct s. Qed.

Lemma if_truthy_None (s : string) : if_truthy s = None <-> s = "".
Proof. by destruct s. Qed.

(** ** X29 -- the address sent to the gateway and the address kept for the
    output files are the same: field by field the snapshot of the pending
    record holds what [_build_ship_to] sends, with the empty string where
    the order leaves an optional key out, and a key is left out exactly when
    its value is empty. *)
Theorem sent_and_saved_address_agree (header : ShipmentHeader) :
  let sent := _build_ship_to header in
  let saved := snapshot_ship_to header in
  a_name sent = st_name saved /\ a_street1 sent = st_street1 saved
  /\ a_city sent = st_city saved /\ a_state sent = st_state saved
  /\ a_postalCode sent = st_postalCode saved
  /\ a_country sent = st_country saved
  /\ a_residential sent = st_residential saved
  /\ default "" (a_street2 sent) = st_street2 saved
  /\ default "" (a_street3 sent) = st_street3 saved
  /\ default "" (a_phone sent) = st_phone saved
  /\ default "" (a_email sent) = st_email saved
  /\ (a_street2 sent = None <-> st_street2 saved = "")
  /\ (a_street3 sent = None <-> st_street3 saved = "")
  /\ (a_phone sent = None <-> st_phone saved = "")
  /\ (a_email sent = None <-> st_email saved = "").
Proof.
  intros sent saved. unfold sent, saved, _build_ship_to, snapshot_ship_to.
  simpl. rewrite !if_truthy_default.
  repeat split; try reflexivity; try apply if_truthy_None.
Qed.

Lemma join_truthy (sep first : string) (rest : list string) :
  Py.truthy first = true -> Py.truthy (join sep (first :: rest)) = true.
Proof.
  destruct first as [|c first]; [done |]. intros _.
  by destruct rest.
Qed.

Lemma notes_parts_truthy (str_of_float : Q -> string)
      (header : ShipmentHeader) (detail : ShipmentDetail) :
  Forall (fun p => Py.truthy p = true)
         (notes_parts str_of_float header detail).
Proof.
  unfold notes_parts. apply Forall_app. split; [| apply Forall_app; split].
  - destruct (Py.truthy _); by repeat constructor.
  - destruct (_ && _); by repeat constructor.
  - destruct (_ <? _)%nat; [| constructor].
    constructor; [done |]. apply Forall_forall.
    intros ? (p & -> & _)%list_elem_of_fmap. reflexivity.
Qed.

(** ** X30 -- the notes of the order: the key is left out exactly when there
    are no shipping terms, no carrier account (an account of 0 counts as
    none) and at most one package; when it is there its text is not empty;
    and an order of several packages lists every one of them. *)
Theorem notes_are_left_out_only_when_empty
        (str_of_float : Q -> string) (header : ShipmentHeader)
        (detail : ShipmentDetail) :
  let terms := getattr header "optional_text_009" in
  let account := getattr header "optional_text_010" in
  let notes := internalNotes str_of_float header detail in
  (notes = None
   <-> terms = "" /\ (account = "" \/ account = "0")
       /\ (List.length (packages detail) <= 1)%nat)
  /\ notes <> Some ""
  /\ ((List.length (packages detail) <= 1)%nat
      \/ Forall (fun p => package_note str_of_float p
                          ∈ notes_parts str_of_float header detail)
                (packages detail)).
Proof.
  intros terms account notes. split; [| split].
  - unfold notes, internalNotes, notes_parts. fold terms account.
    destruct (Nat.ltb_spec 1 (List.length (packages detail))) as [Hn | Hn].
    + split.
      * destruct (_ ++ _ ++ _) eqn:E; [| done].
        apply app_eq_nil in E as [_ E]. by apply app_eq_nil in E as [_ E].
      * intros (_ & _ & ?). lia.
    + rewrite app_nil_r. destruct terms as [|c t]; cbn [Py.truthy app].
      * destruct (String.eqb_spec account "0") as [E | E]; cbn [negb].
        -- rewrite andb_false_r.
           split; [intros _; split; [done | split; [by right | lia]] | done].
        -- rewrite andb_true_r. destruct account as [|c a]; cbn [Py.truthy].
           ++ split; [intros _; split; [done | split; [by left | lia]]
                     | done].
           ++ split; [done |]. by intros (_ & [? | ?] & _).
      * split; [| by intros [? _]].
        by destruct (Py.truthy account && negb (String.eqb account "0")).
  - unfold notes, internalNotes.
    pose proof (notes_parts_truthy str_of_float header detail) as H.
    destruct (notes_parts str_of_float header detail) as [|p ps]; [done |].
    apply Forall_cons in H as [Hp _]. intros [= E].
    apply (join_truthy " | " p ps) in Hp.
    change (join " | " (p :: ps) = "") in E. by rewrite E in Hp.
  - destruct (Nat.ltb_spec 1 (List.length (packages detail))) as [Hn | Hn];
      [| by left].
    right. apply Forall_forall. intros p Hp. unfold notes_parts.
    apply Nat.ltb_lt in Hn. rewrite Hn.
    apply elem_of_app. right. apply elem_of_app. right.
    apply elem_of_cons. right. by apply list_elem_of_fmap_2.
Qed.

End OrderExtrasFacts.
